(** * Customer patronage forecast: a model of [scripts/customer_patronage_forecast.py]

    The script is a straight-line pipeline over pandas, statsmodels,
    matplotlib and scikit-learn.  What the script itself contributes is
    - the nesting of [try]/[except] blocks and [if df is not None] guards,
    - the variables it binds and reads again later,
    - the grouping of rows by week, the differencing, the train/test slices,
    - the arguments it hands to every library call.
    These are modelled here.  The numerical routines of the libraries
    (date parsing, the Dickey-Fuller test, ARIMA estimation, plotting, MAPE)
    are taken as a [Library] of functions that either return or raise. *)

From Stdlib Require Import ZArith List String Lia Sorted.
From Stdlib Require Import Floats.PrimFloat Floats.SpecFloat Floats.FloatOps Floats.FloatAxioms.
From stdpp Require Import gmap strings list sorting.

Set Default Proof Using "Type".
Open Scope string_scope.
Open Scope list_scope.
Open Scope Z_scope.

(** ** Values *)

(** A cell of a table: missing ([NaN], [NaT], [<NA>]), a number (also a
    [datetime64[ns]] instant, which pandas stores as an integer), or text. *)
Inductive cell :=
| NA
| Int (z : Z)
| Str (s : string).

#[global] Instance cell_eq_dec : EqDecision cell.
Proof. solve_decision. Defined.

(** A [DataFrame] maps column names to columns; a [Series] of weekly counts or
    of their differences is a list of integers in positional order. *)
Abbreviation DataFrame := (gmap string (list cell)).
Abbreviation series := (list Z).

(** ** Exceptions

    Only the classes the script tells apart are distinguished; every class
    here derives from Python's [Exception]. *)
Inductive exn_class :=
| FileNotFoundError
| EmptyDataError
| ParserError
| KeyError
| NameError
| TypeError
| OtherException.

Record exn := mk_exn { exn_cls : exn_class; exn_msg : string }.

Inductive result (A : Type) :=
| Ok (a : A)
| Raise (e : exn).
Arguments Ok {A} a.
Arguments Raise {A} e.

(** ** Python slices [s[:stop]] and [s[start:]]

    A negative bound counts from the end and every bound is clamped to
    [0 .. len], so a slice never raises. *)
Definition slice_bound (len : nat) (i : Z) : nat :=
  Z.to_nat (Z.max 0 (Z.min (Z.of_nat len) (if i <? 0 then i + Z.of_nat len else i))).

Definition slice_to {A} (stop : Z) (s : list A) : list A :=
  take (slice_bound (length s) stop) s.

Definition slice_from {A} (start : Z) (s : list A) : list A :=
  drop (slice_bound (length s) start) s.

(** ** [Series.diff()] and [Series.dropna()]

    [diff] leaves the first position missing and puts [x_i - x_(i-1)]
    everywhere else; [dropna] removes the missing positions. *)
Fixpoint diff_from (prev : Z) (s : series) : list (option Z) :=
  match s with
  | [] => []
  | x :: s' => Some (x - prev) :: diff_from x s'
  end.

Definition diff (s : series) : list (option Z) :=
  match s with
  | [] => []
  | x :: s' => None :: diff_from x s'
  end.

Fixpoint dropna (s : list (option Z)) : series :=
  match s with
  | [] => []
  | Some x :: s' => x :: dropna s'
  | None :: s' => dropna s'
  end.

(** ** [df.groupby('InvoiceWeek')['CustomerID'].nunique()]

    pandas keeps one group per distinct key, sorted by key ([sort=True]),
    drops the rows whose key is missing ([dropna=True]), and [nunique]
    counts the distinct values of a group that are not missing. *)
Definition add_unique (c : cell) (vs : list cell) : list cell :=
  match c with
  | NA => vs
  | _ => if decide (c ∈ vs) then vs else vs ++ [c]
  end.

Fixpoint add_to_group (w : Z) (c : cell) (gs : list (Z * list cell))
  : list (Z * list cell) :=
  match gs with
  | [] => [(w, add_unique c [])]
  | (k, vs) :: gs' =>
      if w <? k then (w, add_unique c []) :: gs
      else if w =? k then (k, add_unique c vs) :: gs'
      else (k, vs) :: add_to_group w c gs'
  end.

Definition add_row (gs : list (Z * list cell)) (row : option Z * cell)
  : list (Z * list cell) :=
  match fst row with
  | Some w => add_to_group w (snd row) gs
  | None => gs
  end.

Definition groups (rows : list (option Z * cell)) : list (Z * list cell) :=
  fold_left add_row rows [].

(** The customers recorded for week [k]; none when the week has no group. *)
Fixpoint group_of (k : Z) (gs : list (Z * list cell)) : list cell :=
  match gs with
  | [] => []
  | (k0, vs) :: gs' => if k =? k0 then vs else group_of k gs'
  end.

(** Week numbers are numeric ([UInt32]) or missing; a text key is outside
    the model and makes the grouping raise. *)
Fixpoint week_keys (col : list cell) : option (list (option Z)) :=
  match col with
  | [] => Some []
  | NA :: col' => option_map (cons None) (week_keys col')
  | Int w :: col' => option_map (cons (Some w)) (week_keys col')
  | Str _ :: _ => None
  end.

(** Lines 40-41: the counts, in the order of the groups.  A missing column
    raises [KeyError].  Every column of a table has one cell per row, and
    [zip] pairs the week and the customer of each row. *)
Definition groupby_nunique (df : DataFrame) : result series :=
  match df !! "InvoiceWeek" with
  | None => Raise (mk_exn KeyError "'InvoiceWeek'")
  | Some weeks =>
      match df !! "CustomerID" with
      | None => Raise (mk_exn KeyError "'Column not found: CustomerID'")
      | Some customers =>
          match week_keys weeks with
          | None => Raise (mk_exn TypeError "week keys are not numeric")
          | Some ks =>
              Ok (map (fun g => Z.of_nat (length (snd g)))
                      (groups (zip ks customers)))
          end
      end
  end.

(** ** The Dickey-Fuller decision: [p_value <= 0.05] on binary64 floats

    [alpha] is the double that the literal [0.05] denotes; the comparison is
    false on NaN. *)
Definition alpha : float := 0x1.999999999999ap-5%float.

Definition stationary (p_value : float) : bool := PrimFloat.leb p_value alpha.

(** ** The libraries, the script's variables and what a run leaves behind *)

Section Pipeline.

Context {Model Results Forecast : Type}.

(** Every library routine the script calls, as a function of its arguments
    that returns or raises.  [adfuller] stands for [adfuller(x)[1]], the
    p-value; [subplots_weekly], [plot_observed], [plot_predicted] and
    [fill_between] stand for lines 114-121, 122, 123 and 124-131. *)
Record Library := {
  to_datetime : list cell -> result (list cell);
  isocalendar_week : list cell -> result (list cell);
  adfuller : series -> result float;
  plot_acf : series -> result unit;
  plot_pacf : series -> result unit;
  savefig : string -> result unit;
  ARIMA : series -> Z * Z * Z -> result Model;
  fit : Model -> result Results;
  plot_diagnostics : Results -> result unit;
  get_forecast : Results -> nat -> result Forecast;
  predicted_mean : Forecast -> list float;
  conf_int : Forecast -> list (float * float);
  subplots_weekly : series -> result unit;
  plot_observed : series -> result unit;
  plot_predicted : list float -> result unit;
  fill_between : list (float * float) -> result unit;
  mean_absolute_percentage_error : series -> list float -> result float
}.

(** What a run does that can be observed: the lines it prints, the figure
    files it writes, and the library calls it makes with their arguments. *)
Inductive event :=
| Print (line : string)
| PrintMAPE (value : float)
| Savefig (path : string)
| CallAdfuller (x : series)
| CallPlotAcf (x : series)
| CallPlotPacf (x : series)
| CallARIMA (endog : series) (order : Z * Z * Z)
| CallFit (m : Model)
| CallPlotDiagnostics (r : Results)
| CallGetForecast (r : Results) (steps : nat)
| CallMAPE (y_true : series) (y_pred : list float).

(** The module-level variables.  [None] is an unbound name, except for [df],
    where it is Python's [None] ([df] is bound on every path that leaves the
    load stage without an uncaught exception). *)
Record env := mk_env {
  df : option DataFrame;
  patronage_weekly : option series;
  d : option Z;
  data_diff : option series;
  p : option Z;
  q : option Z;
  train_data : option series;
  test_data : option series;
  model : option Model;
  results : option Results;
  forecast : option Forecast;
  forecast_values : option (list float);
  forecast_ci : option (list (float * float));
  mape : option float
}.

Definition unbound : env :=
  mk_env None None None None None None None None None None None None None None.

Definition set_df v (e : env) :=
  mk_env v (patronage_weekly e) (d e) (data_diff e) (p e) (q e) (train_data e)
    (test_data e) (model e) (results e) (forecast e) (forecast_values e)
    (forecast_ci e) (mape e).
Definition set_patronage_weekly v (e : env) :=
  mk_env (df e) v (d e) (data_diff e) (p e) (q e) (train_data e)
    (test_data e) (model e) (results e) (forecast e) (forecast_values e)
    (forecast_ci e) (mape e).
Definition set_d v (e : env) :=
  mk_env (df e) (patronage_weekly e) v (data_diff e) (p e) (q e) (train_data e)
    (test_data e) (model e) (results e) (forecast e) (forecast_values e)
    (forecast_ci e) (mape e).
Definition set_data_diff v (e : env) :=
  mk_env (df e) (patronage_weekly e) (d e) v (p e) (q e) (train_data e)
    (test_data e) (model e) (results e) (forecast e) (forecast_values e)
    (forecast_ci e) (mape e).
Definition set_p v (e : env) :=
  mk_env (df e) (patronage_weekly e) (d e) (data_diff e) v (q e) (train_data e)
    (test_data e) (model e) (results e) (forecast e) (forecast_values e)
    (forecast_ci e) (mape e).
Definition set_q v (e : env) :=
  mk_env (df e) (patronage_weekly e) (d e) (data_diff e) (p e) v (train_data e)
    (test_data e) (model e) (results e) (forecast e) (forecast_values e)
    (forecast_ci e) (mape e).
Definition set_train_data v (e : env) :=
  mk_env (df e) (patronage_weekly e) (d e) (data_diff e) (p e) (q e) v
    (test_data e) (model e) (results e) (forecast e) (forecast_values e)
    (forecast_ci e) (mape e).
Definition set_test_data v (e : env) :=
  mk_env (df e) (patronage_weekly e) (d e) (data_diff e) (p e) (q e)
    (train_data e) v (model e) (results e) (forecast e) (forecast_values e)
    (forecast_ci e) (mape e).
Definition set_model v (e : env) :=
  mk_env (df e) (patronage_weekly e) (d e) (data_diff e) (p e) (q e)
    (train_data e) (test_data e) v (results e) (forecast e) (forecast_values e)
    (forecast_ci e) (mape e).
Definition set_results v (e : env) :=
  mk_env (df e) (patronage_weekly e) (d e) (data_diff e) (p e) (q e)
    (train_data e) (test_data e) (model e) v (forecast e) (forecast_values e)
    (forecast_ci e) (mape e).
Definition set_forecast v (e : env) :=
  mk_env (df e) (patronage_weekly e) (d e) (data_diff e) (p e) (q e)
    (train_data e) (test_data e) (model e) (results e) v (forecast_values e)
    (forecast_ci e) (mape e).
Definition set_forecast_values v (e : env) :=
  mk_env (df e) (patronage_weekly e) (d e) (data_diff e) (p e) (q e)
    (train_data e) (test_data e) (model e) (results e) (forecast e) v
    (forecast_ci e) (mape e).
Definition set_forecast_ci v (e : env) :=
  mk_env (df e) (patronage_weekly e) (d e) (data_diff e) (p e) (q e)
    (train_data e) (test_data e) (model e) (results e) (forecast e)
    (forecast_values e) v (mape e).
Definition set_mape v (e : env) :=
  mk_env (df e) (patronage_weekly e) (d e) (data_diff e) (p e) (q e)
    (train_data e) (test_data e) (model e) (results e) (forecast e)
    (forecast_values e) (forecast_ci e) v.

(** ** Statements

    A statement takes the variables to a value or a raised exception, the
    variables afterwards, and the events it produced on the way. *)
Definition M (A : Type) : Type := env -> result A * env * list event.

Definition ret {A} (a : A) : M A := fun e => (Ok a, e, []).

Definition bind {A B} (m : M A) (k : A -> M B) : M B :=
  fun e =>
    match m e with
    | (Ok a, e1, t1) =>
        match k a e1 with
        | (r, e2, t2) => (r, e2, t1 ++ t2)
        end
    | (Raise x, e1, t1) => (Raise x, e1, t1)
    end.

Definition raise {A} (x : exn) : M A := fun e => (Raise x, e, []).
Definition call {A} (r : result A) : M A := fun e => (r, e, []).
Definition emit (ev : event) : M unit := fun e => (Ok tt, e, [ev]).
Definition assign (upd : env -> env) : M unit := fun e => (Ok tt, upd e, []).

(** Reading a name that is not bound raises [NameError]. *)
Definition name {A} (var : env -> option A) (id : string) : M A :=
  fun e =>
    match var e with
    | Some v => (Ok v, e, [])
    | None => (Raise (mk_exn NameError ("name '" ++ id ++ "' is not defined")%string), e, [])
    end.

(** [try: body  except ... as x: handler x] *)
Definition try_except (body : M unit) (handler : exn -> M unit) : M unit :=
  fun e =>
    match body e with
    | (Ok a, e1, t1) => (Ok a, e1, t1)
    | (Raise x, e1, t1) =>
        match handler x e1 with
        | (r, e2, t2) => (r, e2, t1 ++ t2)
        end
    end.

(** [if df is not None: block] *)
Definition if_df (block : M unit) : M unit :=
  fun e =>
    match df e with
    | Some _ => block e
    | None => (Ok tt, e, [])
    end.


Notation "'let*' x ':=' m 'in' k" := (bind m (fun x => k))
  (at level 10, x name, m at level 100, k at level 200).
Notation "m '>>' k" := (bind m (fun _ => k))
  (at level 100, k at level 200, right associativity).

(** ** The stages of the script *)

Variable L : Library.

(** The outcome of [pd.read_csv('../data/processed/cleaned-data.csv')]: the
    table in the file, or the exception raised while reading it. *)
Variable file : result DataFrame.

(** [frame[col]] *)
Definition getitem (frame : DataFrame) (col : string) : M (list cell) :=
  match frame !! col with
  | Some c => ret c
  | None => raise (mk_exn KeyError ("'" ++ col ++ "'")%string)
  end.

(** [df] where a table is needed: subscripting [None] raises [TypeError]. *)
Definition the_frame : M DataFrame :=
  fun e =>
    match df e with
    | Some frame => (Ok frame, e, [])
    | None => (Raise (mk_exn TypeError "'NoneType' object is not subscriptable"), e, [])
    end.

(** [print(f"<prefix>{e}")] *)
Definition log (prefix : string) (x : exn) : M unit :=
  emit (Print (prefix ++ exn_msg x)%string).

(** [plt.savefig(path)]: the file exists once the call has returned. *)
Definition save (path : string) : M unit :=
  call (savefig L path) >> emit (Savefig path).

Definition acf_path := "../figures/customer-patronage-forecast/cpf-acf-parameter-plot.jpg".
Definition pacf_path := "../figures/customer-patronage-forecast/cpf-pacf-parameter-plot.jpg".
Definition diagnostic_path := "../figures/customer-patronage-forecast/cpf-diagnostic-plot.jpg".
Definition forecast_path := "../figures/customer-patronage-forecast/customer-patronage-forecast.jpg".

(** Lines 16-27. *)
Definition load_body : M unit :=
  let* frame := call file in
  assign (set_df (Some frame)) >>
  let* frame := the_frame in
  let* dates := getitem frame "InvoiceDate" in
  let* parsed := call (to_datetime L dates) in
  assign (set_df (Some (<["InvoiceDate" := parsed]> frame))).

Definition load_handler (x : exn) : M unit :=
  match exn_cls x with
  | FileNotFoundError =>
      emit (Print "Error: The file was not found. Please check the file path.") >>
      assign (set_df None)
  | EmptyDataError =>
      emit (Print "Error: The file is empty. Please provide a valid data file.") >>
      assign (set_df None)
  | ParserError =>
      emit (Print "Error: The file could not be parsed. Please check the file format.") >>
      assign (set_df None)
  | _ => raise x
  end.

(** Lines 31-35. *)
Definition weeks_body : M unit :=
  let* frame := the_frame in
  let* dates := getitem frame "InvoiceDate" in
  let* weeks := call (isocalendar_week L dates) in
  assign (set_df (Some (<["InvoiceWeek" := weeks]> frame))).

Definition weeks_handler (x : exn) : M unit :=
  log "Error while extracting weeks from dates: " x >> assign (set_df None).

(** Lines 39-44. *)
Definition aggregation_body : M unit :=
  let* frame := the_frame in
  let* counts := call (groupby_nunique frame) in
  assign (set_patronage_weekly (Some counts)).

Definition aggregation_handler (x : exn) : M unit :=
  log "Error while grouping patronage by week: " x >> assign (set_df None).

(** Lines 48-65. *)
Definition stationarity_body : M unit :=
  let* x := name patronage_weekly "patronage_weekly" in
  emit (CallAdfuller x) >>
  let* p_value := call (adfuller L x) in
  if stationary p_value then
    assign (set_d (Some 0)) >>
    let* x := name patronage_weekly "patronage_weekly" in
    assign (set_data_diff (Some x))
  else
    assign (set_d (Some 1)) >>
    let* x := name patronage_weekly "patronage_weekly" in
    assign (set_data_diff (Some (dropna (diff x)))) >>
    let* dx := name data_diff "data_diff" in
    emit (CallAdfuller dx) >>
    let* p_value_diff := call (adfuller L dx) in
    if stationary p_value_diff then ret tt
    else assign (set_d (Some 2)).

Definition stationarity_handler (x : exn) : M unit :=
  log "Error during stationarity check: " x >> assign (set_df None).

(** Lines 69-75. *)
Definition parameter_plots_body : M unit :=
  let* dx := name data_diff "data_diff" in
  emit (CallPlotAcf dx) >>
  call (plot_acf L dx) >>
  save acf_path >>
  let* dx := name data_diff "data_diff" in
  emit (CallPlotPacf dx) >>
  call (plot_pacf L dx) >>
  save pacf_path.

Definition parameter_plots_handler (x : exn) : M unit :=
  log "Error while plotting ACF and PACF: " x.

(** Line 78. *)
Definition define_parameters : M unit :=
  assign (set_p (Some 1)) >> assign (set_d (Some 1)) >> assign (set_q (Some 1)).

(** Lines 81-85. *)
Definition split_body : M unit :=
  let* x := name patronage_weekly "patronage_weekly" in
  assign (set_train_data (Some (slice_to (-4) x))) >>
  let* x := name patronage_weekly "patronage_weekly" in
  assign (set_test_data (Some (slice_from (-4) x))).

Definition split_handler (x : exn) : M unit :=
  log "Error while splitting data into training and testing sets: " x.

(** Lines 89-93. *)
Definition fit_body : M unit :=
  let* endog := name train_data "train_data" in
  let* p_ := name p "p" in
  let* d_ := name d "d" in
  let* q_ := name q "q" in
  emit (CallARIMA endog (p_, d_, q_)) >>
  let* m := call (ARIMA L endog (p_, d_, q_)) in
  assign (set_model (Some m)) >>
  let* m := name model "model" in
  emit (CallFit m) >>
  let* r := call (fit L m) in
  assign (set_results (Some r)).

Definition fit_handler (x : exn) : M unit :=
  log "Error while fitting ARIMA model: " x.


(** Lines 97-101. *)
Definition diagnostics_body : M unit :=
  let* r := name results "results" in
  emit (CallPlotDiagnostics r) >>
  call (plot_diagnostics L r) >>
  save diagnostic_path.

Definition diagnostics_handler (x : exn) : M unit :=
  log "Error while plotting diagnostics: " x.

(** Lines 104-109. *)
Definition forecast_body : M unit :=
  let* r := name results "results" in
  let* held_out := name test_data "test_data" in
  emit (CallGetForecast r (length held_out)) >>
  let* f := call (get_forecast L r (length held_out)) in
  assign (set_forecast (Some f)) >>
  let* f := name forecast "forecast" in
  assign (set_forecast_values (Some (predicted_mean L f))) >>
  let* f := name forecast "forecast" in
  assign (set_forecast_ci (Some (conf_int L f))).

Definition forecast_handler (x : exn) : M unit :=
  log "Error while forecasting: " x.

(** Lines 113-134. *)
Definition forecast_plot_body : M unit :=
  let* x := name patronage_weekly "patronage_weekly" in
  call (subplots_weekly L x) >>
  let* observed := name train_data "train_data" in
  call (plot_observed L observed) >>
  let* predicted := name forecast_values "forecast_values" in
  call (plot_predicted L predicted) >>
  let* band := name forecast_ci "forecast_ci" in
  call (fill_between L band) >>
  save forecast_path.

Definition forecast_plot_handler (x : exn) : M unit :=
  log "Error while plotting forecast: " x.

(** Lines 137-141. *)
Definition mape_body : M unit :=
  let* y_true := name test_data "test_data" in
  let* y_pred := name forecast_values "forecast_values" in
  emit (CallMAPE y_true y_pred) >>
  let* value := call (mean_absolute_percentage_error L y_true y_pred) in
  assign (set_mape (Some value)) >>
  let* value := name mape "mape" in
  emit (PrintMAPE value).

Definition mape_handler (x : exn) : M unit :=
  log "Error while calculating MAPE: " x.

(** ** The script, with the nesting of the source

    [after_X] is everything the script does once the [try] statement of
    stage [X] is over. *)
Inductive stage :=
| Load
| WeekExtraction
| Aggregation
| Stationarity
| ParameterPlots
| Split
| Fit
| Diagnostics
| ForecastStage
| ForecastPlot
| Mape.

Definition body (st : stage) : M unit :=
  match st with
  | Load => load_body
  | WeekExtraction => weeks_body
  | Aggregation => aggregation_body
  | Stationarity => stationarity_body
  | ParameterPlots => parameter_plots_body
  | Split => split_body
  | Fit => fit_body
  | Diagnostics => diagnostics_body
  | ForecastStage => forecast_body
  | ForecastPlot => forecast_plot_body
  | Mape => mape_body
  end.

Definition handler (st : stage) : exn -> M unit :=
  match st with
  | Load => load_handler
  | WeekExtraction => weeks_handler
  | Aggregation => aggregation_handler
  | Stationarity => stationarity_handler
  | ParameterPlots => parameter_plots_handler
  | Split => split_handler
  | Fit => fit_handler
  | Diagnostics => diagnostics_handler
  | ForecastStage => forecast_handler
  | ForecastPlot => forecast_plot_handler
  | Mape => mape_handler
  end.

Definition run_stage (st : stage) : M unit := try_except (body st) (handler st).

Definition after_forecast_plot : M unit := run_stage Mape.
Definition after_forecast : M unit :=
  if_df (run_stage ForecastPlot >> after_forecast_plot).
Definition after_diagnostics : M unit := run_stage ForecastStage >> after_forecast.
Definition after_fit : M unit := if_df (run_stage Diagnostics >> after_diagnostics).
Definition after_split : M unit := if_df (run_stage Fit >> after_fit).
Definition after_parameter_plots : M unit :=
  define_parameters >> run_stage Split >> after_split.
Definition after_stationarity : M unit :=
  if_df (run_stage ParameterPlots >> after_parameter_plots).
Definition after_aggregation : M unit :=
  if_df (run_stage Stationarity >> after_stationarity).
Definition after_weeks : M unit := if_df (run_stage Aggregation >> after_aggregation).
Definition after_load : M unit := if_df (run_stage WeekExtraction >> after_weeks).

Definition after (st : stage) : M unit :=
  match st with
  | Load => after_load
  | WeekExtraction => after_weeks
  | Aggregation => after_aggregation
  | Stationarity => after_stationarity
  | ParameterPlots => after_parameter_plots
  | Split => after_split
  | Fit => after_fit
  | Diagnostics => after_diagnostics
  | ForecastStage => after_forecast
  | ForecastPlot => after_forecast_plot
  | Mape => ret tt
  end.

Definition script : M unit := run_stage Load >> after_load.

(** A run starts with no variable bound.  [Ok tt] is a normal exit,
    [Raise x] an exit by the uncaught exception [x]. *)
Definition run : result unit * env * list event := script unbound.

Definition exit_of (o : result unit * env * list event) := fst (fst o).
Definition env_of (o : result unit * env * list event) := snd (fst o).
Definition trace_of (o : result unit * env * list event) := snd o.

End Pipeline.

Arguments Library : clear implicits.
Arguments event : clear implicits.
Arguments env : clear implicits.

(** ** A small world to run the script in

    A stand-in for the libraries: dates are day numbers, a week is seven days,
    a model is its training data with its order, every forecast value is 2.5
    and every MAPE 0.25.  The Dickey-Fuller p-values and the outcome of
    [plot_acf] are left open. *)
Definition toy_cell_week (c : cell) : cell :=
  match c with
  | Int day => Int (day / 7 + 1)
  | _ => NA
  end.

Fixpoint toy_parse (col : list cell) : result (list cell) :=
  match col with
  | [] => Ok []
  | Str _ :: _ => Raise (mk_exn OtherException "Unknown datetime string format")
  | c :: col' =>
      match toy_parse col' with
      | Ok parsed => Ok (c :: parsed)
      | Raise x => Raise x
      end
  end.

Definition toy_library (adf : series -> result float) (acf : series -> result unit)
  : Library (series * (Z * Z * Z)) series (list float) :=
  {| to_datetime := toy_parse;
     isocalendar_week := fun col => Ok (map toy_cell_week col);
     adfuller := adf;
     plot_acf := acf;
     plot_pacf := fun _ => Ok tt;
     savefig := fun _ => Ok tt;
     ARIMA := fun endog order => Ok (endog, order);
     fit := fun m => Ok (fst m);
     plot_diagnostics := fun _ => Ok tt;
     get_forecast := fun r steps => Ok (repeat 0x1.4p+1%float steps);
     predicted_mean := fun f => f;
     conf_int := fun f => map (fun v => (v - 1, v + 1)%float) f;
     subplots_weekly := fun _ => Ok tt;
     plot_observed := fun _ => Ok tt;
     plot_predicted := fun _ => Ok tt;
     fill_between := fun _ => Ok tt;
     mean_absolute_percentage_error := fun _ _ => Ok 0x1p-2%float |}.

(** Six weeks of invoices; customers 1..5, one row without a customer. *)
Definition toy_table : DataFrame :=
  <["InvoiceDate" := [Int 0; Int 1; Int 8; Int 9; Int 15; Int 22; Int 23; Int 23; Int 29; Int 36; Int 36; Int 37]]>
  (<["CustomerID" := [Int 1; Int 2; Int 1; Int 1; Int 3; Int 1; Int 2; Int 3; NA; Int 4; Int 5; Int 1]]>
  (<["Country" := [Str "UK"; Str "UK"; Str "UK"; Str "UK"; Str "FR"; Str "UK"; Str "UK"; Str "FR"; Str "UK"; Str "DE"; Str "DE"; Str "UK"]]> ∅)).

Definition p_high : float := 0x1.3333333333333p-1%float.
Definition p_low : float := 0x1.47ae147ae147bp-7%float.

(** Both Dickey-Fuller tests report 0.6; every other call returns. *)
Definition toy_run :=
  run (toy_library (fun _ => Ok p_high) (fun _ => Ok tt)) (Ok toy_table).

(** [plot_acf] raises. *)
Definition toy_run_acf_fails :=
  run (toy_library (fun _ => Ok p_high)
         (fun _ => Raise (mk_exn OtherException "boom")))
      (Ok toy_table).

(** Three weeks of invoices only. *)
Definition toy_short_table : DataFrame :=
  <["InvoiceDate" := [Int 0; Int 1; Int 8; Int 15]]>
  (<["CustomerID" := [Int 1; Int 2; Int 1; Int 3]]> ∅).

Definition toy_run_short :=
  run (toy_library (fun _ => Ok p_high) (fun _ => Ok tt)) (Ok toy_short_table).

(** The rows of [toy_table] as pairs of week number and customer. *)
Definition toy_rows : list (option Z * cell) :=
  zip [Some 1; Some 1; Some 2; Some 2; Some 3; Some 4; Some 4; Some 4; Some 5;
       Some 6; Some 6; Some 6]
      [Int 1; Int 2; Int 1; Int 1; Int 3; Int 1; Int 2; Int 3; NA; Int 4; Int 5; Int 1].

(** The same invoices with another [Country] column and a [Quantity] column. *)
Definition toy_table_other_columns : DataFrame :=
  <["Quantity" := [Int 6; Int 6; Int 8; Int 6; Int 6; Int 2; Int 6; Int 6; Int 6;
                   Int 32; Int 6; Int 6]]>
  (<["Country" := [Str "NL"; Str "NL"; Str "NL"; Str "NL"; Str "NL"; Str "NL";
                   Str "NL"; Str "NL"; Str "NL"; Str "NL"; Str "NL"; Str "NL"]]>
   toy_table).

(** ** The weekly transform in the specification's words *)

(** [x] holds, for the weeks that occur in [rows] taken in ascending order,
    the number of distinct customers seen in that week; rows without a week
    and missing customers do not count. *)
Definition weekly_distinct_counts (rows : list (option Z * cell)) (x : series) : Prop :=
  exists weeks_present : list Z,
    StronglySorted Z.lt weeks_present /\
    (forall w, w ∈ weeks_present <-> exists c, (Some w, c) ∈ rows) /\
    length x = length weeks_present /\
    forall i w, weeks_present !! i = Some w ->
      exists ids, x !! i = Some (Z.of_nat (length ids)) /\ NoDup ids /\
                  forall c, c ∈ ids <-> c <> NA /\ (Some w, c) ∈ rows.

(** What the groups built from [rows] satisfy. *)
Definition groups_inv (rows : list (option Z * cell)) (gs : list (Z * list cell)) : Prop :=
  StronglySorted Z.lt gs.*1 /\
  (forall k, k ∈ gs.*1 <-> exists c, (Some k, c) ∈ rows) /\
  (forall k, NoDup (group_of k gs) /\
             forall c, c ∈ group_of k gs <-> c <> NA /\ (Some k, c) ∈ rows).

(** ** Vocabulary for the guarantees *)

Section Guarantees.

Context {Model Results Forecast : Type}.
Variable L : Library Model Results Forecast.
Variable file : result DataFrame.

Abbreviation env' := (env Model Results Forecast).
Abbreviation event' := (event Model Results).
Abbreviation outcome := (result unit * env' * list event')%type.

(** Events that are neither a statistics call nor a parameter plot. *)
Definition background (ev : event') : bool :=
  match ev with
  | CallARIMA _ _ | CallGetForecast _ _ | CallPlotAcf _ | CallPlotPacf _
  | CallAdfuller _ => false
  | _ => true
  end.

Definition quiet (t : list event') : Prop :=
  Forall (fun ev => background ev = true) t.

(** The variables no stage after the split assigns, and those no stage after
    the forecast assigns. *)
Definition view (e : env') :=
  (df e, patronage_weekly e, d e, data_diff e, p e, q e, train_data e, test_data e).

Definition outcome_view (e : env') :=
  (view e, results e, forecast_values e, forecast_ci e).

(** Every forecast request asks for [n] steps from the bound [results], and
    what it returns is what [forecast_values] and [forecast_ci] hold. *)
Definition forecasts_ok (n : nat) (e' : env') (t : list event') : Prop :=
  (forall r k, CallGetForecast r k ∈ t ->
     k = n /\ results e' = Some r /\
     forall f, get_forecast L r k = Ok f ->
       forecast_values e' = Some (predicted_mean L f) /\
       forecast_ci e' = Some (conf_int L f)) /\
  (forall r, results e' = Some r -> CallGetForecast r n ∈ t).

Definition no_other_calls (t : list event') : Prop :=
  forall ev, ev ∈ t ->
    match ev with
    | CallARIMA _ _ | CallPlotAcf _ | CallPlotPacf _ | CallAdfuller _ => False
    | _ => True
    end.

(** One ARIMA call, on [endog] with order (1,1,1), and no plot or test call. *)
Definition fitted_ok (endog : series) (t : list event') : Prop :=
  CallARIMA endog (1, 1, 1) ∈ t /\
  (forall y o, CallARIMA y o ∈ t -> y = endog /\ o = (1, 1, 1)) /\
  (forall ev, ev ∈ t ->
     match ev with
     | CallPlotAcf _ | CallPlotPacf _ | CallAdfuller _ => False
     | _ => True
     end).

(** What holds of a run that got past the stationarity stage with the weekly
    series [x]. *)
Definition reached (x : series) (e' : env') (t : list event') : Prop :=
  df e' <> None /\
  patronage_weekly e' = Some x /\
  p e' = Some 1 /\ d e' = Some 1 /\ q e' = Some 1 /\
  train_data e' = Some (slice_to (-4) x) /\
  test_data e' = Some (slice_from (-4) x) /\
  CallARIMA (slice_to (-4) x) (1, 1, 1) ∈ t /\
  (forall y o, CallARIMA y o ∈ t -> y = slice_to (-4) x /\ o = (1, 1, 1)) /\
  forecasts_ok (length (slice_from (-4) x)) e' t /\
  (forall dx, CallPlotAcf dx ∈ t \/ CallPlotPacf dx ∈ t -> data_diff e' = Some dx) /\
  (forall dx, data_diff e' = Some dx -> CallPlotAcf dx ∈ t).

(** The p-value exceeds 0.05. *)
Definition exceeds_alpha (p_value : float) : bool := PrimFloat.ltb alpha p_value.

(** The stationarity stage raised on the weekly series [x]. *)
Definition adf_failed (x : series) : Prop :=
  (exists exc, adfuller L x = Raise exc) \/
  (exists p1 exc, adfuller L x = Ok p1 /\ stationary p1 = false /\
                  adfuller L (dropna (diff x)) = Raise exc).

(** A run that was cut short by a handler that reset [df]. *)
Definition stopped (e' : env') (t : list event') : Prop :=
  df e' = None /\ results e' = None /\
  (exists line, Print line ∈ t) /\
  (forall ev, ev ∈ t ->
     match ev with
     | Print _ | CallAdfuller _ => True
     | _ => False
     end) /\
  (forall x, patronage_weekly e' = Some x -> adf_failed x).

(** A run that went through every guard. *)
Definition completed (e' : env') (t : list event') : Prop :=
  exists x p1,
    adfuller L x = Ok p1 /\
    data_diff e' = Some (if stationary p1 then x else dropna (diff x)) /\
    reached x e' t.

(** The figure files written and the MAPE values printed, in order. *)
Fixpoint figures (t : list event') : list string :=
  match t with
  | [] => []
  | Savefig path :: t' => path :: figures t'
  | _ :: t' => figures t'
  end.

Fixpoint printed_mape (t : list event') : list float :=
  match t with
  | [] => []
  | PrintMAPE v :: t' => v :: printed_mape t'
  | _ :: t' => printed_mape t'
  end.

(** No handler ran: nothing was raised. *)
Definition clean (t : list event') : Prop := forall line, Print line ∉ t.

Definition successful (o : outcome) : Prop :=
  exit_of o = Ok tt /\ clean (trace_of o).

(** The weekly series of a run comes from the table in [file]. *)
Definition aggregated (x : series) : Prop :=
  exists frame dates parsed weeks,
    file = Ok frame /\
    frame !! "InvoiceDate" = Some dates /\
    to_datetime L dates = Ok parsed /\
    isocalendar_week L parsed = Ok weeks /\
    groupby_nunique (<["InvoiceWeek" := weeks]> (<["InvoiceDate" := parsed]> frame)) = Ok x.

(** The script ran to its end and no handler reset [df]: every
    [if df is not None] guard let control through. *)
Definition passed_guards (o : outcome) : Prop :=
  exit_of o = Ok tt /\ df (env_of o) <> None.

Definition four_figures : list string :=
  [acf_path; pacf_path; diagnostic_path; forecast_path].

(** The parameter plots of lines 70-73 were drawn from [dx] and saved: each
    call returned. *)
Definition parameters_drawn (dx : series) : Prop :=
  plot_acf L dx = Ok tt /\ savefig L acf_path = Ok tt /\
  plot_pacf L dx = Ok tt /\ savefig L pacf_path = Ok tt.

(** The diagnostic plot of lines 98-99 was drawn from [rs] and saved. *)
Definition diagnostics_drawn (rs : Results) : Prop :=
  plot_diagnostics L rs = Ok tt /\ savefig L diagnostic_path = Ok tt.

(** The forecast plot of lines 114-132 was drawn from the weekly series, the
    training slice, the predicted means and the confidence band, and saved. *)
Definition forecast_drawn (x observed : series) (predicted : list float)
    (band : list (float * float)) : Prop :=
  subplots_weekly L x = Ok tt /\ plot_observed L observed = Ok tt /\
  plot_predicted L predicted = Ok tt /\ fill_between L band = Ok tt /\
  savefig L forecast_path = Ok tt.

(** The events of the stationarity stage, of the parameter plots, and of the
    stages from the fit to the MAPE, when nothing is raised. *)
Definition test_events (x : series) (p1 : float) : list event' :=
  CallAdfuller x ::
  (if stationary p1 then [] else [CallAdfuller (dropna (diff x))]).

Definition plot_events (dx : series) : list event' :=
  [CallPlotAcf dx; Savefig acf_path; CallPlotPacf dx; Savefig pacf_path].

Definition modelling_events (tr te : series) (m : Model) (rs : Results)
    (fv : list float) (v : float) : list event' :=
  [CallARIMA tr (1, 1, 1); CallFit m;
   CallPlotDiagnostics rs; Savefig diagnostic_path;
   CallGetForecast rs (length te); Savefig forecast_path;
   CallMAPE te fv; PrintMAPE v].

(** Lines 89-141 without an exception, on the weekly series [x] split into
    [tr] and [te]: the model is fitted, both figures are drawn, and the
    forecast over [len(te)] steps is scored against [te]. *)
Definition clean_tail (x tr te : series) (t : list event') : Prop :=
  exists m rs f v,
    ARIMA L tr (1, 1, 1) = Ok m /\ fit L m = Ok rs /\
    diagnostics_drawn rs /\
    get_forecast L rs (length te) = Ok f /\
    forecast_drawn x tr (predicted_mean L f) (conf_int L f) /\
    mean_absolute_percentage_error L te (predicted_mean L f) = Ok v /\
    t = modelling_events tr te m rs (predicted_mean L f) v.

(** Lines 48-141 without an exception, on the weekly series [x]. *)
Definition clean_path (x : series) (t : list event') : Prop :=
  exists p1 t2,
    adfuller L x = Ok p1 /\
    (stationary p1 = false -> exists p2, adfuller L (dropna (diff x)) = Ok p2) /\
    parameters_drawn (if stationary p1 then x else dropna (diff x)) /\
    clean_tail x (slice_to (-4) x) (slice_from (-4) x) t2 /\
    t = test_events x p1 ++
        plot_events (if stationary p1 then x else dropna (diff x)) ++ t2.

(** ** The failure policy, stage by stage *)

(** The exception classes the load stage has an [except] clause for. *)
Definition caught_at_load (c : exn_class) : bool :=
  match c with
  | FileNotFoundError | EmptyDataError | ParserError => true
  | _ => false
  end.

(** What a handler prints. *)
Definition logged (st : stage) (exc : exn) : string :=
  match st with
  | Load =>
      match exn_cls exc with
      | FileNotFoundError => "Error: The file was not found. Please check the file path."
      | EmptyDataError => "Error: The file is empty. Please provide a valid data file."
      | _ => "Error: The file could not be parsed. Please check the file format."
      end
  | WeekExtraction => "Error while extracting weeks from dates: " ++ exn_msg exc
  | Aggregation => "Error while grouping patronage by week: " ++ exn_msg exc
  | Stationarity => "Error during stationarity check: " ++ exn_msg exc
  | ParameterPlots => "Error while plotting ACF and PACF: " ++ exn_msg exc
  | Split => "Error while splitting data into training and testing sets: " ++ exn_msg exc
  | Fit => "Error while fitting ARIMA model: " ++ exn_msg exc
  | Diagnostics => "Error while plotting diagnostics: " ++ exn_msg exc
  | ForecastStage => "Error while forecasting: " ++ exn_msg exc
  | ForecastPlot => "Error while plotting forecast: " ++ exn_msg exc
  | Mape => "Error while calculating MAPE: " ++ exn_msg exc
  end%string.

(** The stages whose handler sets [df = None]. *)
Definition resets_df (st : stage) : bool :=
  match st with
  | Load | WeekExtraction | Aggregation | Stationarity => true
  | _ => false
  end.

(** The stages whose [try] statement is followed by the next statement with
    no guard in between: the three plots, and the MAPE, which is the last. *)
Definition goes_on (st : stage) : bool :=
  match st with
  | ParameterPlots | Diagnostics | ForecastPlot | Mape => true
  | _ => false
  end.

(** The script from the [try] statement of stage [st] to its end. *)
Definition from_stage (st : stage) : M unit :=
  bind (run_stage L file st) (fun _ => after L file st).

(** The policy as the specification words it: whenever the body of a stage
    raises, the script still ends normally, having added one logged line and
    nothing else to what the stage had done before the exception. *)
Definition caught_logged_skipped (st : stage) (e : env') : Prop :=
  forall exc e1 t1,
    body L file st e = (Raise exc, e1, t1) ->
    exists line e2, from_stage st e = (Ok tt, e2, t1 ++ [Print line]).

(** What the specification says of a weekly series of fewer than 4 entries:
    the split holds it out whole and a model is fitted on the empty rest. *)
Definition short_series_is_fitted (o : outcome) : Prop :=
  forall x, patronage_weekly (env_of o) = Some x -> (length x < 4)%nat ->
    train_data (env_of o) = Some [] /\ test_data (env_of o) = Some x /\
    CallARIMA [] (1, 1, 1) ∈ trace_of o.

(** ** What a run computes, the table apart *)

Definition numeric_state (e : env') :=
  (patronage_weekly e, d e, data_diff e, p e, q e, train_data e, test_data e,
   model e, results e, forecast e, forecast_values e, forecast_ci e, mape e).

(** Two states that differ at most in the table [df] holds. *)
Definition alike (e1 e2 : env') : Prop :=
  numeric_state e1 = numeric_state e2 /\ (df e1 = None <-> df e2 = None).

(** Two outcomes with the same exit, the same events and alike variables. *)
Definition same_results (o1 o2 : outcome) : Prop :=
  exit_of o1 = exit_of o2 /\ trace_of o1 = trace_of o2 /\
  alike (env_of o1) (env_of o2).

(** A statement that cannot tell alike states apart. *)
Definition lockstep {A} (m1 m2 : M A) : Prop :=
  forall e1 e2, alike e1 e2 ->
    match m1 e1, m2 e2 with
    | (r1, e1', t1), (r2, e2', t2) => r1 = r2 /\ t1 = t2 /\ alike e1' e2'
    end.

End Guarantees.

(** ** Vocabulary for the further properties *)

(** A row that can add to a weekly count: it has a week and a customer. *)
Definition counted_row (row : option Z * cell) : Prop :=
  is_Some (fst row) /\ snd row <> NA.

#[global] Instance counted_row_dec row : Decision (counted_row row).
Proof. unfold counted_row. apply _. Defined.

(** The customers held by all groups together. *)
Definition customers_counted (gs : list (Z * list cell)) : nat :=
  foldr (fun g n => (length (snd g) + n)%nat) 0%nat gs.

(** The ways the load stage lets an exception out: [read_csv] or
    [to_datetime] raised it, or the table has no [InvoiceDate] column; and no
    [except] clause of lines 19-27 is for its class. *)
Definition escapes_load {Model Results Forecast : Type}
    (L : Library Model Results Forecast) (file : result DataFrame) (exc : exn) : Prop :=
  caught_at_load (exn_cls exc) = false /\
  (file = Raise exc \/
   exists frame, file = Ok frame /\
     ((frame !! "InvoiceDate" = None /\ exc = mk_exn KeyError "'InvoiceDate'") \/
      exists dates, frame !! "InvoiceDate" = Some dates /\
                    to_datetime L dates = Raise exc)).

(** ** What the modelling stages leave behind *)

(** The value a call returned, if it returned. *)
Definition ok_value {A} (r : result A) : option A :=
  match r with
  | Ok a => Some a
  | Raise _ => None
  end.

(** The exception Python raises when the unbound name [id] is read. *)
Definition unbound_name (id : string) : exn :=
  mk_exn NameError ("name '" ++ id ++ "' is not defined")%string.

Section Audit.

Context {Model Results Forecast : Type}.
Variable L : Library Model Results Forecast.

Implicit Types (e : env Model Results Forecast) (t : list (event Model Results)).

(** No variable of lines 89-141 is bound. *)
Definition not_yet_modelled e : Prop :=
  model e = None /\ results e = None /\ forecast e = None /\
  forecast_values e = None /\ forecast_ci e = None /\ mape e = None.

(** The split of lines 81-85 has not been made. *)
Definition not_yet_split e : Prop :=
  train_data e = None /\ test_data e = None.

(** Nothing of lines 69-141 has happened. *)
Definition idle e t : Prop :=
  not_yet_modelled e /\ not_yet_split e /\ figures t = [] /\ printed_mape t = [].

(** Lines 89-93 on the training slice [tr]: [model] and [results] are what
    [ARIMA] and [fit] returned, and what they raised is logged. *)
Definition fit_audit (tr : series) e t : Prop :=
  model e = ok_value (ARIMA L tr (1, 1, 1)) /\
  results e = model e ≫= (fun m => ok_value (fit L m)) /\
  (forall exc, ARIMA L tr (1, 1, 1) = Raise exc -> Print (logged Fit exc) ∈ t) /\
  (forall m exc, model e = Some m -> fit L m = Raise exc -> Print (logged Fit exc) ∈ t).

(** Lines 97-101: the diagnostic figure needs [results]; without it the
    stage logs a [NameError]. *)
Definition diagnostics_audit e t : Prop :=
  (diagnostic_path ∈ figures t -> is_Some (results e)) /\
  (results e = None -> Print (logged Diagnostics (unbound_name "results")) ∈ t).

(** Lines 104-109 with the held-out slice [te]. *)
Definition forecast_audit (te : series) e t : Prop :=
  forecast e = results e ≫= (fun r => ok_value (get_forecast L r (length te))) /\
  forecast_values e = predicted_mean L <$> forecast e /\
  forecast_ci e = conf_int L <$> forecast e /\
  (results e = None -> Print (logged ForecastStage (unbound_name "results")) ∈ t) /\
  (forall r exc, results e = Some r -> get_forecast L r (length te) = Raise exc ->
     Print (logged ForecastStage exc) ∈ t).

(** Lines 113-134: the forecast figure needs [forecast_values]. *)
Definition forecast_plot_audit e t : Prop :=
  forecast_path ∈ figures t -> is_Some (forecast_values e).

(** Lines 137-141 with the held-out slice [te]. *)
Definition mape_audit (te : series) e t : Prop :=
  mape e = forecast_values e ≫=
             (fun fv => ok_value (mean_absolute_percentage_error L te fv)) /\
  printed_mape t = option_list (mape e) /\
  (forecast_values e = None ->
     Print (logged Mape (unbound_name "forecast_values")) ∈ t) /\
  (forall fv exc, forecast_values e = Some fv ->
     mean_absolute_percentage_error L te fv = Raise exc ->
     Print (logged Mape exc) ∈ t).

(** The variables the stages after the forecast leave alone. *)
Definition forecast_kept e e' : Prop :=
  view e' = view e /\ model e' = model e /\ results e' = results e /\
  forecast e' = forecast e /\ forecast_values e' = forecast_values e /\
  forecast_ci e' = forecast_ci e.

(** The variables the stages after the fit leave alone. *)
Definition fit_kept e e' : Prop :=
  view e' = view e /\ model e' = model e /\ results e' = results e.

(** Lines 89-141 as a whole, for the slices [tr] and [te]. *)
Definition modelling_audit (tr te : series) e t : Prop :=
  fit_audit tr e t /\ diagnostics_audit e t /\ forecast_audit te e t /\
  forecast_plot_audit e t /\ mape_audit te e t.

(** The figures are written in the order of the script, each at most once,
    and the PACF figure only after the ACF figure. *)
Definition figures_in_order t : Prop :=
  sublist (figures t) four_figures /\
  (pacf_path ∈ figures t -> acf_path ∈ figures t).

(** What the final variables [e] and the trace [t] of a run satisfy: either
    the run never got to the parameter plots, or lines 89-141 ran on the
    slices of the weekly series. *)
Definition audited e t : Prop :=
  match df e, patronage_weekly e with
  | Some _, Some x =>
      modelling_audit (slice_to (-4) x) (slice_from (-4) x) e t /\
      figures_in_order t
  | _, _ => idle e t
  end.

End Audit.

(** ** More of the small world *)

(** [toy_table] without its [InvoiceDate] column, and without its
    [CustomerID] column. *)
Definition toy_table_no_dates : DataFrame := delete "InvoiceDate" toy_table.
Definition toy_table_no_customers : DataFrame := delete "CustomerID" toy_table.

(** Three invoices with their week numbers, and the same invoices in another
    order with one of them twice. *)
Definition toy_invoices : DataFrame :=
  <["InvoiceWeek" := [Int 1; Int 1; Int 2]]>
  (<["CustomerID" := [Int 1; Int 2; Int 1]]> ∅).

Definition toy_invoices_shuffled : DataFrame :=
  <["InvoiceWeek" := [Int 2; Int 1; Int 1; Int 1]]>
  (<["CustomerID" := [Int 1; Int 2; Int 1; Int 2]]> ∅).

(** A Dickey-Fuller test that, like the one of statsmodels, raises on fewer
    than 4 observations; on longer series it reports 0.6. *)
Definition toy_adfuller (s : series) : result float :=
  if decide (length s < 4)%nat
  then Raise (mk_exn OtherException
                "sample size is too short to use selected regression component")
  else Ok p_high.

Definition toy_run_checked :=
  run (toy_library toy_adfuller (fun _ => Ok tt)) (Ok toy_table).

Definition toy_run_short_checked :=
  run (toy_library toy_adfuller (fun _ => Ok tt)) (Ok toy_short_table).

(** The first Dickey-Fuller test reports 0.01. *)
Definition toy_run_stationary :=
  run (toy_library (fun _ => Ok p_low) (fun _ => Ok tt)) (Ok toy_table).

(** The test of the six weekly counts reports 0.6, that of their difference
    0.01. *)
Definition toy_run_differenced :=
  run (toy_library
         (fun s => if decide (length s = 6%nat) then Ok p_high else Ok p_low)
         (fun _ => Ok tt))
      (Ok toy_table).

(** The small world with other outcomes for [ARIMA] and [get_forecast]. *)
Definition toy_library_with
    (arima : series -> Z * Z * Z -> result (series * (Z * Z * Z)))
    (forecaster : series -> nat -> result (list float))
  : Library (series * (Z * Z * Z)) series (list float) :=
  let base := toy_library (fun _ => Ok p_high) (fun _ => Ok tt) in
  {| to_datetime := to_datetime base;
     isocalendar_week := isocalendar_week base;
     adfuller := adfuller base;
     plot_acf := plot_acf base;
     plot_pacf := plot_pacf base;
     savefig := savefig base;
     ARIMA := arima;
     fit := fit base;
     plot_diagnostics := plot_diagnostics base;
     get_forecast := forecaster;
     predicted_mean := predicted_mean base;
     conf_int := conf_int base;
     subplots_weekly := subplots_weekly base;
     plot_observed := plot_observed base;
     plot_predicted := plot_predicted base;
     fill_between := fill_between base;
     mean_absolute_percentage_error := mean_absolute_percentage_error base |}.

(** [ARIMA] raises. *)
Definition toy_library_no_fit :=
  toy_library_with
    (fun _ _ => Raise (mk_exn OtherException "LU decomposition error."))
    (fun _ steps => Ok (repeat 0x1.4p+1%float steps)).

Definition toy_run_no_fit := run toy_library_no_fit (Ok toy_table).

(** [get_forecast] raises. *)
Definition toy_library_no_forecast :=
  toy_library_with
    (fun endog order => Ok (endog, order))
    (fun _ _ => Raise (mk_exn OtherException "Prediction must have `end` after `start`.")).

Definition toy_run_no_forecast := run toy_library_no_forecast (Ok toy_table).

(** * Proofs *)

(** ** Grouping by week *)

Lemma add_unique_elem c vs c' :
  c' ∈ add_unique c vs <-> c' ∈ vs \/ (c' = c /\ c <> NA).
Proof.
  unfold add_unique. destruct c; [intuition congruence| |];
    (case_decide; [|rewrite elem_of_app, list_elem_of_singleton];
     intuition (subst; auto; congruence)).
Qed.

Lemma add_unique_NoDup c vs : NoDup vs -> NoDup (add_unique c vs).
Proof.
  intros Hnd. unfold add_unique. destruct c; [done| |];
    (case_decide; [done|]; apply NoDup_app; split_and!; [done| |apply NoDup_singleton];
     intros x Hx ->%list_elem_of_singleton; done).
Qed.

Lemma add_to_group_keys w c gs k :
  k ∈ (add_to_group w c gs).*1 <-> k = w \/ k ∈ gs.*1.
Proof.
  induction gs as [|[k0 vs] gs IH]; simpl.
  - rewrite list_elem_of_singleton, elem_of_nil. tauto.
  - destruct (Z.ltb_spec w k0); simpl.
    + rewrite !elem_of_cons. simpl. tauto.
    + destruct (Z.eqb_spec w k0); simpl; rewrite !elem_of_cons; simpl;
        [intuition congruence|].
      rewrite IH. tauto.
Qed.

Lemma add_to_group_sorted w c gs :
  StronglySorted Z.lt gs.*1 -> StronglySorted Z.lt (add_to_group w c gs).*1.
Proof.
  induction gs as [|[k0 vs] gs IH]; simpl; intros Hs.
  - repeat constructor.
  - apply StronglySorted_inv in Hs as [Hs Hall].
    destruct (Z.ltb_spec w k0); simpl.
    + constructor; [by constructor|]. constructor; [done|].
      eapply Forall_impl; [exact Hall|]. simpl. lia.
    + destruct (Z.eqb_spec w k0); simpl; [by constructor|].
      constructor; [by apply IH|].
      apply Forall_forall. intros k Hk%add_to_group_keys.
      destruct Hk as [->|Hk]; [lia|]. by eapply Forall_forall in Hall.
Qed.

Lemma group_of_add w c gs k :
  StronglySorted Z.lt gs.*1 ->
  group_of k (add_to_group w c gs) =
    if k =? w then add_unique c (group_of w gs) else group_of k gs.
Proof.
  induction gs as [|[k0 vs] gs IH]; simpl; intros Hs.
  - by destruct (Z.eqb_spec k w).
  - apply StronglySorted_inv in Hs as [Hs Hall].
    destruct (Z.ltb_spec w k0); simpl.
    + destruct (Z.eqb_spec k w) as [Heq|Hne]; [subst k|done].
      destruct (Z.eqb_spec w k0); [lia|].
      replace (group_of w gs) with (@nil cell); [done|].
      clear -Hall H. induction gs as [|[k1 vs1] gs IH]; [done|]. simpl.
      apply Forall_cons in Hall as [H1 Hall]. simpl in H1.
      destruct (Z.eqb_spec w k1); [lia|]. by apply IH.
    + destruct (Z.eqb_spec w k0) as [Heq|Hne]; simpl.
      * subst k0. by destruct (Z.eqb_spec k w).
      * rewrite (IH Hs). destruct (Z.eqb_spec k k0) as [Heq|Hne']; [subst k0|done].
        destruct (Z.eqb_spec k w); [lia|done].
Qed.

Lemma group_of_elem k gs ids :
  StronglySorted Z.lt gs.*1 -> (k, ids) ∈ gs -> group_of k gs = ids.
Proof.
  induction gs as [|[k0 vs] gs IH]; simpl; intros Hs Hin.
  - by apply elem_of_nil in Hin.
  - apply StronglySorted_inv in Hs as [Hs Hall].
    apply elem_of_cons in Hin as [[= -> ->]|Hin].
    + by rewrite Z.eqb_refl.
    + destruct (Z.eqb_spec k k0) as [->|]; [|by apply IH].
      exfalso. eapply Forall_forall in Hall; [|apply list_elem_of_fmap; by exists (k0, ids)].
      simpl in Hall. lia.
Qed.

Lemma add_row_inv rows gs row :
  groups_inv rows gs -> groups_inv (rows ++ [row]) (add_row gs row).
Proof.
  intros (Hs & Hk & Hg). destruct row as [[w|] c]; unfold add_row; simpl.
  - split_and!.
    + by apply add_to_group_sorted.
    + intros k. rewrite add_to_group_keys, Hk. split.
      * intros [->|(c' & Hin)]; [exists c|exists c']; rewrite elem_of_app;
          [right; apply list_elem_of_here | by left].
      * intros (c' & [Hin|Hin%list_elem_of_singleton]%elem_of_app);
          [right; by exists c' | left; congruence].
    + intros k. rewrite group_of_add by done.
      destruct (Hg w) as [Hnd Hw]. destruct (Hg k) as [Hndk Hkk].
      destruct (Z.eqb_spec k w) as [Heq|Hne]; [subst k|].
      * split; [by apply add_unique_NoDup|].
        intros c'. rewrite add_unique_elem, Hw, elem_of_app, list_elem_of_singleton.
        split.
        -- intros [[H1 H2]|[-> H1]]; auto.
        -- intros [H1 [H2|[= ->]]]; auto.
      * split; [done|]. intros c'. rewrite Hkk, elem_of_app, list_elem_of_singleton.
        split; [intros [H1 H2]; auto|]. intros [H1 [H2|[= H2 H3]]]; [done|congruence].
  - split_and!; [done| |].
    + intros k. rewrite Hk. split; intros (c' & Hin); exists c'.
      * apply elem_of_app. by left.
      * apply elem_of_app in Hin as [Hin|Hin%list_elem_of_singleton]; [done|discriminate].
    + intros k. destruct (Hg k) as [Hnd Hkk]. split; [done|].
      intros c'. rewrite Hkk, elem_of_app, list_elem_of_singleton.
      split; [intros [H1 H2]; auto|]. intros [H1 [H2|[=]]]. done.
Qed.

Lemma fold_add_row_inv rows seen gs :
  groups_inv seen gs -> groups_inv (seen ++ rows) (fold_left add_row rows gs).
Proof.
  revert seen gs. induction rows as [|row rows IH]; intros seen gs Hinv; simpl.
  - by rewrite app_nil_r.
  - replace (seen ++ row :: rows) with ((seen ++ [row]) ++ rows)
      by (by rewrite <- app_assoc).
    apply IH. by apply add_row_inv.
Qed.

Lemma groups_groups_inv rows : groups_inv rows (groups rows).
Proof.
  apply (fold_add_row_inv rows [] []). split_and!.
  - constructor.
  - intros k. simpl. split; [by intros ?%elem_of_nil | by intros (c & ?%elem_of_nil)].
  - intros k. simpl. split; [constructor|].
    intros c. split; [by intros ?%elem_of_nil | by intros [_ ?%elem_of_nil]].
Qed.

(** The grouping of the model computes the transform as the specification
    words it. *)
Lemma groups_weekly_distinct_counts rows :
  weekly_distinct_counts rows
    (map (fun g => Z.of_nat (length (snd g))) (groups rows)).
Proof.
  destruct (groups_groups_inv rows) as (Hs & Hk & Hg).
  exists (groups rows).*1. split_and!; try done.
  - by rewrite length_map, length_fmap.
  - intros i w Hi. apply list_lookup_fmap_Some_1 in Hi as ([w' ids] & -> & Hi).
    simpl. exists ids. split.
    + change (map ?f ?l) with (f <$> l). by rewrite list_lookup_fmap, Hi.
    + assert (group_of w' (groups rows) = ids) as <-.
      { apply group_of_elem; [done|]. by eapply list_elem_of_lookup_2. }
      apply Hg.
Qed.

Lemma strictly_sorted_NoDup (l : list Z) : StronglySorted Z.lt l -> NoDup l.
Proof.
  induction 1 as [|k l Hs IH Hall]; [constructor|].
  apply NoDup_cons. split; [|done].
  intros Hin. eapply Forall_forall in Hall; [|exact Hin]. lia.
Qed.

(** The specification's wording leaves no choice: it is met by one series. *)
Lemma weekly_distinct_counts_unique rows x y :
  weekly_distinct_counts rows x -> weekly_distinct_counts rows y -> x = y.
Proof.
  intros (wx & Hsx & Hkx & Hlx & Hx) (wy & Hsy & Hky & Hly & Hy).
  assert (wx = wy) as <-.
  { apply (StronglySorted_unique_strong Z.lt); try done; [intros; lia|].
    apply NoDup_Permutation; try by apply strictly_sorted_NoDup.
    intros w. by rewrite Hkx, Hky. }
  apply list_eq. intros i.
  destruct (wx !! i) as [w|] eqn:Hw.
  - destruct (Hx i w Hw) as (ids & -> & Hnd & Hids).
    destruct (Hy i w Hw) as (ids' & -> & Hnd' & Hids').
    do 2 f_equal. apply Permutation_length, NoDup_Permutation; try done.
    intros c. by rewrite Hids, Hids'.
  - apply lookup_ge_None in Hw.
    rewrite (proj2 (lookup_ge_None x i)), (proj2 (lookup_ge_None y i)); [done|lia..].
Qed.

(** ** Tactics for running a stage symbolically *)

(** Case analysis on the outcome of the next library call or name lookup. *)
Ltac case_call :=
  match goal with
  | |- context [match ?r with Ok _ => _ | Raise _ => _ end] => destruct r eqn:?
  | |- context [match ?o with Some _ => _ | None => _ end] => destruct o eqn:?
  end.

Ltac open_stage :=
  unfold run_stage, try_except, body, handler, save, log, bind, name, call,
    emit, assign, ret.

(** Membership in a trace that is written out up to an unknown rest. *)
Ltac inv_elem H :=
  repeat match type of H with
  | _ ∈ [] => by apply elem_of_nil in H
  | _ ∈ _ :: _ => apply elem_of_cons in H; destruct H as [H|H]
  | _ ∈ _ ++ _ => apply elem_of_app in H; destruct H as [H|H]
  end.

(** A handler has printed: the trace is not clean. *)
Ltac not_clean :=
  match goal with
  | H : clean _ |- _ =>
      solve [ exfalso; eapply H;
              repeat first [ apply list_elem_of_here | apply list_elem_of_further ] ]
  end.

(** [df] holds a table at the end of a run that is given. *)
Ltac holds_a_table :=
  let H := fresh in
  intros H;
  apply (f_equal (fun o => match o with Some _ => true | None => false end)) in H;
  vm_compute in H; discriminate H.



(** ** Slices and differences *)

Lemma slice_to_neg4 {A} (s : list A) : slice_to (-4) s = take (length s - 4) s.
Proof.
  unfold slice_to, slice_bound. simpl. f_equal. lia.
Qed.

Lemma slice_from_neg4 {A} (s : list A) : slice_from (-4) s = drop (length s - 4) s.
Proof.
  unfold slice_from, slice_bound. simpl. f_equal. lia.
Qed.

Lemma held_out_length {A} (s : list A) :
  length (slice_from (-4) s) = Nat.min 4 (length s).
Proof. rewrite slice_from_neg4, length_drop. lia. Qed.

(** [dropna (diff x)] is the first-order difference: entry [i] is
    [x_(i+1) - x_i]. *)
Lemma dropna_diff_from a s :
  dropna (diff_from a s) = zip_with (fun u v => v - u) (a :: s) s.
Proof.
  revert a. induction s as [|b s IH]; intros a; simpl; [done|]. by rewrite IH.
Qed.

Lemma first_difference x :
  dropna (diff x) = zip_with (fun u v => v - u) x (drop 1 x).
Proof. destruct x as [|a s]; [done|]. simpl. rewrite drop_0. apply dropna_diff_from. Qed.

Lemma first_difference_lookup x i a b :
  x !! i = Some a -> x !! S i = Some b -> dropna (diff x) !! i = Some (b - a).
Proof.
  intros Ha Hb. rewrite first_difference. apply lookup_zip_with_Some.
  exists a, b. split_and!; [done|done|]. by rewrite lookup_drop.
Qed.

(** ** The float comparison: exceeding 0.05 excludes being at most 0.05 *)

Lemma SFcompare_Lt_Gt x y : SFcompare x y = Some Lt -> SFcompare y x = Some Gt.
Proof.
  destruct x as [s1| s1 | | s1 m1 e1], y as [s2| s2 | | s2 m2 e2]; simpl;
    try discriminate; try (destruct s1; discriminate); try (destruct s2; discriminate);
    try (destruct s1, s2; (discriminate || reflexivity)).
  destruct s1, s2; try discriminate; try reflexivity;
    rewrite (Z.compare_antisym e1 e2); destruct (e1 ?= e2) eqn:E; simpl;
    try discriminate; try reflexivity;
    change (PosDef.Pos.compare_cont Eq m2 m1) with (Pos.compare m2 m1);
    change (PosDef.Pos.compare_cont Eq m1 m2) with (Pos.compare m1 m2);
    rewrite (Pos.compare_antisym m1 m2); destruct (Pos.compare m1 m2); simpl;
    try discriminate; reflexivity.
Qed.

Lemma exceeds_not_stationary p_value :
  exceeds_alpha p_value = true -> stationary p_value = false.
Proof.
  unfold exceeds_alpha, stationary. rewrite ltb_spec, leb_spec. unfold SFltb, SFleb.
  destruct (SFcompare (Prim2SF alpha) (Prim2SF p_value)) as [[]|] eqn:E; try discriminate.
  intros _. now rewrite (SFcompare_Lt_Gt _ _ E).
Qed.

(** ** Stage by stage, from the end of the script backwards *)

Section Stages.

Context {Model Results Forecast : Type}.
Variable L : Library Model Results Forecast.
Variable file : result DataFrame.

#[local] Arguments run_stage : simpl never.
#[local] Arguments after_forecast_plot : simpl never.
#[local] Arguments after_forecast : simpl never.
#[local] Arguments after_diagnostics : simpl never.
#[local] Arguments after_fit : simpl never.
#[local] Arguments after_split : simpl never.
#[local] Arguments after_parameter_plots : simpl never.
#[local] Arguments after_stationarity : simpl never.
#[local] Arguments after_aggregation : simpl never.
#[local] Arguments after_weeks : simpl never.
#[local] Arguments after_load : simpl never.

Lemma quiet_elem (t : list (event Model Results)) ev :
  quiet t -> ev ∈ t -> background ev = true.
Proof. intros H Hin. exact (proj1 (Forall_forall _ _) H ev Hin). Qed.

Ltac quiet :=
  unfold quiet;
  repeat first [ apply Forall_nil_2 | apply Forall_app_2
               | apply Forall_cons_2; [reflexivity|] ];
  try assumption.

Ltac by_quiet H :=
  match goal with
  | Hq : quiet ?t |- _ =>
      match type of H with
      | _ ∈ t => apply (quiet_elem _ _ Hq) in H; simpl in H; try discriminate
      end
  end.

Lemma diagnostics_quiet (e : env Model Results Forecast) :
  exists t, run_stage L file Diagnostics e = (Ok tt, e, t) /\ quiet t.
Proof.
  open_stage; unfold diagnostics_body, diagnostics_handler; open_stage.
  repeat (case_call; simpl); eexists; (split; [reflexivity | quiet]).
Qed.

Lemma forecast_plot_quiet (e : env Model Results Forecast) :
  exists t, run_stage L file ForecastPlot e = (Ok tt, e, t) /\ quiet t.
Proof.
  open_stage; unfold forecast_plot_body, forecast_plot_handler; open_stage.
  repeat (case_call; simpl); eexists; (split; [reflexivity | quiet]).
Qed.

Lemma mape_quiet (e : env Model Results Forecast) :
  exists e' t, run_stage L file Mape e = (Ok tt, e', t) /\ quiet t /\
               outcome_view e' = outcome_view e.
Proof.
  open_stage; unfold mape_body, mape_handler; open_stage.
  repeat (case_call; simpl); do 2 eexists;
    (split; [reflexivity | split; [quiet | reflexivity]]).
Qed.

Lemma after_forecast_spec (e : env Model Results Forecast) :
  exists e' t, after_forecast L file e = (Ok tt, e', t) /\ quiet t /\
               outcome_view e' = outcome_view e.
Proof.
  unfold after_forecast, if_df. destruct (df e); [|by exists e, []; repeat split; quiet].
  unfold bind, after_forecast_plot.
  destruct (forecast_plot_quiet e) as (t1 & -> & Hq1).
  destruct (mape_quiet e) as (e' & t2 & -> & Hq2 & Hv).
  exists e', (t1 ++ t2). repeat split; [quiet | exact Hv].
Qed.

Lemma after_diagnostics_spec (e : env Model Results Forecast) te :
  test_data e = Some te ->
  exists e' t, after_diagnostics L file e = (Ok tt, e', t) /\
    view e' = view e /\ no_other_calls t /\ forecasts_ok L (length te) e' t.
Proof.
  intros Hte. unfold after_diagnostics, bind.
  open_stage; unfold forecast_body, forecast_handler; open_stage. simpl.
  repeat (case_call; simpl; rewrite ?Hte in *; simplify_eq);
  match goal with
  | |- context [after_forecast L file ?s] =>
      destruct (after_forecast_spec s) as (e' & t & -> & Hq & Hv)
  end; exists e'; eexists; (split; [reflexivity|]);
  injection Hv as Hv1 Hv2 Hv3 Hv4; simpl in *.
  all: split; [unfold view; congruence|].
  all: split; [intros ev Hin; inv_elem Hin; simplify_eq; try exact I;
               by_quiet Hin; destruct ev; (exact I || discriminate)|].
  all: split; [intros r' k Hin; inv_elem Hin; simplify_eq; try by_quiet Hin;
               repeat split; try congruence; intros; simplify_eq; done
              | intros r' Hr'; try congruence; simplify_eq].
  all: replace r' with r by congruence; apply list_elem_of_here.
Qed.

Lemma after_fit_spec (e : env Model Results Forecast) fr te :
  df e = Some fr -> test_data e = Some te ->
  exists e' t, after_fit L file e = (Ok tt, e', t) /\
    view e' = view e /\ no_other_calls t /\ forecasts_ok L (length te) e' t.
Proof.
  intros Hdf Hte. unfold after_fit, if_df. rewrite Hdf. unfold bind.
  destruct (diagnostics_quiet e) as (t1 & -> & Hq).
  destruct (after_diagnostics_spec e te Hte) as (e' & t & -> & Hv & Hn & Hf1 & Hf2).
  exists e', (t1 ++ t). split; [reflexivity|]. split; [exact Hv|]. split; [|split].
  - intros ev Hin. inv_elem Hin; [by_quiet Hin; destruct ev; (exact I || discriminate) | by apply Hn].
  - intros r k Hin. inv_elem Hin; [by_quiet Hin | by apply Hf1].
  - intros r Hr. apply elem_of_app. right. by apply Hf2.
Qed.

Lemma after_split_spec (e : env Model Results Forecast) fr tr te :
  df e = Some fr -> train_data e = Some tr -> test_data e = Some te ->
  p e = Some 1 -> d e = Some 1 -> q e = Some 1 ->
  exists e' t, after_split L file e = (Ok tt, e', t) /\
    view e' = view e /\ fitted_ok tr t /\ forecasts_ok L (length te) e' t.
Proof.
  intros Hdf Htr Hte Hp Hd Hq. unfold after_split, if_df. rewrite Hdf. unfold bind.
  open_stage; unfold fit_body, fit_handler; open_stage. simpl.
  rewrite Htr, Hp, Hd, Hq. simpl.
  repeat (case_call; simpl);
  match goal with
  | |- context [after_fit L file ?s] =>
      destruct (after_fit_spec s fr te) as (e' & t & -> & Hv & Hn & Hf1 & Hf2);
      [done | done |]
  end; exists e'; eexists; (split; [reflexivity|]).
  all: split; [exact Hv|].
  all: split; [split; [apply list_elem_of_here|]|].
  all: try (split; [intros y o Hin | intros ev Hin]; inv_elem Hin; simplify_eq; try done;
            specialize (Hn _ Hin); simpl in Hn; try done; destruct ev; done).
  all: split; [intros r' k Hin; inv_elem Hin; simplify_eq; by apply Hf1
              | intros r' Hr'; repeat (apply list_elem_of_further); by apply Hf2].
Qed.


Lemma after_parameter_plots_spec (e : env Model Results Forecast) fr x :
  df e = Some fr -> patronage_weekly e = Some x ->
  exists e' t, after_parameter_plots L file e = (Ok tt, e', t) /\
    df e' = Some fr /\ patronage_weekly e' = Some x /\ data_diff e' = data_diff e /\
    p e' = Some 1 /\ d e' = Some 1 /\ q e' = Some 1 /\
    train_data e' = Some (slice_to (-4) x) /\
    test_data e' = Some (slice_from (-4) x) /\
    fitted_ok (slice_to (-4) x) t /\
    forecasts_ok L (length (slice_from (-4) x)) e' t.
Proof.
  intros Hdf Hx. unfold after_parameter_plots, define_parameters.
  open_stage; unfold split_body, split_handler; open_stage. simpl.
  repeat (rewrite Hx; simpl).
  match goal with
  | |- context [after_split L file ?s] =>
      destruct (after_split_spec s fr (slice_to (-4) x) (slice_from (-4) x))
        as (e' & t & Heq & Hv & Hfit & Hfc); try done
  end.
  rewrite Heq. exists e', t. split; [reflexivity|].
  injection Hv as -> -> -> -> -> -> -> ->. simpl. by split_and!.
Qed.

Lemma parameter_plots_spec (e : env Model Results Forecast) :
  exists t, run_stage L file ParameterPlots e = (Ok tt, e, t) /\
    (forall ev, ev ∈ t ->
       match ev with
       | CallARIMA _ _ | CallGetForecast _ _ | CallAdfuller _ => False
       | CallPlotAcf dx | CallPlotPacf dx => data_diff e = Some dx
       | _ => True
       end) /\
    (forall dx, data_diff e = Some dx -> CallPlotAcf dx ∈ t).
Proof.
  open_stage; unfold parameter_plots_body, parameter_plots_handler; open_stage.
  repeat (case_call; simpl); simplify_eq; eexists; (split; [reflexivity|]).
  all: split; [intros ev Hin; inv_elem Hin; simplify_eq; done
              | intros dx' Hdx; simplify_eq; try apply list_elem_of_here].
Qed.

Lemma after_stationarity_spec (e : env Model Results Forecast) fr x :
  df e = Some fr -> patronage_weekly e = Some x ->
  exists e' t, after_stationarity L file e = (Ok tt, e', t) /\
    data_diff e' = data_diff e /\ reached L x e' t.
Proof.
  intros Hdf Hx. unfold after_stationarity, if_df. rewrite Hdf. unfold bind.
  destruct (parameter_plots_spec e) as (t1 & -> & Hp1 & Hp2).
  destruct (after_parameter_plots_spec e fr x Hdf Hx)
    as (e' & t & -> & Hdf' & Hx' & Hdd & Hp & Hd & Hq & Htr & Hte & Hfit & Hfc).
  destruct Hfit as (Hf1 & Hf2 & Hf3). destruct Hfc as (Hc1 & Hc2).
  exists e', (t1 ++ t). split; [reflexivity|]. split; [exact Hdd|].
  unfold reached. rewrite Hdf'. do 7 (split; [done|]).
  split; [apply elem_of_app; by right|].
  split.
  { intros y o Hin. inv_elem Hin; [by apply Hp1 in Hin | by apply Hf2]. }
  split; [split|].
  - intros r k Hin. inv_elem Hin; [by apply Hp1 in Hin | by apply Hc1].
  - intros r Hr. apply elem_of_app. right. by apply Hc2.
  - split.
    + intros dx [Hin|Hin]; inv_elem Hin;
        first [ apply Hp1 in Hin; simpl in Hin; congruence | by apply Hf3 in Hin ].
    + intros dx Hdx. apply elem_of_app. left. apply Hp2. congruence.
Qed.

Lemma reached_after x (e' : env Model Results Forecast) pre t :
  (forall ev, ev ∈ pre -> match ev with Print _ | CallAdfuller _ => True | _ => False end) ->
  reached L x e' t -> reached L x e' (pre ++ t).
Proof.
  intros Hpre (H1 & H2 & H3 & H4 & H5 & H6 & H7 & H8 & H9 & (H10 & H11) & H12 & H13).
  unfold reached. do 7 (split; [done|]).
  split; [apply elem_of_app; by right|].
  split.
  { intros y o Hin. inv_elem Hin; [by apply Hpre in Hin | by apply H9]. }
  split; [split|split].
  - intros r k Hin. inv_elem Hin; [by apply Hpre in Hin | by apply H10].
  - intros r Hr. apply elem_of_app. right. by apply H11.
  - intros dx [Hin|Hin]; inv_elem Hin;
      first [ by apply Hpre in Hin | apply H12; by left | apply H12; by right ].
  - intros dx Hdx. apply elem_of_app. right. by apply H13.
Qed.


Ltac stopped_here :=
  left; unfold stopped; simpl; split_and!;
  [ done | done | eexists; repeat first [apply list_elem_of_here | apply list_elem_of_further]
  | let ev := fresh "ev" in let Hin := fresh "Hin" in
    intros ev Hin; inv_elem Hin; simplify_eq; done
  | idtac ].

Lemma after_aggregation_spec (e : env Model Results Forecast) fr x :
  df e = Some fr -> patronage_weekly e = Some x -> results e = None ->
  exists e' t, after_aggregation L file e = (Ok tt, e', t) /\
    patronage_weekly e' = Some x /\ (stopped L e' t \/ completed L e' t).
Proof.
  intros Hdf Hx Hr. unfold after_aggregation, if_df. rewrite Hdf. unfold bind.
  open_stage; unfold stationarity_body, stationarity_handler; open_stage. simpl.
  rewrite Hx. simpl.
  destruct (adfuller L x) as [p1|exc] eqn:Hadf; simpl.
  2:{ do 2 eexists. split; [reflexivity|]. split; [done|].
      stopped_here. intros x' Hx'. left. exists exc. congruence. }
  destruct (stationary p1) eqn:Hst; simpl; repeat (rewrite Hx; simpl).
  { match goal with
    | |- context [after_stationarity L file ?s] =>
        destruct (after_stationarity_spec s fr x) as (e' & t & Heq & Hdd & Hre); try done
    end.
    rewrite Heq. do 2 eexists. split; [reflexivity|].
    split; [apply Hre|]. right. exists x, p1. rewrite Hst. split; [done|].
    split; [by rewrite Hdd|].
    apply (reached_after x e' [CallAdfuller x]); [|done].
    intros ev Hin. inv_elem Hin. by subst. }
  destruct (adfuller L (dropna (diff x))) as [p2|exc] eqn:Hadf2; simpl.
  2:{ do 2 eexists. split; [reflexivity|]. split; [done|].
      stopped_here. intros x' Hx'. right. exists p1, exc. by simplify_eq. }
  destruct (stationary p2) eqn:Hst2; simpl;
  match goal with
  | |- context [after_stationarity L file ?s] =>
      destruct (after_stationarity_spec s fr x) as (e' & t & Heq & Hdd & Hre); try done
  end;
  rewrite Heq; do 2 eexists; (split; [reflexivity|]);
  (split; [apply Hre|]); right; exists x, p1; rewrite Hst; (split; [done|]);
  (split; [by rewrite Hdd|]);
  (apply (reached_after x e' [CallAdfuller x; CallAdfuller (dropna (diff x))]); [|done]);
  intros ev Hin; inv_elem Hin; by subst.
Qed.

Lemma after_weeks_spec (e : env Model Results Forecast) fr :
  df e = Some fr -> patronage_weekly e = None -> results e = None ->
  exists e' t, after_weeks L file e = (Ok tt, e', t) /\
    (stopped L e' t \/ completed L e' t) /\
    (forall x, patronage_weekly e' = Some x -> groupby_nunique fr = Ok x).
Proof.
  intros Hdf Hx Hr. unfold after_weeks, if_df. rewrite Hdf. unfold bind.
  open_stage; unfold aggregation_body, aggregation_handler, the_frame; open_stage.
  rewrite Hdf. simpl.
  destruct (groupby_nunique fr) as [x|exc] eqn:Hg; simpl.
  - match goal with
    | |- context [after_aggregation L file ?s] =>
        destruct (after_aggregation_spec s fr x) as (e' & t & Heq & Hx' & Hre); try done
    end.
    rewrite Heq. do 2 eexists. split; [reflexivity|]. split; [done|].
    intros x' Hx''. congruence.
  - do 2 eexists. split; [reflexivity|]. split.
    + stopped_here. intros x' Hx'. congruence.
    + simpl. intros x' Hx'. congruence.
Qed.

Lemma after_load_spec (e : env Model Results Forecast) fr :
  df e = Some fr -> patronage_weekly e = None -> results e = None ->
  exists e' t, after_load L file e = (Ok tt, e', t) /\
    (stopped L e' t \/ completed L e' t) /\
    (forall x, patronage_weekly e' = Some x ->
       exists dates weeks,
         fr !! "InvoiceDate" = Some dates /\
         isocalendar_week L dates = Ok weeks /\
         groupby_nunique (<["InvoiceWeek" := weeks]> fr) = Ok x).
Proof.
  intros Hdf Hx Hr. unfold after_load, if_df. rewrite Hdf. unfold bind.
  open_stage; unfold weeks_body, weeks_handler, the_frame, getitem; open_stage.
  rewrite Hdf. simpl.
  destruct (fr !! "InvoiceDate") as [dates|] eqn:Hd; simpl.
  2:{ do 2 eexists. split; [reflexivity|]. split.
      - stopped_here. intros x' Hx'. congruence.
      - simpl. intros x' Hx'. congruence. }
  destruct (isocalendar_week L dates) as [weeks|exc] eqn:Hw; simpl.
  2:{ do 2 eexists. split; [reflexivity|]. split.
      - stopped_here. intros x' Hx'. congruence.
      - simpl. intros x' Hx'. congruence. }
  match goal with
  | |- context [after_weeks L file ?s] =>
      destruct (after_weeks_spec s (<["InvoiceWeek" := weeks]> fr))
        as (e' & t & Heq & Hre & Hg); try done
  end.
  rewrite Heq. do 2 eexists. split; [reflexivity|]. split; [done|].
  intros x' Hx'. exists dates, weeks. split_and!; try done. by apply Hg.
Qed.

(** Every run ends in one of three ways: by an exception the load stage does
    not handle, cut short by a handler that set [df] to [None], or after
    passing every guard. *)
Lemma run_cases :
  (exists exc e', run L file = (Raise exc, e', []) /\
     exn_cls exc <> FileNotFoundError /\ exn_cls exc <> EmptyDataError /\
     exn_cls exc <> ParserError /\
     patronage_weekly e' = None /\ results e' = None) \/
  (exists e' t, run L file = (Ok tt, e', t) /\
     (stopped L e' t \/ completed L e' t) /\
     (forall x, patronage_weekly e' = Some x -> aggregated L file x)).
Proof.
  unfold run, script, bind.
  open_stage; unfold load_body, load_handler, the_frame, getitem; open_stage.
  destruct file as [frame|exc] eqn:Hfile; simpl.
  2:{ destruct (exn_cls exc) eqn:Hc; simpl;
      first [ left; do 2 eexists; split; [reflexivity|]; by rewrite Hc
            | right; do 2 eexists; split; [reflexivity|]; split;
              [ stopped_here; intros x' Hx'; congruence
              | simpl; intros x' Hx'; congruence ] ]. }
  destruct (frame !! "InvoiceDate") as [dates|] eqn:Hd; simpl.
  2:{ left. do 2 eexists. split; [reflexivity|]. by simpl. }
  destruct (to_datetime L dates) as [parsed|exc] eqn:Hp; simpl.
  2:{ destruct (exn_cls exc) eqn:Hc; simpl;
      first [ left; do 2 eexists; split; [reflexivity|]; by rewrite Hc
            | right; do 2 eexists; split; [reflexivity|]; split;
              [ stopped_here; intros x' Hx'; congruence
              | simpl; intros x' Hx'; congruence ] ]. }
  right.
  match goal with
  | |- context [after_load L _ ?s] =>
      destruct (after_load_spec s (<["InvoiceDate" := parsed]> frame))
        as (e' & t & Heq & Hre & Hg); try done
  end.
  rewrite Hfile in Heq. rewrite Heq. do 2 eexists. split; [reflexivity|]. split; [done|].
  intros x' Hx'. destruct (Hg x' Hx') as (dates' & weeks & H1 & H2 & H3).
  rewrite lookup_insert_eq in H1. injection H1 as <-.
  exists frame, dates, parsed, weeks. by split_and!.
Qed.

(** A table that loads and aggregates gives the run its weekly series. *)
Lemma run_aggregates x :
  aggregated L file x -> patronage_weekly (env_of (run L file)) = Some x.
Proof.
  intros (frame & dates & parsed & weeks & Hfile & Hd & Hp & Hw & Hg).
  unfold run, script, after_load, after_weeks, if_df, bind.
  open_stage; unfold load_body, load_handler, weeks_body, weeks_handler,
    aggregation_body, aggregation_handler, the_frame, getitem; open_stage.
  rewrite Hfile. simpl. rewrite Hd. simpl. rewrite Hp. simpl.
  rewrite lookup_insert_eq. simpl. rewrite Hw. simpl. rewrite Hg. simpl.
  match goal with
  | |- context [after_aggregation L _ ?s] =>
      destruct (after_aggregation_spec s
                  (<["InvoiceWeek" := weeks]> (<["InvoiceDate" := parsed]> frame)) x)
        as (e' & t & Heq & Hx & _); try done
  end.
  rewrite Hfile in Heq. rewrite Heq. done.
Qed.


End Stages.

(** ** The path on which nothing is raised *)

Section Success.

Context {Model Results Forecast : Type}.
Variable L : Library Model Results Forecast.
Variable file : result DataFrame.

#[local] Arguments run_stage : simpl never.
#[local] Arguments after_forecast_plot : simpl never.
#[local] Arguments after_forecast : simpl never.
#[local] Arguments after_diagnostics : simpl never.
#[local] Arguments after_fit : simpl never.
#[local] Arguments after_split : simpl never.
#[local] Arguments after_parameter_plots : simpl never.
#[local] Arguments after_stationarity : simpl never.
#[local] Arguments after_aggregation : simpl never.
#[local] Arguments after_weeks : simpl never.

Lemma clean_app (t1 t2 : list (event Model Results)) : clean (t1 ++ t2) -> clean t1 /\ clean t2.
Proof.
  intros H. split; intros line Hin; apply (H line), elem_of_app; auto.
Qed.

Lemma clean_cons ev (t : list (event Model Results)) : clean (ev :: t) -> clean t.
Proof. intros H line Hin. apply (H line). by apply list_elem_of_further. Qed.

Lemma figures_app (t1 t2 : list (event Model Results)) : figures (t1 ++ t2) = figures t1 ++ figures t2.
Proof.
  induction t1 as [|ev t1 IH]; [done|]. destruct ev; simpl; by rewrite IH.
Qed.

Lemma printed_mape_app (t1 t2 : list (event Model Results)) :
  printed_mape (t1 ++ t2) = printed_mape t1 ++ printed_mape t2.
Proof.
  induction t1 as [|ev t1 IH]; [done|]. destruct ev; simpl; by rewrite IH.
Qed.

(** A call that returns [None] returned [Ok tt]. *)
Ltac units := repeat match goal with u : unit |- _ => destruct u end.

Lemma mape_clean (e e' : env Model Results Forecast) r t :
  run_stage L file Mape e = (r, e', t) -> clean t ->
  exists te fv v, test_data e = Some te /\ forecast_values e = Some fv /\
    mean_absolute_percentage_error L te fv = Ok v /\
    t = [CallMAPE te fv; PrintMAPE v].
Proof.
  open_stage; unfold mape_body, mape_handler; open_stage.
  repeat (case_call; simpl); intros [= <- <- <-] Hc; try not_clean.
  by do 3 eexists.
Qed.

Lemma forecast_plot_clean (e e' : env Model Results Forecast) r t :
  run_stage L file ForecastPlot e = (r, e', t) -> clean t ->
  r = Ok tt /\ e' = e /\ t = [Savefig forecast_path] /\
  exists x tr fv ci,
    patronage_weekly e = Some x /\ train_data e = Some tr /\
    forecast_values e = Some fv /\ forecast_ci e = Some ci /\
    forecast_drawn L x tr fv ci.
Proof.
  open_stage; unfold forecast_plot_body, forecast_plot_handler; open_stage.
  repeat (case_call; simpl); intros [= <- <- <-] Hc; try not_clean.
  units. split_and!; try done. do 4 eexists. by split_and!.
Qed.

Lemma after_forecast_clean (e e' : env Model Results Forecast) fr r t :
  df e = Some fr ->
  after_forecast L file e = (r, e', t) -> clean t ->
  exists x tr te fv ci v,
    patronage_weekly e = Some x /\ train_data e = Some tr /\
    test_data e = Some te /\
    forecast_values e = Some fv /\ forecast_ci e = Some ci /\
    forecast_drawn L x tr fv ci /\
    mean_absolute_percentage_error L te fv = Ok v /\
    t = [Savefig forecast_path; CallMAPE te fv; PrintMAPE v].
Proof.
  intros Hdf. unfold after_forecast, if_df. rewrite Hdf. unfold bind, after_forecast_plot.
  destruct (run_stage L file ForecastPlot e) as [[r1 e1] t1] eqn:H1.
  destruct r1 as [[]|exc].
  2:{ intros [= <- <- <-] Hc.
      by destruct (forecast_plot_clean _ _ _ _ H1 Hc) as (? & _). }
  destruct (run_stage L file Mape e1) as [[r2 e2] t2] eqn:H2.
  intros [= <- <- <-] [Hc1 Hc2]%clean_app.
  destruct (forecast_plot_clean _ _ _ _ H1 Hc1)
    as (_ & -> & -> & x & tr & fv & ci & Hx & Htr & Hfv & Hci & Hdrawn).
  destruct (mape_clean _ _ _ _ H2 Hc2) as (te & fv' & v & Hte & Hfv' & Hv & ->).
  assert (fv' = fv) as -> by congruence.
  exists x, tr, te, fv, ci, v. by split_and!.
Qed.

Lemma after_diagnostics_clean (e e' : env Model Results Forecast) fr x tr te r t :
  df e = Some fr -> patronage_weekly e = Some x ->
  train_data e = Some tr -> test_data e = Some te ->
  after_diagnostics L file e = (r, e', t) -> clean t ->
  exists rs f v,
    results e = Some rs /\ get_forecast L rs (length te) = Ok f /\
    forecast_drawn L x tr (predicted_mean L f) (conf_int L f) /\
    mean_absolute_percentage_error L te (predicted_mean L f) = Ok v /\
    t = [CallGetForecast rs (length te); Savefig forecast_path;
         CallMAPE te (predicted_mean L f); PrintMAPE v].
Proof.
  intros Hdf Hx Htr Hte. unfold after_diagnostics, bind.
  open_stage; unfold forecast_body, forecast_handler; open_stage. simpl.
  repeat (case_call; simpl; rewrite ?Hte in *; simplify_eq);
  match goal with
  | |- context [after_forecast L file ?s] =>
      destruct (after_forecast L file s) as [[r2 e2] t2] eqn:Hrest
  end; intros [= <- <- <-] Hc; try not_clean.
  apply clean_cons in Hc.
  pose proof (fun H => after_forecast_clean _ _ fr _ _ H Hrest Hc) as Hnext.
  destruct (Hnext ltac:(done))
    as (x' & tr' & te' & fv & ci & v & Hx' & Htr' & Hte' & Hfv & Hci & Hdrawn & Hv & ->).
  simpl in *. simplify_eq. do 3 eexists. by split_and!.
Qed.

Lemma after_fit_clean (e e' : env Model Results Forecast) fr x tr te r t :
  df e = Some fr -> patronage_weekly e = Some x ->
  train_data e = Some tr -> test_data e = Some te ->
  after_fit L file e = (r, e', t) -> clean t ->
  exists rs f v,
    results e = Some rs /\ diagnostics_drawn L rs /\
    get_forecast L rs (length te) = Ok f /\
    forecast_drawn L x tr (predicted_mean L f) (conf_int L f) /\
    mean_absolute_percentage_error L te (predicted_mean L f) = Ok v /\
    t = [CallPlotDiagnostics rs; Savefig diagnostic_path;
         CallGetForecast rs (length te); Savefig forecast_path;
         CallMAPE te (predicted_mean L f); PrintMAPE v].
Proof.
  intros Hdf Hx Htr Hte. unfold after_fit, if_df. rewrite Hdf. unfold bind.
  open_stage; unfold diagnostics_body, diagnostics_handler; open_stage. simpl.
  repeat (case_call; simpl);
  match goal with
  | |- context [after_diagnostics L file ?s] =>
      destruct (after_diagnostics L file s) as [[r2 e2] t2] eqn:Hrest
  end; intros [= <- <- <-] Hc; try not_clean.
  do 2 apply clean_cons in Hc.
  destruct (after_diagnostics_clean _ _ fr x tr te _ _ Hdf Hx Htr Hte Hrest Hc)
    as (rs & f & v & Hrs & Hf & Hdrawn & Hv & ->).
  units. simplify_eq. do 3 eexists. by split_and!.
Qed.

Lemma after_split_clean (e e' : env Model Results Forecast) fr x tr te r t :
  df e = Some fr -> patronage_weekly e = Some x ->
  train_data e = Some tr -> test_data e = Some te ->
  p e = Some 1 -> d e = Some 1 -> q e = Some 1 ->
  after_split L file e = (r, e', t) -> clean t ->
  clean_tail L x tr te t.
Proof.
  intros Hdf Hx Htr Hte Hp Hd Hq. unfold after_split, if_df. rewrite Hdf. unfold bind.
  open_stage; unfold fit_body, fit_handler; open_stage. simpl.
  rewrite Htr, Hp, Hd, Hq. simpl.
  repeat (case_call; simpl);
  match goal with
  | |- context [after_fit L file ?s] =>
      destruct (after_fit L file s) as [[r2 e2] t2] eqn:Hrest
  end; intros [= <- <- <-] Hc; try not_clean.
  do 2 apply clean_cons in Hc.
  pose proof (fun H1 H2 H3 H4 => after_fit_clean _ _ fr x tr te _ _ H1 H2 H3 H4 Hrest Hc)
    as Hnext.
  destruct (Hnext ltac:(done) ltac:(done) ltac:(done) ltac:(done))
    as (rs & f & v & Hrs & Hdiag & Hf & Hdrawn & Hv & ->).
  simpl in *. simplify_eq. do 4 eexists. by split_and!.
Qed.

Lemma after_parameter_plots_clean (e e' : env Model Results Forecast) fr x r t :
  df e = Some fr -> patronage_weekly e = Some x ->
  after_parameter_plots L file e = (r, e', t) -> clean t ->
  clean_tail L x (slice_to (-4) x) (slice_from (-4) x) t.
Proof.
  intros Hdf Hx. unfold after_parameter_plots, define_parameters.
  open_stage; unfold split_body, split_handler; open_stage. simpl.
  repeat (rewrite Hx; simpl).
  match goal with
  | |- context [after_split L file ?s] =>
      destruct (after_split L file s) as [[r2 e2] t2] eqn:Hrest
  end. intros [= <- <- <-] Hc.
  by apply (fun H1 H2 H3 H4 H5 H6 H7 =>
              after_split_clean _ _ fr x _ _ _ _ H1 H2 H3 H4 H5 H6 H7 Hrest Hc).
Qed.

Lemma after_stationarity_clean (e e' : env Model Results Forecast) fr x dx r t :
  df e = Some fr -> patronage_weekly e = Some x -> data_diff e = Some dx ->
  after_stationarity L file e = (r, e', t) -> clean t ->
  parameters_drawn L dx /\
  exists t2, clean_tail L x (slice_to (-4) x) (slice_from (-4) x) t2 /\
             t = plot_events dx ++ t2.
Proof.
  intros Hdf Hx Hdx. unfold after_stationarity, if_df. rewrite Hdf. unfold bind.
  open_stage; unfold parameter_plots_body, parameter_plots_handler; open_stage. simpl.
  rewrite Hdx. simpl.
  repeat (case_call; simpl);
  match goal with
  | |- context [after_parameter_plots L file ?s] =>
      destruct (after_parameter_plots L file s) as [[r2 e2] t2] eqn:Hrest
  end; intros [= <- <- <-] Hc; try not_clean.
  do 4 apply clean_cons in Hc.
  pose proof (after_parameter_plots_clean _ _ fr x _ _ Hdf Hx Hrest Hc) as Htail.
  units. simplify_eq. split; [done|]. by exists t2.
Qed.

Lemma after_aggregation_clean (e e' : env Model Results Forecast) fr x r t :
  df e = Some fr -> patronage_weekly e = Some x ->
  after_aggregation L file e = (r, e', t) -> clean t ->
  clean_path L x t.
Proof.
  intros Hdf Hx. unfold after_aggregation, if_df. rewrite Hdf. unfold bind.
  open_stage; unfold stationarity_body, stationarity_handler; open_stage. simpl.
  rewrite Hx. simpl.
  destruct (adfuller L x) as [p1|exc] eqn:Hadf; simpl.
  2:{ intros [= <- <- <-] Hc. not_clean. }
  unfold clean_path, test_events.
  destruct (stationary p1) eqn:Hst; simpl; repeat (rewrite Hx; simpl).
  { match goal with
    | |- context [after_stationarity L file ?s] =>
        destruct (after_stationarity L file s) as [[r2 e2] t2] eqn:Hrest
    end. intros [= <- <- <-] Hc. apply clean_cons in Hc.
    pose proof (fun H1 H2 H3 => after_stationarity_clean _ _ fr x x _ _ H1 H2 H3 Hrest Hc)
      as Hnext.
    destruct (Hnext ltac:(done) ltac:(done) ltac:(done)) as (Hplots & t3 & Htail & ->).
    exists p1, t3. rewrite Hst. by split_and!. }
  destruct (adfuller L (dropna (diff x))) as [p2|exc] eqn:Hadf2; simpl.
  2:{ intros [= <- <- <-] Hc. not_clean. }
  destruct (stationary p2) eqn:Hst2; simpl;
  match goal with
  | |- context [after_stationarity L file ?s] =>
      destruct (after_stationarity L file s) as [[r2 e2] t2] eqn:Hrest
  end; intros [= <- <- <-] Hc; do 2 apply clean_cons in Hc;
  pose proof (fun H1 H2 H3 =>
                after_stationarity_clean _ _ fr x (dropna (diff x)) _ _ H1 H2 H3 Hrest Hc)
    as Hnext;
  destruct (Hnext ltac:(done) ltac:(done) ltac:(done)) as (Hplots & t3 & Htail & ->);
  exists p1, t3; rewrite Hst; split_and!; try done; by exists p2.
Qed.

Lemma after_weeks_clean (e e' : env Model Results Forecast) fr r t :
  df e = Some fr ->
  after_weeks L file e = (r, e', t) -> clean t ->
  exists x, groupby_nunique fr = Ok x /\ clean_path L x t.
Proof.
  intros Hdf. unfold after_weeks, if_df. rewrite Hdf. unfold bind.
  open_stage; unfold aggregation_body, aggregation_handler, the_frame; open_stage.
  rewrite Hdf. simpl.
  destruct (groupby_nunique fr) as [x|exc] eqn:Hg; simpl.
  2:{ intros [= <- <- <-] Hc. not_clean. }
  match goal with
  | |- context [after_aggregation L file ?s] =>
      destruct (after_aggregation L file s) as [[r2 e2] t2] eqn:Hrest
  end. intros [= <- <- <-] Hc. exists x. split; [done|].
  by apply (fun H1 H2 => after_aggregation_clean _ _ fr x _ _ H1 H2 Hrest Hc).
Qed.

Lemma after_load_clean (e e' : env Model Results Forecast) fr r t :
  df e = Some fr ->
  after_load L file e = (r, e', t) -> clean t ->
  exists dates weeks x,
    fr !! "InvoiceDate" = Some dates /\ isocalendar_week L dates = Ok weeks /\
    groupby_nunique (<["InvoiceWeek" := weeks]> fr) = Ok x /\ clean_path L x t.
Proof.
  intros Hdf. unfold after_load, if_df. rewrite Hdf. unfold bind.
  open_stage; unfold weeks_body, weeks_handler, the_frame, getitem; open_stage.
  rewrite Hdf. simpl.
  destruct (fr !! "InvoiceDate") as [dates|] eqn:Hd; simpl.
  2:{ intros [= <- <- <-] Hc. not_clean. }
  destruct (isocalendar_week L dates) as [weeks|exc] eqn:Hw; simpl.
  2:{ intros [= <- <- <-] Hc. not_clean. }
  match goal with
  | |- context [after_weeks L file ?s] =>
      destruct (after_weeks L file s) as [[r2 e2] t2] eqn:Hrest
  end. intros [= <- <- <-] Hc.
  pose proof (fun H1 => after_weeks_clean _ _ (<["InvoiceWeek" := weeks]> fr) _ _ H1 Hrest Hc) as Hnext.
  destruct (Hnext ltac:(done)) as (x & Hg & Hs).
  by exists dates, weeks, x.
Qed.

Lemma run_clean :
  successful (run L file) ->
  exists x, aggregated L file x /\ clean_path L x (trace_of (run L file)).
Proof.
  unfold successful, exit_of, trace_of, run, script, bind.
  open_stage; unfold load_body, load_handler, the_frame, getitem; open_stage.
  destruct file as [frame|exc] eqn:Hfile; simpl.
  2:{ destruct (exn_cls exc) eqn:Hc; simpl; intros [He Hcl]; try discriminate; not_clean. }
  destruct (frame !! "InvoiceDate") as [dates|] eqn:Hd; simpl.
  2:{ intros [He Hcl]. discriminate. }
  destruct (to_datetime L dates) as [parsed|exc] eqn:Hp; simpl.
  2:{ destruct (exn_cls exc) eqn:Hc; simpl; intros [He Hcl]; try discriminate; not_clean. }
  match goal with
  | |- context [after_load L _ ?s] =>
      destruct (after_load L (Ok frame) s) as [[r2 e2] t2] eqn:Hrest
  end. simpl. intros [He Hc]. rewrite <- Hfile in Hrest.
  pose proof (fun H1 => after_load_clean _ _ (<["InvoiceDate" := parsed]> frame) _ _ H1 Hrest Hc) as Hnext.
  destruct (Hnext ltac:(done)) as (dates' & weeks & x & H1 & H2 & H3 & H4).
  rewrite lookup_insert_eq in H1. injection H1 as <-.
  exists x. split; [|done]. exists frame, dates, parsed, weeks. by split_and!.
Qed.

End Success.

(** ** The stages after the aggregation do not look into the table *)

Section Lockstep.

Context {Model Results Forecast : Type}.
Variable L : Library Model Results Forecast.

Let stmt := @M Model Results Forecast.

Lemma lockstep_ret {A} (a : A) : lockstep (ret a : stmt A) (ret a).
Proof. intros e1 e2 H. by simpl. Qed.

Lemma lockstep_call {A} (r : result A) : lockstep (call r : stmt A) (call r).
Proof. intros e1 e2 H. by simpl. Qed.

Lemma lockstep_emit ev : lockstep (emit ev : stmt unit) (emit ev).
Proof. intros e1 e2 H. by simpl. Qed.

Lemma lockstep_bind {A B} (m1 m2 : stmt A) (k1 k2 : A -> stmt B) :
  lockstep m1 m2 -> (forall a, lockstep (k1 a) (k2 a)) -> lockstep (bind m1 k1) (bind m2 k2).
Proof.
  intros Hm Hk e1 e2 H. unfold bind. specialize (Hm e1 e2 H).
  destruct (m1 e1) as [[r1 e1'] t1], (m2 e2) as [[r2 e2'] t2].
  destruct Hm as (-> & -> & H'). destruct r2 as [a|exc]; [|done].
  specialize (Hk a e1' e2' H').
  destruct (k1 a e1') as [[r1 e1''] t1'], (k2 a e2') as [[r2 e2''] t2'].
  destruct Hk as (-> & -> & H''). done.
Qed.

Lemma lockstep_try (b1 b2 : stmt unit) (h1 h2 : exn -> stmt unit) :
  lockstep b1 b2 -> (forall exc, lockstep (h1 exc) (h2 exc)) ->
  lockstep (try_except b1 h1) (try_except b2 h2).
Proof.
  intros Hb Hh e1 e2 H. unfold try_except. specialize (Hb e1 e2 H).
  destruct (b1 e1) as [[r1 e1'] t1], (b2 e2) as [[r2 e2'] t2].
  destruct Hb as (-> & -> & H'). destruct r2 as [a|exc]; [done|].
  specialize (Hh exc e1' e2' H').
  destruct (h1 exc e1') as [[r1 e1''] t1'], (h2 exc e2') as [[r2 e2''] t2'].
  destruct Hh as (-> & -> & H''). done.
Qed.

Lemma lockstep_if_df (b1 b2 : stmt unit) :
  lockstep b1 b2 -> lockstep (if_df b1) (if_df b2).
Proof.
  intros Hb e1 e2 H. unfold if_df.
  destruct (df e1) eqn:H1, (df e2) eqn:H2.
  - by apply Hb.
  - destruct H as [_ [_ H]]. specialize (H H2). congruence.
  - destruct H as [_ [H _]]. specialize (H H1). congruence.
  - done.
Qed.

Lemma lockstep_name {A} (var : env Model Results Forecast -> option A) id :
  (forall e1 e2, alike e1 e2 -> var e1 = var e2) -> lockstep (name var id) (name var id).
Proof.
  intros Hv e1 e2 H. unfold name. rewrite (Hv e1 e2 H). by destruct (var e2).
Qed.

Lemma lockstep_assign (upd : env Model Results Forecast -> env Model Results Forecast) :
  (forall e1 e2, alike e1 e2 -> alike (upd e1) (upd e2)) ->
  lockstep (assign upd) (assign upd).
Proof. intros Hu e1 e2 H. simpl. auto. Qed.

Ltac alike_var :=
  let H := fresh in
  intros ? ? [H _]; unfold numeric_state in H; congruence.

Ltac alike_upd :=
  let H := fresh in let H' := fresh in
  intros ? ? [H H']; split; [unfold numeric_state in *; simpl; congruence | simpl; done].

Ltac lockstep :=
  repeat first
    [ apply lockstep_bind; [|intros ?]
    | apply lockstep_try; [|intros ?]
    | apply lockstep_if_df
    | apply lockstep_ret
    | apply lockstep_call
    | apply lockstep_emit
    | apply lockstep_name; alike_var
    | apply lockstep_assign; alike_upd
    | match goal with |- lockstep (if ?b then _ else _) _ => destruct b end ].

Lemma lockstep_after_aggregation file1 file2 :
  lockstep (after_aggregation L file1) (after_aggregation L file2).
Proof.
  unfold after_aggregation, after_stationarity, after_parameter_plots, after_split,
    after_fit, after_diagnostics, after_forecast, after_forecast_plot, run_stage,
    body, handler, define_parameters.
  unfold stationarity_body, stationarity_handler, parameter_plots_body,
    parameter_plots_handler, split_body, split_handler, fit_body, fit_handler,
    diagnostics_body, diagnostics_handler, forecast_body, forecast_handler,
    forecast_plot_body, forecast_plot_handler, mape_body, mape_handler, save, log.
  lockstep.
Qed.

Lemma groupby_nunique_agree (f1 f2 : DataFrame) :
  f1 !! "InvoiceWeek" = f2 !! "InvoiceWeek" ->
  f1 !! "CustomerID" = f2 !! "CustomerID" ->
  groupby_nunique f1 = groupby_nunique f2.
Proof. intros H1 H2. unfold groupby_nunique. by rewrite H1, H2. Qed.

#[local] Arguments after_aggregation : simpl never.

Lemma run_alike (f1 f2 : DataFrame) :
  f1 !! "InvoiceDate" = f2 !! "InvoiceDate" ->
  f1 !! "CustomerID" = f2 !! "CustomerID" ->
  same_results (run L (Ok f1)) (run L (Ok f2)).
Proof.
  intros Hd Hc.
  unfold run, script, after_load, after_weeks, if_df, bind, run_stage, try_except,
    body, handler, load_body, load_handler, weeks_body, weeks_handler,
    aggregation_body, aggregation_handler, the_frame, getitem, log, bind, call,
    assign, emit, raise, ret.
  simpl. rewrite <- Hd.
  destruct (f1 !! "InvoiceDate") as [dates|]; simpl.
  2:{ repeat split; simpl; congruence. }
  destruct (to_datetime L dates) as [parsed|exc]; simpl.
  2:{ destruct (exn_cls exc); simpl; repeat split; simpl; congruence. }
  rewrite !lookup_insert_eq. simpl.
  destruct (isocalendar_week L parsed) as [weeks|exc]; simpl.
  2:{ repeat split; simpl; congruence. }
  rewrite (groupby_nunique_agree
             (<["InvoiceWeek" := weeks]> (<["InvoiceDate" := parsed]> f1))
             (<["InvoiceWeek" := weeks]> (<["InvoiceDate" := parsed]> f2))).
  2:{ by rewrite !lookup_insert_eq. }
  2:{ by rewrite !lookup_insert_ne. }
  destruct (groupby_nunique _) as [x|exc]; simpl.
  2:{ repeat split; simpl; congruence. }
  match goal with
  | |- same_results (let (_, _) := let (_, _) := let (_, _) :=
                       after_aggregation L _ ?s1 in _ in _ in _)
                    (let (_, _) := let (_, _) := let (_, _) :=
                       after_aggregation L _ ?s2 in _ in _ in _) =>
      pose proof (lockstep_after_aggregation (Ok f1) (Ok f2) s1 s2) as Hstep;
      destruct (after_aggregation L (Ok f1) s1) as [[r1 e1] t1];
      destruct (after_aggregation L (Ok f2) s2) as [[r2 e2] t2]
  end.
  destruct Hstep as (-> & -> & Ha); [by split|].
  unfold same_results, exit_of, trace_of, env_of. simpl. done.
Qed.

End Lockstep.
(** ** What the modelling stages leave behind, stage by stage *)

Section AuditStages.

Context {Model Results Forecast : Type}.
Variable L : Library Model Results Forecast.
Variable file : result DataFrame.

Implicit Types (e : env Model Results Forecast) (t : list (event Model Results)).

#[local] Arguments run_stage : simpl never.
#[local] Arguments after_forecast_plot : simpl never.
#[local] Arguments after_forecast : simpl never.
#[local] Arguments after_diagnostics : simpl never.
#[local] Arguments after_fit : simpl never.
#[local] Arguments after_split : simpl never.
#[local] Arguments after_parameter_plots : simpl never.
#[local] Arguments after_stationarity : simpl never.
#[local] Arguments after_aggregation : simpl never.
#[local] Arguments after_weeks : simpl never.
#[local] Arguments after_load : simpl never.

(** An event that stands in a trace written out up to a rest. *)
Ltac in_trace :=
  repeat first [ apply list_elem_of_here | apply list_elem_of_further ]; auto.

(** The last step of a case: compute with what the calls returned. *)
Ltac audit_case :=
  intros; simplify_eq;
  repeat match goal with
         | H1 : ?c = _, H2 : ?c = _ |- _ => rewrite H1 in H2; simplify_eq
         end;
  simpl;
  repeat (match goal with
          | H : ?c = _ |- context [?c] => rewrite H
          end; simpl);
  try done; try congruence; in_trace.

Lemma mape_audited e te r e' t :
  test_data e = Some te -> mape e = None ->
  run_stage L file Mape e = (r, e', t) ->
  forecast_kept e e' /\ mape_audit L te e' t /\ figures t = [].
Proof.
  intros Hte Hm.
  open_stage; unfold mape_body, mape_handler; open_stage.
  rewrite Hte. simpl.
  repeat (case_call; simpl); intros [= <- <- <-];
    (split_and!; [done| |done]); unfold mape_audit; simpl;
    split_and!; audit_case.
Qed.

Lemma forecast_plot_audited e r e' t :
  run_stage L file ForecastPlot e = (r, e', t) ->
  r = Ok tt /\ e' = e /\ printed_mape t = [] /\
  sublist (figures t) [forecast_path] /\
  (forecast_path ∈ figures t -> is_Some (forecast_values e)).
Proof.
  open_stage; unfold forecast_plot_body, forecast_plot_handler; open_stage.
  repeat (case_call; simpl); intros [= <- <- <-]; split_and!; try done;
    try apply sublist_nil_l; try (by intros ?%elem_of_nil).
Qed.

(** *** An event in front of a trace *)

Lemma sublist_elem_of {A} (l k : list A) x : sublist l k -> x ∈ l -> x ∈ k.
Proof.
  induction 1 as [|y l k _ IH|y l k _ IH]; [done| |].
  - intros [->|Hin]%elem_of_cons; [apply list_elem_of_here|].
    apply list_elem_of_further. auto.
  - intros Hin. apply list_elem_of_further. auto.
Qed.

Lemma fit_audit_cons ev tr e t : fit_audit L tr e t -> fit_audit L tr e (ev :: t).
Proof.
  intros (H1 & H2 & H3 & H4). split_and!; try done;
    intros; apply list_elem_of_further; eauto.
Qed.

Lemma forecast_audit_cons ev te e t :
  forecast_audit L te e t -> forecast_audit L te e (ev :: t).
Proof.
  intros (H1 & H2 & H3 & H4 & H5). split_and!; try done;
    intros; apply list_elem_of_further; eauto.
Qed.

Lemma diagnostics_audit_cons ev e t :
  diagnostic_path ∉ figures [ev] ->
  diagnostics_audit e t -> diagnostics_audit e (ev :: t).
Proof.
  intros Hev (H1 & H2). split.
  - change (ev :: t) with ([ev] ++ t). rewrite figures_app.
    intros [Hin|Hin]%elem_of_app; [done|auto].
  - intros. apply list_elem_of_further. auto.
Qed.

Lemma forecast_plot_audit_cons ev e t :
  forecast_path ∉ figures [ev] ->
  forecast_plot_audit e t -> forecast_plot_audit e (ev :: t).
Proof.
  intros Hev H1. unfold forecast_plot_audit.
  change (ev :: t) with ([ev] ++ t). rewrite figures_app.
  intros [Hin|Hin]%elem_of_app; [done|auto].
Qed.

Lemma mape_audit_cons ev te e t :
  printed_mape [ev] = [] -> mape_audit L te e t -> mape_audit L te e (ev :: t).
Proof.
  intros Hev (H1 & H2 & H3 & H4). split_and!; try done.
  - change (ev :: t) with ([ev] ++ t). by rewrite printed_mape_app, Hev.
  - intros. apply list_elem_of_further. auto.
  - intros. apply list_elem_of_further. eauto.
Qed.

Lemma modelling_audit_cons ev tr te e t :
  printed_mape [ev] = [] ->
  diagnostic_path ∉ figures [ev] -> forecast_path ∉ figures [ev] ->
  modelling_audit L tr te e t -> modelling_audit L tr te e (ev :: t).
Proof.
  intros Hm Hd Hf (H1 & H2 & H3 & H4 & H5). split_and!.
  - by apply fit_audit_cons.
  - by apply diagnostics_audit_cons.
  - by apply forecast_audit_cons.
  - by apply forecast_plot_audit_cons.
  - by apply mape_audit_cons.
Qed.

(** An event that writes no figure, or another figure than [path]. *)
Ltac no_figure :=
  let H := fresh in
  simpl; intros H; inv_elem H; discriminate.

(** *** The modelling stages, from the last one backwards *)

Lemma after_forecast_audited e fr te r e' t :
  df e = Some fr -> test_data e = Some te -> mape e = None ->
  after_forecast L file e = (r, e', t) ->
  forecast_kept e e' /\ mape_audit L te e' t /\
  sublist (figures t) [forecast_path] /\ forecast_plot_audit e' t.
Proof.
  intros Hdf Hte Hm. unfold after_forecast, if_df. rewrite Hdf.
  unfold bind, after_forecast_plot.
  destruct (run_stage L file ForecastPlot e) as [[r1 e1] t1] eqn:H1.
  destruct (forecast_plot_audited _ _ _ _ H1) as (-> & -> & Hp1 & Hs1 & Hf1).
  destruct (run_stage L file Mape e) as [[r2 e2] t2] eqn:H2.
  destruct (mape_audited _ _ _ _ _ Hte Hm H2) as (Hk & (A1 & A2 & A3 & A4) & Hf2).
  intros [= <- <- <-]. unfold forecast_plot_audit.
  rewrite figures_app, Hf2, app_nil_r. split_and!; try done.
  - split_and!; try done.
    + by rewrite printed_mape_app, Hp1.
    + intros. apply elem_of_app. auto.
    + intros. apply elem_of_app. eauto.
  - intros Hin. destruct Hk as (_ & _ & _ & _ & -> & _). auto.
Qed.

Lemma after_diagnostics_audited e fr te r e' t :
  df e = Some fr -> test_data e = Some te ->
  forecast e = None -> forecast_values e = None -> forecast_ci e = None ->
  mape e = None ->
  after_diagnostics L file e = (r, e', t) ->
  fit_kept e e' /\ forecast_audit L te e' t /\ mape_audit L te e' t /\
  sublist (figures t) [forecast_path] /\ forecast_plot_audit e' t.
Proof.
  intros Hdf Hte Hf Hfv Hci Hm. unfold after_diagnostics, bind.
  open_stage; unfold forecast_body, forecast_handler; open_stage. simpl.
  repeat (case_call; simpl; rewrite ?Hte in *; simplify_eq);
  match goal with
  | |- context [after_forecast L file ?s] =>
      destruct (after_forecast L file s) as [[r2 e2] t2] eqn:Hrest;
      pose proof (fun H1 H2 H3 => after_forecast_audited s fr te _ _ _ H1 H2 H3 Hrest)
        as Hnext
  end; intros [= <- <- <-];
  destruct (Hnext ltac:(done) ltac:(done) ltac:(done))
    as ((Hv & Hmo & Hrs & Hfo & Hfvs & Hcis) & Ha & Hs & Hp);
  simpl in *.
  all: split_and!; [done| |repeat (apply mape_audit_cons; [done|]); done|done
                   |repeat (apply forecast_plot_audit_cons; [no_figure|]); done].
  all: split_and!; audit_case.
Qed.

Lemma after_fit_audited e fr te r e' t :
  df e = Some fr -> test_data e = Some te ->
  forecast e = None -> forecast_values e = None -> forecast_ci e = None ->
  mape e = None ->
  after_fit L file e = (r, e', t) ->
  fit_kept e e' /\ diagnostics_audit e' t /\ forecast_audit L te e' t /\
  forecast_plot_audit e' t /\ mape_audit L te e' t /\
  sublist (figures t) [diagnostic_path; forecast_path].
Proof.
  intros Hdf Hte Hf Hfv Hci Hm. unfold after_fit, if_df. rewrite Hdf. unfold bind.
  open_stage; unfold diagnostics_body, diagnostics_handler; open_stage. simpl.
  repeat (case_call; simpl);
  match goal with
  | |- context [after_diagnostics L file ?s] =>
      destruct (after_diagnostics L file s) as [[r2 e2] t2] eqn:Hrest
  end; intros [= <- <- <-];
  destruct (after_diagnostics_audited _ fr te _ _ _ Hdf Hte Hf Hfv Hci Hm Hrest)
    as ((Hv & Hmo & Hrs) & Ha & Hma & Hs & Hp).
  all: split_and!;
    [done
    |split;
       [simpl; intros Hin;
        first [ apply (sublist_elem_of _ _ _ Hs) in Hin; inv_elem Hin; discriminate
              | rewrite Hrs; by eexists ]
       |audit_case]
    |repeat apply forecast_audit_cons; done
    |repeat (apply forecast_plot_audit_cons; [no_figure|]); done
    |repeat (apply mape_audit_cons; [done|]); done
    |simpl; repeat first [ assumption | apply sublist_skip | apply sublist_cons ] ].
Qed.

Lemma after_split_audited e fr tr te r e' t :
  df e = Some fr -> train_data e = Some tr -> test_data e = Some te ->
  p e = Some 1 -> d e = Some 1 -> q e = Some 1 ->
  not_yet_modelled e ->
  after_split L file e = (r, e', t) ->
  view e' = view e /\ modelling_audit L tr te e' t /\
  sublist (figures t) [diagnostic_path; forecast_path].
Proof.
  intros Hdf Htr Hte Hp Hd Hq (Hmo & Hrs & Hf & Hfv & Hci & Hm).
  unfold after_split, if_df. rewrite Hdf. unfold bind.
  open_stage; unfold fit_body, fit_handler; open_stage. simpl.
  rewrite Htr, Hp, Hd, Hq. simpl.
  repeat (case_call; simpl);
  match goal with
  | |- context [after_fit L file ?s] =>
      destruct (after_fit L file s) as [[r2 e2] t2] eqn:Hrest;
      pose proof (fun H1 H2 H3 H4 H5 H6 =>
                    after_fit_audited s fr te _ _ _ H1 H2 H3 H4 H5 H6 Hrest) as Hnext
  end; intros [= <- <- <-];
  destruct (Hnext ltac:(done) ltac:(done) ltac:(done) ltac:(done) ltac:(done)
              ltac:(done))
    as ((Hv & Hmo2 & Hrs2) & Hda & Hfa & Hpa & Hma & Hs);
  simpl in *.
  all: split_and!;
    [done
    |split_and!;
       [split_and!; audit_case
       |repeat (apply diagnostics_audit_cons; [no_figure|]); done
       |repeat apply forecast_audit_cons; done
       |repeat (apply forecast_plot_audit_cons; [no_figure|]); done
       |repeat (apply mape_audit_cons; [done|]); done]
    |done].
Qed.

Lemma after_parameter_plots_audited e fr x r e' t :
  df e = Some fr -> patronage_weekly e = Some x -> not_yet_modelled e ->
  after_parameter_plots L file e = (r, e', t) ->
  df e' = Some fr /\ patronage_weekly e' = Some x /\
  modelling_audit L (slice_to (-4) x) (slice_from (-4) x) e' t /\
  sublist (figures t) [diagnostic_path; forecast_path].
Proof.
  intros Hdf Hx Hn. unfold after_parameter_plots, define_parameters.
  open_stage; unfold split_body, split_handler; open_stage. simpl.
  repeat (rewrite Hx; simpl).
  match goal with
  | |- context [after_split L file ?s] =>
      destruct (after_split L file s) as [[r2 e2] t2] eqn:Hrest;
      pose proof (fun H1 H2 H3 H4 H5 H6 H7 =>
                    after_split_audited s fr (slice_to (-4) x) (slice_from (-4) x) _ _ _ H1 H2 H3 H4 H5 H6 H7 Hrest)
        as Hnext
  end. intros [= <- <- <-].
  destruct (Hnext ltac:(done) ltac:(done) ltac:(done) ltac:(done) ltac:(done)
              ltac:(done) ltac:(done)) as (Hv & Ha & Hs).
  simpl in *. simplify_eq. split_and!; try done; congruence.
Qed.

Lemma after_stationarity_audited e fr x r e' t :
  df e = Some fr -> patronage_weekly e = Some x -> not_yet_modelled e ->
  after_stationarity L file e = (r, e', t) ->
  audited L e' t.
Proof.
  intros Hdf Hx Hn. unfold after_stationarity, if_df. rewrite Hdf. unfold bind.
  open_stage; unfold parameter_plots_body, parameter_plots_handler; open_stage. simpl.
  repeat (case_call; simpl);
  match goal with
  | |- context [after_parameter_plots L file ?s] =>
      destruct (after_parameter_plots L file s) as [[r2 e2] t2] eqn:Hrest
  end; intros [= <- <- <-];
  destruct (after_parameter_plots_audited _ fr x _ _ _ Hdf Hx Hn Hrest)
    as (Hdf2 & Hx2 & Ha & Hs);
  unfold audited; rewrite Hdf2, Hx2.
  all: split;
    [repeat (apply modelling_audit_cons; [done|no_figure|no_figure|]); done|].
  all: split;
    [simpl; unfold four_figures;
     repeat first [ assumption | apply sublist_skip | apply sublist_cons ]
    |simpl; intros Hin;
     first [ apply list_elem_of_here
           | apply (sublist_elem_of _ _ _ Hs) in Hin; inv_elem Hin; discriminate ] ].
Qed.

(** *** The stages that can stop the run *)

Lemma idle_audited e t :
  not_yet_modelled e -> not_yet_split e -> figures t = [] -> printed_mape t = [] ->
  df e = None \/ patronage_weekly e = None -> audited L e t.
Proof.
  intros Hn Hs Hf Hm Hd. unfold audited.
  destruct Hd as [Hd|Hd]; rewrite Hd; [done|]. by destruct (df e).
Qed.

Lemma audited_cons ev e t :
  figures [ev] = [] -> printed_mape [ev] = [] ->
  audited L e t -> audited L e (ev :: t).
Proof.
  intros Hf Hm. unfold audited, idle, figures_in_order.
  change (ev :: t) with ([ev] ++ t).
  rewrite figures_app, printed_mape_app, Hf, Hm. simpl.
  destruct (df e); [|done]. destruct (patronage_weekly e); [|done].
  intros [Ha Hfig]. split; [|done].
  apply modelling_audit_cons; try done; rewrite Hf; by intros ?%elem_of_nil.
Qed.

Lemma after_aggregation_audited e fr x r e' t :
  df e = Some fr -> patronage_weekly e = Some x ->
  not_yet_modelled e -> not_yet_split e ->
  after_aggregation L file e = (r, e', t) ->
  audited L e' t.
Proof.
  intros Hdf Hx Hn Hsp. unfold after_aggregation, if_df. rewrite Hdf. unfold bind.
  open_stage; unfold stationarity_body, stationarity_handler; open_stage. simpl.
  rewrite Hx. simpl.
  repeat (first [ case_call
                | match goal with
                  | |- context [stationary ?v] => destruct (stationary v) eqn:?
                  end ];
          simpl; rewrite ?Hx; simpl);
  try match goal with
  | |- context [after_stationarity L file ?s] =>
      destruct (after_stationarity L file s) as [[r2 e2] t2] eqn:Hrest;
      pose proof (fun H1 H2 H3 => after_stationarity_audited s fr x _ _ _ H1 H2 H3 Hrest)
        as Hnext
  end; intros [= <- <- <-];
  first [ repeat (apply audited_cons; [done|done|]); by apply Hnext
        | by apply idle_audited; [| | | |left] ].
Qed.

Lemma after_weeks_audited e fr r e' t :
  df e = Some fr -> not_yet_modelled e -> not_yet_split e ->
  after_weeks L file e = (r, e', t) ->
  audited L e' t.
Proof.
  intros Hdf Hn Hsp. unfold after_weeks, if_df. rewrite Hdf. unfold bind.
  open_stage; unfold aggregation_body, aggregation_handler, the_frame; open_stage.
  rewrite Hdf. simpl.
  destruct (groupby_nunique fr) as [x|exc] eqn:Hg; simpl.
  2:{ intros [= <- <- <-]. by apply idle_audited; [| | | |left]. }
  match goal with
  | |- context [after_aggregation L file ?s] =>
      destruct (after_aggregation L file s) as [[r2 e2] t2] eqn:Hrest
  end. intros [= <- <- <-].
  by apply (fun H1 H2 H3 H4 => after_aggregation_audited _ fr x _ _ _ H1 H2 H3 H4 Hrest).
Qed.

Lemma after_load_audited e fr r e' t :
  df e = Some fr -> not_yet_modelled e -> not_yet_split e ->
  after_load L file e = (r, e', t) ->
  audited L e' t.
Proof.
  intros Hdf Hn Hsp. unfold after_load, if_df. rewrite Hdf. unfold bind.
  open_stage; unfold weeks_body, weeks_handler, the_frame, getitem; open_stage.
  rewrite Hdf. simpl.
  destruct (fr !! "InvoiceDate") as [dates|] eqn:Hd; simpl.
  2:{ intros [= <- <- <-]. by apply idle_audited; [| | | |left]. }
  destruct (isocalendar_week L dates) as [weeks|exc] eqn:Hw; simpl.
  2:{ intros [= <- <- <-]. by apply idle_audited; [| | | |left]. }
  match goal with
  | |- context [after_weeks L file ?s] =>
      destruct (after_weeks L file s) as [[r2 e2] t2] eqn:Hrest
  end. intros [= <- <- <-].
  by apply (fun H1 H2 H3 => after_weeks_audited _ (<["InvoiceWeek" := weeks]> fr) _ _ _
                               H1 H2 H3 Hrest).
Qed.

Lemma run_audited : audited L (env_of (run L file)) (trace_of (run L file)).
Proof.
  unfold env_of, trace_of, run, script, bind.
  open_stage; unfold load_body, load_handler, the_frame, getitem; open_stage.
  unfold raise.
  destruct file as [frame|exc] eqn:Hfile; simpl.
  2:{ destruct (exn_cls exc); simpl; by apply idle_audited; [| | | |auto]. }
  destruct (frame !! "InvoiceDate") as [dates|] eqn:Hd; simpl.
  2:{ by apply idle_audited; [| | | |right]. }
  destruct (to_datetime L dates) as [parsed|exc] eqn:Hp; simpl.
  2:{ destruct (exn_cls exc); simpl; by apply idle_audited; [| | | |auto]. }
  match goal with
  | |- context [after_load L _ ?s] =>
      destruct (after_load L (Ok frame) s) as [[r2 e2] t2] eqn:Hrest
  end. simpl. rewrite <- Hfile in Hrest.
  by apply (fun H1 H2 H3 => after_load_audited _ (<["InvoiceDate" := parsed]> frame) _ _ _
                               H1 H2 H3 Hrest).
Qed.

(** ** What a run leaves behind *)

(** The audit of a run that still holds a table and has a weekly series. *)
Lemma run_modelled x :
  df (env_of (run L file)) <> None ->
  patronage_weekly (env_of (run L file)) = Some x ->
  modelling_audit L (slice_to (-4) x) (slice_from (-4) x)
    (env_of (run L file)) (trace_of (run L file)) /\
  figures_in_order (trace_of (run L file)).
Proof.
  intros Hdf Hx. pose proof run_audited as Ha. unfold audited in Ha.
  destruct (df (env_of (run L file))); [|done]. by rewrite Hx in Ha.
Qed.

End AuditStages.

(** * Properties of a run *)

Section Properties.

Context {Model Results Forecast : Type}.
Implicit Types (L : Library Model Results Forecast) (file : result DataFrame).

(** A run that passed every guard, or in which a model was fitted, went
    through all stages. *)
Lemma run_completed L file :
  passed_guards (run L file) \/ results (env_of (run L file)) <> None ->
  completed L (env_of (run L file)) (trace_of (run L file)).
Proof.
  intros H.
  destruct (run_cases L file) as [(exc & e' & Heq & _ & _ & _ & _ & Hr)
                                 |(e' & t & Heq & [Hs|Hc] & _)];
    rewrite Heq in *; unfold env_of, trace_of, exit_of, passed_guards in *; simpl in *.
  - destruct H as [[H _]|H]; done.
  - destruct Hs as (Hdf & Hres & _). destruct H as [[_ H]|H]; done.
  - exact Hc.
Qed.

(** The weekly series of a completed run is the one its variable holds. *)
Lemma completed_series L (e' : env Model Results Forecast) t x :
  completed L e' t -> patronage_weekly e' = Some x ->
  exists p1, adfuller L x = Ok p1 /\
    data_diff e' = Some (if stationary p1 then x else dropna (diff x)) /\
    reached L x e' t.
Proof.
  intros (x' & p1 & Hadf & Hdd & Hre) Hx.
  assert (x' = x) as -> by (destruct Hre as (_ & Hx' & _); congruence).
  by exists p1.
Qed.

(** C1. For a weekly series of at least 5 entries, the model-fitting stage
    fits one ARIMA model, of order (1,1,1), on the weekly counts without the
    last four ([patronage_weekly[:-4]]): [ARIMA] is called once, on that
    slice with that order, [model] holds what it returned, and [results]
    holds what [fit] returned on that model. *)
Theorem fit_on_all_but_last_four L file x :
  passed_guards (run L file) ->
  patronage_weekly (env_of (run L file)) = Some x ->
  (5 <= length x)%nat ->
  let train := take (length x - 4) x in
  train_data (env_of (run L file)) = Some train /\
  slice_to (-4) x = train /\
  length train = (length x - 4)%nat /\
  train ++ drop (length x - 4) x = x /\
  CallARIMA train (1, 1, 1) ∈ trace_of (run L file) /\
  (forall endog order,
     CallARIMA endog order ∈ trace_of (run L file) ->
     endog = train /\ order = (1, 1, 1)) /\
  model (env_of (run L file)) = ok_value (ARIMA L train (1, 1, 1)) /\
  results (env_of (run L file)) =
    model (env_of (run L file)) ≫= (fun m => ok_value (fit L m)) /\
  (forall m rs, ARIMA L train (1, 1, 1) = Ok m -> fit L m = Ok rs ->
     model (env_of (run L file)) = Some m /\
     results (env_of (run L file)) = Some rs).
Proof.
  intros Hg Hx Hlen train.
  destruct (completed_series L _ _ x (run_completed L file (or_introl Hg)) Hx)
    as (p1 & _ & _ & Hre).
  destruct Hre as (_ & _ & _ & _ & _ & Htr & _ & Hin & Hall & _).
  destruct (run_modelled L file x (proj2 Hg) Hx) as (((F1 & F2 & _) & _) & _).
  rewrite slice_to_neg4 in *. fold train in Htr, Hin, Hall, F1.
  split_and!; try done.
  - subst train. rewrite length_take. lia.
  - apply take_drop.
  - intros m rs Hm Hrs. rewrite F2, F1, Hm. simpl. by rewrite Hrs.
Qed.

(** C5. When a model was fitted on a series of at least 4 entries, the
    forecast stage asks for exactly 4 steps, the length of the held-out slice,
    and keeps the predicted means and the confidence intervals of that one
    forecast. *)
Theorem forecast_covers_held_out_weeks L file x r :
  patronage_weekly (env_of (run L file)) = Some x ->
  (4 <= length x)%nat ->
  results (env_of (run L file)) = Some r ->
  let held_out := drop (length x - 4) x in
  test_data (env_of (run L file)) = Some held_out /\
  length held_out = 4%nat /\
  CallGetForecast r 4 ∈ trace_of (run L file) /\
  (forall r' n, CallGetForecast r' n ∈ trace_of (run L file) -> r' = r /\ n = 4%nat) /\
  (forall f, get_forecast L r 4 = Ok f ->
     forecast_values (env_of (run L file)) = Some (predicted_mean L f) /\
     forecast_ci (env_of (run L file)) = Some (conf_int L f)).
Proof.
  intros Hx Hlen Hr held_out.
  assert (completed L (env_of (run L file)) (trace_of (run L file))) as Hc.
  { apply run_completed. right. congruence. }
  destruct (completed_series L _ _ x Hc Hx) as (p1 & _ & _ & Hre).
  destruct Hre as (_ & _ & _ & _ & _ & _ & Hte & _ & _ & (Hf1 & Hf2) & _).
  assert (length held_out = 4%nat) as Hfour.
  { subst held_out. rewrite length_drop. lia. }
  rewrite slice_from_neg4 in *. fold held_out in Hte, Hf1, Hf2.
  rewrite Hfour in *.
  split_and!; try done.
  - by apply Hf2.
  - intros r' n Hin. destruct (Hf1 r' n Hin) as (-> & Hr' & _). split; congruence.
  - intros f Hf. destruct (Hf1 r 4%nat (Hf2 r Hr)) as (_ & _ & Hv). by apply Hv.
Qed.

(** C8. Whatever the inputs and whatever the Dickey-Fuller p-values, every
    order handed to ARIMA is (1,1,1): two runs never differ in it. *)
Theorem arima_order_is_fixed L1 file1 L2 file2 endog1 order1 endog2 order2 :
  CallARIMA endog1 order1 ∈ trace_of (run L1 file1) ->
  CallARIMA endog2 order2 ∈ trace_of (run L2 file2) ->
  order1 = (1, 1, 1) /\ order2 = order1.
Proof.
  assert (forall L file endog order,
            CallARIMA endog order ∈ trace_of (run L file) -> order = (1, 1, 1)) as H.
  { intros L file endog order Hin.
    destruct (run_cases L file) as [(exc & e' & Heq & _)
                                   |(e' & t & Heq & [Hs|Hc] & _)];
      rewrite Heq in *; unfold env_of, trace_of, exit_of, passed_guards in *; simpl in *.
    - by apply elem_of_nil in Hin.
    - destruct Hs as (_ & _ & _ & Hev & _). by apply Hev in Hin.
    - destruct Hc as (x & p1 & _ & _ & Hre).
      destruct Hre as (_ & _ & _ & _ & _ & _ & _ & _ & Hall & _).
      by destruct (Hall _ _ Hin). }
  intros H1 H2. rewrite (H _ _ _ _ H1), (H _ _ _ _ H2). done.
Qed.

(** C9. When both Dickey-Fuller tests report a p-value above 0.05, the
    stationarity stage sets [d] to 2 but leaves [data_diff] at the first
    difference of the weekly counts (entry [i] is [x_(i+1) - x_i]), and that
    first difference is the series the ACF and PACF plots are drawn from. *)
Theorem plots_use_first_difference L file x p1 p2 :
  patronage_weekly (env_of (run L file)) = Some x ->
  adfuller L x = Ok p1 -> exceeds_alpha p1 = true ->
  adfuller L (dropna (diff x)) = Ok p2 -> exceeds_alpha p2 = true ->
  (forall e : env Model Results Forecast,
     patronage_weekly e = Some x ->
     exists e1,
       stationarity_body L e =
         (Ok tt, e1, [CallAdfuller x; CallAdfuller (dropna (diff x))]) /\
       d e1 = Some 2 /\ data_diff e1 = Some (dropna (diff x))) /\
  data_diff (env_of (run L file)) = Some (dropna (diff x)) /\
  CallPlotAcf (dropna (diff x)) ∈ trace_of (run L file) /\
  (forall dx,
     CallPlotAcf dx ∈ trace_of (run L file) \/ CallPlotPacf dx ∈ trace_of (run L file) ->
     dx = dropna (diff x)) /\
  (forall i a b, x !! i = Some a -> x !! S i = Some b ->
     dropna (diff x) !! i = Some (b - a)).
Proof.
  intros Hx Hadf1 Hp1%exceeds_not_stationary Hadf2 Hp2%exceeds_not_stationary.
  split.
  { intros e He. unfold stationarity_body, bind, name, emit, call, assign, ret.
    rewrite He. simpl. rewrite Hadf1. simpl. rewrite Hp1. simpl. rewrite He. simpl.
    rewrite Hadf2. simpl. rewrite Hp2. simpl. eexists. split; [reflexivity|]. done. }
  assert (completed L (env_of (run L file)) (trace_of (run L file))) as Hc.
  { destruct (run_cases L file) as [(exc & e' & Heq & _ & _ & _ & Hn & _)
                                   |(e' & t & Heq & [Hs|Hc] & _)];
      rewrite Heq in *; unfold env_of, trace_of, exit_of, passed_guards in *; simpl in *; [congruence| |done].
    destruct Hs as (_ & _ & _ & _ & Hf).
    destruct (Hf x Hx) as [(exc & He)|(p1' & exc & _ & _ & He)]; congruence. }
  destruct (completed_series L _ _ x Hc Hx) as (p1' & Hadf1' & Hdd & Hre).
  assert (p1' = p1) as -> by congruence. rewrite Hp1 in Hdd.
  destruct Hre as (_ & _ & _ & _ & _ & _ & _ & _ & _ & _ & Hpl1 & Hpl2).
  split_and!; try done.
  - by apply Hpl2.
  - intros dx Hin. apply Hpl1 in Hin. congruence.
  - apply first_difference_lookup.
Qed.

(** C10, amended.  A weekly series of fewer than 4 entries gets to the split
    only if the Dickey-Fuller test returns on it.
    - When the run ends with [df] reset, the test raised: the run has only
      tested and printed, no split was made ([train_data] and [test_data] are
      unbound), [ARIMA] was not called and no model is bound.
    - When the run ends with a table in [df], the test returned and every
      guard was passed: the split left the training slice empty and held out
      the whole series, [ARIMA] was called once, on the empty series with
      order (1,1,1), [model] and [results] hold what [ARIMA] and [fit]
      returned, and the forecast was asked for as many steps as the series
      has entries.
    - With a Dickey-Fuller test that raises on fewer than 4 observations, as
      the one of statsmodels does, the first case is the only one. *)
Theorem short_series_is_all_held_out L file x :
  patronage_weekly (env_of (run L file)) = Some x ->
  (length x < 4)%nat ->
  let e' := env_of (run L file) in
  let t := trace_of (run L file) in
  (df e' = None ->
     adf_failed L x /\ exit_of (run L file) = Ok tt /\
     train_data e' = None /\ test_data e' = None /\ model e' = None /\
     (exists line, Print line ∈ t) /\
     (forall ev, ev ∈ t ->
        match ev with Print _ | CallAdfuller _ => True | _ => False end)) /\
  (df e' <> None ->
     (exists p1, adfuller L x = Ok p1) /\ exit_of (run L file) = Ok tt /\
     train_data e' = Some [] /\ test_data e' = Some x /\
     CallARIMA [] (1, 1, 1) ∈ t /\
     (forall endog order, CallARIMA endog order ∈ t ->
        endog = [] /\ order = (1, 1, 1)) /\
     model e' = ok_value (ARIMA L [] (1, 1, 1)) /\
     results e' = model e' ≫= (fun m => ok_value (fit L m)) /\
     forecast e' =
       results e' ≫= (fun r => ok_value (get_forecast L r (length x))) /\
     (forall r n, CallGetForecast r n ∈ t -> n = length x)) /\
  ((forall s, (length s < 4)%nat -> exists exc, adfuller L s = Raise exc) ->
   df e' = None).
Proof.
  intros Hx Hlen e' t. subst e' t.
  assert (slice_to (-4) x = []) as Hempty.
  { rewrite slice_to_neg4. replace (length x - 4)%nat with 0%nat by lia. done. }
  assert (slice_from (-4) x = x) as Hwhole.
  { rewrite slice_from_neg4. replace (length x - 4)%nat with 0%nat by lia. done. }
  assert (df (env_of (run L file)) <> None ->
          (exists p1, adfuller L x = Ok p1) /\ exit_of (run L file) = Ok tt /\
          reached L x (env_of (run L file)) (trace_of (run L file))) as Hpassed.
  { intros Hdf.
    destruct (run_cases L file) as [(exc & e' & Heq & _ & _ & _ & Hn & _)
                                   |(e' & t & Heq & [Hs|Hc] & _)];
      rewrite Heq in *; unfold env_of, trace_of, exit_of in *; simpl in *.
    - congruence.
    - by destruct Hs as (Hnone & _).
    - destruct (completed_series L _ _ x Hc Hx) as (p1 & Hadf & _ & Hre).
      split_and!; [by exists p1|done|done]. }
  split_and!.
  - intros Hdf.
    pose proof (run_audited L file) as Ha. unfold audited in Ha. rewrite Hdf in Ha.
    destruct Ha as ((Hm & _) & (Htr & Hte) & _).
    destruct (run_cases L file) as [(exc & e' & Heq & _ & _ & _ & Hn & _)
                                   |(e' & t & Heq & [Hs|Hc] & _)];
      rewrite Heq in *; unfold env_of, trace_of, exit_of in *; simpl in *.
    + congruence.
    + destruct Hs as (_ & _ & Hline & Hev & Hf). split_and!; try done. by apply Hf.
    + destruct Hc as (x' & p1 & _ & _ & Hre). by destruct Hre as (Hsome & _).
  - intros Hdf. destruct (Hpassed Hdf) as (Hadf & Hexit & Hre).
    destruct Hre as (_ & _ & _ & _ & _ & Htr & Hte & Hin & Hall & (Hf1 & Hf2) & _).
    destruct (run_modelled L file x Hdf Hx)
      as (((F1 & F2 & _) & _ & (C1 & _) & _) & _).
    rewrite Hempty, Hwhole in *.
    split_and!; try done.
    intros r n Hin'. by destruct (Hf1 _ _ Hin').
  - intros Hshort.
    destruct (df (env_of (run L file))) as [fr|] eqn:Hdf; [|done].
    destruct Hpassed as ((p1 & Hadf) & _); [done|].
    destruct (Hshort x Hlen) as (exc & Hraise). congruence.
Qed.

Lemma aggregated_functional L file x x' :
  aggregated L file x -> aggregated L file x' -> x = x'.
Proof.
  intros (fr & dates & parsed & weeks & H1 & H2 & H3 & H4 & H5)
         (fr' & dates' & parsed' & weeks' & H1' & H2' & H3' & H4' & H5').
  congruence.
Qed.

(** C6. A run in which nothing is raised draws and writes exactly the four
    figures, in this order: the ACF and the PACF plot of the series the
    stationarity stage kept, the diagnostic plot of the fitted model, and the
    plot of the weekly counts, the training slice, the predicted means and
    their confidence band; and it prints exactly one MAPE.  With a
    Dickey-Fuller test that raises on fewer than 4 observations and forecasts
    that hold one predicted mean per step, as those of statsmodels do, the
    MAPE is the score of the 4 forecast values against the 4 held-out weekly
    counts, the forecast being the 4-step forecast of the model fitted on the
    counts before them. *)
Theorem successful_run_outputs L file :
  (forall s, (length s < 4)%nat -> exists exc, adfuller L s = Raise exc) ->
  (forall rs n f, get_forecast L rs n = Ok f -> length (predicted_mean L f) = n) ->
  successful (run L file) ->
  exists x p1 m rs f v,
    let dx := if stationary p1 then x else dropna (diff x) in
    let train := slice_to (-4) x in
    let held_out := drop (length x - 4) x in
    let predicted := predicted_mean L f in
    aggregated L file x /\
    patronage_weekly (env_of (run L file)) = Some x /\
    adfuller L x = Ok p1 /\
    parameters_drawn L dx /\
    ARIMA L train (1, 1, 1) = Ok m /\ fit L m = Ok rs /\
    diagnostics_drawn L rs /\
    get_forecast L rs 4 = Ok f /\
    forecast_drawn L x train predicted (conf_int L f) /\
    slice_from (-4) x = held_out /\
    length held_out = 4%nat /\ length predicted = 4%nat /\
    mean_absolute_percentage_error L held_out predicted = Ok v /\
    trace_of (run L file) =
      test_events x p1 ++ plot_events dx ++
      modelling_events train held_out m rs predicted v /\
    figures (trace_of (run L file)) = four_figures /\
    NoDup four_figures /\
    printed_mape (trace_of (run L file)) = [v].
Proof.
  intros Hshort Hsteps Hs.
  destruct (run_clean L file Hs)
    as (x & Hagg & p1 & t2 & Hadf & Hadf2 & Hplots &
        (m & rs & f & v & Hm & Hrs & Hdiag & Hf & Hdrawn & Hv & ->) & Ht).
  assert (4 <= length x)%nat as Hlen.
  { destruct (le_lt_dec 4 (length x)) as [|Hlt]; [done|].
    destruct (Hshort x Hlt) as (exc & Hraise). congruence. }
  assert (slice_from (-4) x = drop (length x - 4) x) as Hdrop
    by apply slice_from_neg4.
  rewrite Hdrop in *.
  assert (length (drop (length x - 4) x) = 4%nat) as Hfour.
  { rewrite length_drop. lia. }
  rewrite Hfour in Hf. pose proof (Hsteps _ _ _ Hf) as Hfv.
  exists x, p1, m, rs, f, v. simpl. split_and!; try done.
  - by apply run_aggregates.
  - rewrite Ht. unfold test_events. by destruct (stationary p1).
  - refine (bool_decide_unpack _ _). by vm_compute.
  - rewrite Ht. unfold test_events. by destruct (stationary p1).
Qed.

(** C2, amended.  When the body of a stage raises:
    - at the load stage, a FileNotFoundError, EmptyDataError or ParserError is
      caught, its message is logged, [df] is set to [None] and nothing else
      happens until the script ends; any other exception leaves the script
      uncaught, with nothing logged;
    - at the week-extraction, aggregation and stationarity stages the exception
      is caught, the message is logged, [df] is set to [None] and nothing else
      happens until the script ends;
    - at the three plots and at the MAPE the exception is caught, the message
      is logged, and the script goes on with what follows the [try]
      statement, from the variables as they were when the exception was
      raised;
    - at the split, the fit and the forecast the exception is caught and the
      message is logged.
    No stage is run again. *)
Theorem exception_policy L file st (e e1 : env Model Results Forecast) exc t1 :
  body L file st e = (Raise exc, e1, t1) ->
  if resets_df st then
    if (match st with Load => caught_at_load (exn_cls exc) | _ => true end) then
      from_stage L file st e = (Ok tt, set_df None e1, t1 ++ [Print (logged st exc)])
    else
      from_stage L file st e = (Raise exc, e1, t1)
  else if goes_on st then
    from_stage L file st e =
      match after L file st e1 with
      | (r, e2, t2) => (r, e2, (t1 ++ [Print (logged st exc)]) ++ t2)
      end
  else
    exists e2, run_stage L file st e = (Ok tt, e2, t1 ++ [Print (logged st exc)]).
Proof.
  intros Hbody.
  destruct st; simpl; unfold from_stage, bind, run_stage, try_except; rewrite Hbody;
    simpl; unfold log, emit, assign, bind; simpl; rewrite ?app_nil_r;
    try reflexivity; try (by eexists).
  unfold load_handler. destruct (exn_cls exc); simpl;
    unfold emit, assign, bind, raise; simpl; rewrite ?app_nil_r; reflexivity.
Qed.

(** C3. For a table that loads (the file is read and [InvoiceDate] parses as
    dates), whose rows get their ISO week numbers and which has a
    [CustomerID] column, the aggregation stage binds [patronage_weekly] to the
    weekly counts: one entry per week number that occurs, in ascending order
    of the week number, each the number of distinct customers of that week;
    and no other series fits that description. *)
Theorem weekly_counts_per_week L file frame dates parsed weeks ks customers :
  file = Ok frame ->
  frame !! "InvoiceDate" = Some dates ->
  to_datetime L dates = Ok parsed ->
  isocalendar_week L parsed = Ok weeks ->
  week_keys weeks = Some ks ->
  frame !! "CustomerID" = Some customers ->
  exists x,
    patronage_weekly (env_of (run L file)) = Some x /\
    groupby_nunique (<["InvoiceWeek" := weeks]> (<["InvoiceDate" := parsed]> frame)) = Ok x /\
    weekly_distinct_counts (zip ks customers) x /\
    forall y, weekly_distinct_counts (zip ks customers) y -> y = x.
Proof.
  intros Hfile Hd Hp Hw Hk Hc.
  set (x := map (fun g => Z.of_nat (length (snd g))) (groups (zip ks customers))).
  assert (groupby_nunique (<["InvoiceWeek" := weeks]> (<["InvoiceDate" := parsed]> frame))
          = Ok x) as Hg.
  { unfold groupby_nunique. rewrite lookup_insert_eq.
    rewrite !lookup_insert_ne by done. by rewrite Hc, Hk. }
  exists x. split_and!; [|done|apply groups_weekly_distinct_counts|].
  - apply run_aggregates. by exists frame, dates, parsed, weeks.
  - intros y Hy. eapply weekly_distinct_counts_unique; [exact Hy|].
    apply groups_weekly_distinct_counts.
Qed.

(** C7. Two tables with the same [InvoiceDate] and [CustomerID] columns make
    the script exit the same way, produce the same events (the same library
    calls with the same arguments, figures and printed lines) and bind the
    weekly series and every later variable to the same values, whatever their
    other columns hold. *)
Theorem other_columns_are_ignored L frame1 frame2 :
  frame1 !! "InvoiceDate" = frame2 !! "InvoiceDate" ->
  frame1 !! "CustomerID" = frame2 !! "CustomerID" ->
  exit_of (run L (Ok frame1)) = exit_of (run L (Ok frame2)) /\
  trace_of (run L (Ok frame1)) = trace_of (run L (Ok frame2)) /\
  patronage_weekly (env_of (run L (Ok frame1))) =
    patronage_weekly (env_of (run L (Ok frame2))) /\
  forecast_values (env_of (run L (Ok frame1))) =
    forecast_values (env_of (run L (Ok frame2))) /\
  forecast_ci (env_of (run L (Ok frame1))) = forecast_ci (env_of (run L (Ok frame2))) /\
  mape (env_of (run L (Ok frame1))) = mape (env_of (run L (Ok frame2))) /\
  numeric_state (env_of (run L (Ok frame1))) = numeric_state (env_of (run L (Ok frame2))).
Proof.
  intros Hd Hc. destruct (run_alike L frame1 frame2 Hd Hc) as (He & Ht & Hn & _).
  split_and!; try done; unfold numeric_state in Hn; congruence.
Qed.

End Properties.

(** * Further properties of the script *)

(** ** The aggregation: bounds and what it does not depend on *)

(** Rows that differ only in their order or in repetitions give the same
    weekly counts. *)
Lemma weekly_distinct_counts_same_rows rows rows' x :
  (forall r, r ∈ rows <-> r ∈ rows') ->
  weekly_distinct_counts rows x -> weekly_distinct_counts rows' x.
Proof.
  intros Hsame (ws & Hs & Hk & Hl & Hx). exists ws. split_and!; try done.
  - intros w. rewrite Hk. split; intros (c & Hc); exists c; by apply Hsame.
  - intros i w Hi. destruct (Hx i w Hi) as (ids & H1 & H2 & H3).
    exists ids. split_and!; try done. intros c. rewrite H3.
    split; intros [Hna Hin]; (split; [done|]); by apply Hsame.
Qed.

Lemma groups_same_rows rows rows' :
  (forall r, r ∈ rows <-> r ∈ rows') ->
  map (fun g => Z.of_nat (length (snd g))) (groups rows) =
  map (fun g => Z.of_nat (length (snd g))) (groups rows').
Proof.
  intros Hsame. apply (weekly_distinct_counts_unique rows').
  - eapply weekly_distinct_counts_same_rows; [exact Hsame|].
    apply groups_weekly_distinct_counts.
  - apply groups_weekly_distinct_counts.
Qed.

Lemma add_unique_length c vs :
  (length (add_unique c vs) <= S (length vs))%nat /\
  (c = NA -> length (add_unique c vs) = length vs).
Proof.
  unfold add_unique. destruct c; (split; [|intros Hc; (reflexivity || discriminate)]);
    try lia; case_decide; rewrite ?length_app; simpl; lia.
Qed.

Lemma add_to_group_total w c gs :
  (customers_counted (add_to_group w c gs) <= S (customers_counted gs))%nat /\
  (c = NA -> customers_counted (add_to_group w c gs) = customers_counted gs).
Proof.
  unfold customers_counted.
  induction gs as [|[k vs] gs IH]; simpl.
  - destruct (add_unique_length c []) as [H1 H2]. simpl in *. split; [lia|].
    intros Hc. rewrite (H2 Hc). done.
  - destruct (add_unique_length c []) as [H1 H2].
    destruct (add_unique_length c vs) as [H3 H4]. simpl in *.
    destruct (w <? k); simpl; [split; [lia|intros Hc; rewrite (H2 Hc); lia]|].
    destruct (w =? k); simpl; [split; [lia|intros Hc; rewrite (H4 Hc); lia]|].
    destruct IH as [IH1 IH2]. split; [lia|]. intros Hc. rewrite (IH2 Hc). done.
Qed.

Lemma fold_add_row_total rows gs :
  (customers_counted (fold_left add_row rows gs)
   <= customers_counted gs + length (filter counted_row rows))%nat.
Proof.
  revert gs. induction rows as [|[[w|] c] rows IH]; intros gs; simpl; [lia| |].
  - specialize (IH (add_row gs (Some w, c))). unfold add_row in *. simpl in *.
    destruct (add_to_group_total w c gs) as [H1 H2].
    rewrite filter_cons. destruct (decide (counted_row (Some w, c))) as [Hc|Hc].
    + simpl. lia.
    + assert (c = NA) as Hna.
      { destruct c; [done| |]; exfalso; apply Hc; done. }
      rewrite (H2 Hna) in IH. lia.
  - specialize (IH gs). rewrite filter_cons.
    destruct (decide (counted_row (None, c))) as [Hc|Hc]; [destruct Hc as [[? Hs] _]; discriminate|].
    change (add_row gs (None, c)) with gs. lia.
Qed.

Lemma customers_counted_sum gs :
  foldr Z.add 0 (map (fun g => Z.of_nat (length (snd g))) gs)
  = Z.of_nat (customers_counted gs).
Proof.
  unfold customers_counted. induction gs as [|[k vs] gs IH]; simpl; [done|].
  rewrite IH. lia.
Qed.

Lemma groups_bounded_by_rows rows :
  let x := map (fun g => Z.of_nat (length (snd g))) (groups rows) in
  foldr Z.add 0 x <= Z.of_nat (length (filter counted_row rows)) /\
  Forall (fun n => 0 <= n <= Z.of_nat (length (filter counted_row rows))) x.
Proof.
  intros x.
  assert (foldr Z.add 0 x <= Z.of_nat (length (filter counted_row rows))) as Hsum.
  { subst x. rewrite customers_counted_sum. unfold groups.
    pose proof (fold_add_row_total rows []) as H. unfold customers_counted in H at 2.
    simpl in H. lia. }
  split; [done|].
  assert (Forall (fun n => 0 <= n) x) as Hpos.
  { subst x. apply Forall_forall. intros n (g & -> & _)%list_elem_of_fmap. lia. }
  clear -Hsum Hpos. revert Hsum.
  generalize (Z.of_nat (length (filter counted_row rows))). intros b.
  induction Hpos as [|n x Hn Hpos IH]; intros Hsum; [constructor|].
  simpl in Hsum.
  assert (0 <= foldr Z.add 0 x) as Hx.
  { clear -Hpos. induction Hpos; simpl; lia. }
  constructor; [lia|].
  eapply Forall_impl; [apply IH; lia|]. simpl. lia.
Qed.

Lemma counted_rows_le_customers (ks : list (option Z)) (customers : list cell) :
  (length (filter counted_row (zip ks customers))
   <= length (filter (fun c => c <> NA) customers))%nat.
Proof.
  revert customers. induction ks as [|k ks IH]; intros [|c customers]; simpl; try lia.
  rewrite !filter_cons. specialize (IH customers).
  destruct (decide (counted_row (k, c))) as [[_ Hc]|Hc]; simpl in *.
  - destruct (decide (c <> NA)); [simpl; lia|done].
  - destruct (decide (c <> NA)); simpl; lia.
Qed.

Lemma week_keys_elem weeks ks k :
  week_keys weeks = Some ks -> Some k ∈ ks -> Int k ∈ weeks.
Proof.
  revert ks. induction weeks as [|c weeks IH]; intros ks; simpl.
  - intros [= <-] Hin. by apply elem_of_nil in Hin.
  - destruct c as [|w|s]; [| |discriminate];
      destruct (week_keys weeks) as [ks'|]; simpl; try discriminate;
      intros [= <-] [Heq|Hin]%elem_of_cons; try discriminate.
    + right. by eapply IH.
    + injection Heq as ->. by left.
    + right. by eapply IH.
Qed.

Lemma strictly_sorted_in_range (l : list Z) lo hi :
  StronglySorted Z.lt l -> Forall (fun k => lo <= k <= hi) l ->
  Z.of_nat (length l) <= Z.max 0 (hi - lo + 1).
Proof.
  intros Hs. revert lo. induction Hs as [|a l Hs IH Hall]; intros lo Hin; simpl; [lia|].
  apply Forall_cons in Hin as [Ha Hin].
  assert (Forall (fun k => a + 1 <= k <= hi) l) as Hin'.
  { apply Forall_forall. intros k Hk.
    eapply Forall_forall in Hall; [|exact Hk]. eapply Forall_forall in Hin; [|exact Hk]. lia. }
  specialize (IH (a + 1) Hin'). lia.
Qed.

(** X4. The weekly counts depend on the set of (week, customer) pairs only:
    two tables whose rows differ in order or in repetitions get the same
    counts. *)
Theorem weekly_counts_ignore_order_and_repeats
    (f1 f2 : DataFrame) weeks1 weeks2 ks1 ks2 customers1 customers2 :
  f1 !! "InvoiceWeek" = Some weeks1 -> f1 !! "CustomerID" = Some customers1 ->
  week_keys weeks1 = Some ks1 ->
  f2 !! "InvoiceWeek" = Some weeks2 -> f2 !! "CustomerID" = Some customers2 ->
  week_keys weeks2 = Some ks2 ->
  (forall row, row ∈ zip ks1 customers1 <-> row ∈ zip ks2 customers2) ->
  groupby_nunique f1 = groupby_nunique f2.
Proof.
  intros H1 H2 H3 H4 H5 H6 Hsame. unfold groupby_nunique.
  rewrite H1, H2, H3, H4, H5, H6. f_equal. by apply groups_same_rows.
Qed.

(** X5. The weekly counts add up to no more than the number of cells of the
    [CustomerID] column that hold a customer, and every count lies between 0
    and that number. *)
Theorem weekly_counts_bounded_by_rows (f : DataFrame) x :
  groupby_nunique f = Ok x ->
  exists customers,
    f !! "CustomerID" = Some customers /\
    foldr Z.add 0 x <= Z.of_nat (length (filter (fun c => c <> NA) customers)) /\
    Forall (fun n => 0 <= n <= Z.of_nat (length (filter (fun c => c <> NA) customers))) x.
Proof.
  unfold groupby_nunique.
  destruct (f !! "InvoiceWeek") as [weeks|]; [|discriminate].
  destruct (f !! "CustomerID") as [customers|]; [|discriminate].
  destruct (week_keys weeks) as [ks|]; [|discriminate].
  intros [= <-]. exists customers. split; [done|].
  destruct (groups_bounded_by_rows (zip ks customers)) as [Hsum Hall].
  pose proof (counted_rows_le_customers ks customers) as Hle.
  split; [lia|]. eapply Forall_impl; [exact Hall|]. simpl. lia.
Qed.

(** X6. When every week number lies between 1 and 53, as ISO week numbers
    do, the weekly series has at most 53 entries, however many rows and
    however many years the table covers. *)
Theorem weekly_series_has_at_most_53_entries (f : DataFrame) weeks x :
  f !! "InvoiceWeek" = Some weeks ->
  Forall (fun c => match c with Int w => 1 <= w <= 53 | _ => True end) weeks ->
  groupby_nunique f = Ok x ->
  (length x <= 53)%nat.
Proof.
  intros Hw Hrange. unfold groupby_nunique. rewrite Hw.
  destruct (f !! "CustomerID") as [customers|]; [|discriminate].
  destruct (week_keys weeks) as [ks|] eqn:Hks; [|discriminate].
  intros [= <-]. rewrite length_map.
  destruct (groups_groups_inv (zip ks customers)) as (Hs & Hk & _).
  pose proof (strictly_sorted_in_range (groups (zip ks customers)).*1 1 53 Hs) as Hlen.
  rewrite length_fmap in Hlen. assert (Z.max 0 (53 - 1 + 1) = 53) as Hmax by lia.
  rewrite Hmax in Hlen. apply Nat2Z.inj_le. apply Hlen.
  apply Forall_forall. intros k (c & Hin)%Hk.
  apply elem_of_zip_l in Hin. apply (week_keys_elem _ _ _ Hks) in Hin.
  eapply Forall_forall in Hrange; [|exact Hin]. done.
Qed.

(** ** The load stage and the missing columns *)

Section Further.

Context {Model Results Forecast : Type}.
Implicit Types (L : Library Model Results Forecast) (file : result DataFrame).

#[local] Arguments after_load : simpl never.
#[local] Arguments after_weeks : simpl never.
#[local] Arguments after_aggregation : simpl never.

(** X1. The script ends by an uncaught exception exactly when the load stage
    raises one that is not a FileNotFoundError, EmptyDataError or ParserError;
    it has then printed nothing and bound no weekly series. *)
Theorem uncaught_exit_is_from_load L file exc :
  (exit_of (run L file) = Raise exc <-> escapes_load L file exc) /\
  (exit_of (run L file) = Raise exc ->
   trace_of (run L file) = [] /\ patronage_weekly (env_of (run L file)) = None).
Proof.
  assert (exit_of (run L file) = Raise exc ->
          escapes_load L file exc /\ trace_of (run L file) = [] /\
          patronage_weekly (env_of (run L file)) = None) as Hto.
  { unfold escapes_load, exit_of, trace_of, env_of, run, script, bind.
    open_stage; unfold load_body, load_handler, the_frame, getitem; open_stage.
    unfold raise.
    destruct file as [frame|exc0] eqn:Hfile; simpl.
    2:{ destruct (exn_cls exc0) eqn:Hc; simpl; intros [= <-]; rewrite Hc; auto. }
    destruct (frame !! "InvoiceDate") as [dates|] eqn:Hd; simpl.
    2:{ intros [= <-]. split_and!; try done. right. exists frame. split; [done|].
        left. done. }
    destruct (to_datetime L dates) as [parsed|exc0] eqn:Hp; simpl.
    2:{ destruct (exn_cls exc0) eqn:Hc; simpl; intros [= <-]; rewrite Hc;
          (split_and!; try done); right; exists frame; (split; [done|]);
          right; by exists dates. }
    match goal with
    | |- context [after_load L _ ?s] =>
        destruct (after_load_spec L (Ok frame) s (<["InvoiceDate" := parsed]> frame))
          as (e' & t & Heq & _); try done
    end.
    rewrite Heq. simpl. discriminate. }
  split; [split|].
  - intros H. by destruct (Hto H).
  - clear Hto.
    intros [Hc [Hfile|(frame & Hfile & [[Hd ->]|(dates & Hd & Hp)])]];
      unfold exit_of, run, script, bind;
      open_stage; unfold load_body, load_handler, the_frame, getitem; open_stage;
      unfold raise; rewrite Hfile; simpl.
    + destruct (exn_cls exc); simpl; done.
    + by rewrite Hd.
    + rewrite Hd. simpl. rewrite Hp. simpl. destruct (exn_cls exc); simpl; done.
  - intros H. destruct (Hto H) as (_ & H1 & H2). done.
Qed.

(** X2. A table without an [InvoiceDate] column makes the script end by an
    uncaught [KeyError] right after [read_csv]: [df] holds the table, nothing
    is printed and no later stage runs. *)
Theorem missing_invoice_date_is_uncaught L file frame :
  file = Ok frame -> frame !! "InvoiceDate" = None ->
  run L file =
    (Raise (mk_exn KeyError "'InvoiceDate'"), set_df (Some frame) unbound, []).
Proof.
  intros Hfile Hd. unfold run, script, bind.
  open_stage; unfold load_body, load_handler, the_frame, getitem; open_stage.
  unfold raise. rewrite Hfile. simpl. rewrite Hd. reflexivity.
Qed.

(** X3. A table that loads and gets its week numbers but has no [CustomerID]
    column makes the aggregation stage log its message; the script then ends
    normally with [df] reset, no weekly series, and without calling the
    Dickey-Fuller test, a plot, ARIMA or the MAPE. *)
Theorem missing_customer_id_stops_the_run L file frame dates parsed weeks :
  file = Ok frame -> frame !! "InvoiceDate" = Some dates ->
  to_datetime L dates = Ok parsed -> isocalendar_week L parsed = Ok weeks ->
  frame !! "CustomerID" = None ->
  exit_of (run L file) = Ok tt /\
  trace_of (run L file) =
    [Print "Error while grouping patronage by week: 'Column not found: CustomerID'"] /\
  df (env_of (run L file)) = None /\
  patronage_weekly (env_of (run L file)) = None.
Proof.
  intros Hfile Hd Hp Hw Hc.
  unfold exit_of, trace_of, env_of, run, script, after_load, after_weeks, if_df, bind.
  open_stage; unfold load_body, load_handler, weeks_body, weeks_handler,
    aggregation_body, aggregation_handler, the_frame, getitem; open_stage.
  rewrite Hfile. simpl. rewrite Hd. simpl. rewrite Hp. simpl.
  rewrite lookup_insert_eq. simpl. rewrite Hw. simpl.
  unfold groupby_nunique. rewrite lookup_insert_eq.
  rewrite !lookup_insert_ne by done. rewrite Hc. simpl. done.
Qed.

(** ** The split and the stationarity stage in a whole run *)

(** X7. Whatever the length of the weekly series, the split leaves nothing
    out and takes nothing twice: [train_data] followed by [test_data] is the
    series, [test_data] has 4 entries or the whole series if that is
    shorter. *)
Theorem split_is_a_partition L file x :
  passed_guards (run L file) ->
  patronage_weekly (env_of (run L file)) = Some x ->
  exists train test,
    train_data (env_of (run L file)) = Some train /\
    test_data (env_of (run L file)) = Some test /\
    train ++ test = x /\
    length test = Nat.min 4 (length x) /\
    length train = (length x - 4)%nat.
Proof.
  intros Hg Hx.
  destruct (completed_series L _ _ x (run_completed L file (or_introl Hg)) Hx)
    as (p1 & _ & _ & Hre).
  destruct Hre as (_ & _ & _ & _ & _ & Htr & Hte & _).
  exists (slice_to (-4) x), (slice_from (-4) x). split_and!; try done.
  - unfold slice_to, slice_from. apply take_drop.
  - apply held_out_length.
  - rewrite slice_to_neg4, length_take. lia.
Qed.

(** X8. When the first Dickey-Fuller test reports a p-value of at most 0.05,
    the stationarity stage makes no second test, sets [d] to 0 and keeps the
    series undifferenced for the parameter plots; the run then draws the ACF
    and PACF plots from the weekly counts themselves, and still ends with
    [d = 1] and an ARIMA call of order (1,1,1). *)
Theorem stationary_series_is_plotted_as_it_is L file x p1 :
  patronage_weekly (env_of (run L file)) = Some x ->
  adfuller L x = Ok p1 -> stationary p1 = true ->
  (forall e : env Model Results Forecast,
     patronage_weekly e = Some x ->
     exists e1,
       stationarity_body L e = (Ok tt, e1, [CallAdfuller x]) /\
       d e1 = Some 0 /\ data_diff e1 = Some x) /\
  data_diff (env_of (run L file)) = Some x /\
  CallPlotAcf x ∈ trace_of (run L file) /\
  (forall dx,
     CallPlotAcf dx ∈ trace_of (run L file) \/ CallPlotPacf dx ∈ trace_of (run L file) ->
     dx = x) /\
  d (env_of (run L file)) = Some 1 /\
  CallARIMA (slice_to (-4) x) (1, 1, 1) ∈ trace_of (run L file).
Proof.
  intros Hx Hadf Hst. split.
  { intros e He. unfold stationarity_body, bind, name, emit, call, assign, ret.
    rewrite He. simpl. rewrite Hadf. simpl. rewrite Hst. simpl. rewrite He. simpl.
    eexists. split; [reflexivity|]. done. }
  assert (completed L (env_of (run L file)) (trace_of (run L file))) as Hc.
  { destruct (run_cases L file) as [(exc & e' & Heq & _ & _ & _ & Hn & _)
                                   |(e' & t & Heq & [Hs|Hc] & _)];
      rewrite Heq in *; unfold env_of, trace_of, exit_of in *; simpl in *;
      [congruence| |done].
    destruct Hs as (_ & _ & _ & _ & Hf).
    destruct (Hf x Hx) as [(exc & He)|(p1' & exc & He & Hns & _)]; congruence. }
  destruct (completed_series L _ _ x Hc Hx) as (p1' & Hadf' & Hdd & Hre).
  assert (p1' = p1) as -> by congruence. rewrite Hst in Hdd.
  destruct Hre as (_ & _ & _ & Hd & _ & _ & _ & Hin & _ & _ & Hpl1 & Hpl2).
  split_and!; try done.
  - by apply Hpl2.
  - intros dx Hdx. apply Hpl1 in Hdx. congruence.
Qed.

(** X14. When the first Dickey-Fuller test reports a p-value above 0.05 and
    the test of the differenced series one of at most 0.05, the stationarity
    stage makes these two tests, sets [d] to 1 and keeps the first difference
    of the weekly counts; the run is not stopped and draws the ACF and PACF
    plots from that first difference only. *)
Theorem differenced_series_is_plotted L file x p1 p2 :
  patronage_weekly (env_of (run L file)) = Some x ->
  adfuller L x = Ok p1 -> stationary p1 = false ->
  adfuller L (dropna (diff x)) = Ok p2 -> stationary p2 = true ->
  (forall e : env Model Results Forecast,
     patronage_weekly e = Some x ->
     exists e1,
       stationarity_body L e =
         (Ok tt, e1, [CallAdfuller x; CallAdfuller (dropna (diff x))]) /\
       d e1 = Some 1 /\ data_diff e1 = Some (dropna (diff x))) /\
  df (env_of (run L file)) <> None /\
  data_diff (env_of (run L file)) = Some (dropna (diff x)) /\
  CallPlotAcf (dropna (diff x)) ∈ trace_of (run L file) /\
  (forall dx,
     CallPlotAcf dx ∈ trace_of (run L file) \/ CallPlotPacf dx ∈ trace_of (run L file) ->
     dx = dropna (diff x)).
Proof.
  intros Hx Hadf Hst Hadf2 Hst2. split.
  { intros e He. unfold stationarity_body, bind, name, emit, call, assign, ret.
    rewrite He. simpl. rewrite Hadf. simpl. rewrite Hst. simpl. rewrite He. simpl.
    rewrite Hadf2. simpl. rewrite Hst2. simpl.
    eexists. split; [reflexivity|]. done. }
  assert (completed L (env_of (run L file)) (trace_of (run L file))) as Hc.
  { destruct (run_cases L file) as [(exc & e' & Heq & _ & _ & _ & Hn & _)
                                   |(e' & t & Heq & [Hs|Hc] & _)];
      rewrite Heq in *; unfold env_of, trace_of, exit_of in *; simpl in *;
      [congruence| |done].
    destruct Hs as (_ & _ & _ & _ & Hf).
    destruct (Hf x Hx) as [(exc & He)|(p1' & exc & He & Hns & He2)]; congruence. }
  destruct (completed_series L _ _ x Hc Hx) as (p1' & Hadf' & Hdd & Hre).
  assert (p1' = p1) as -> by congruence. rewrite Hst in Hdd.
  destruct Hre as (Hdf & _ & _ & _ & _ & _ & _ & _ & _ & _ & Hpl1 & Hpl2).
  split_and!; try done.
  - by apply Hpl2.
  - intros dx Hdx. apply Hpl1 in Hdx. congruence.
Qed.

End Further.

(** * What the modelling stages leave behind in a run *)

Section Modelling.

Context {Model Results Forecast : Type}.
Variable L : Library Model Results Forecast.
Variable file : result DataFrame.

(** X9. In a run that is not stopped, the variables of the modelling stages
    are determined by what the numeric library calls return on the two
    slices of the weekly series, whatever the plotting calls do: each is
    bound exactly when the call that computes it returned, to the value
    returned, and the MAPE printed is the one [mape] holds. *)
Theorem modelling_variables_are_determined x :
  df (env_of (run L file)) <> None ->
  patronage_weekly (env_of (run L file)) = Some x ->
  let e' := env_of (run L file) in
  let held_out := slice_from (-4) x in
  model e' = ok_value (ARIMA L (slice_to (-4) x) (1, 1, 1)) /\
  results e' = model e' ≫= (fun m => ok_value (fit L m)) /\
  forecast e' =
    results e' ≫= (fun r => ok_value (get_forecast L r (length held_out))) /\
  forecast_values e' = predicted_mean L <$> forecast e' /\
  forecast_ci e' = conf_int L <$> forecast e' /\
  mape e' =
    forecast_values e' ≫=
      (fun fv => ok_value (mean_absolute_percentage_error L held_out fv)) /\
  printed_mape (trace_of (run L file)) = option_list (mape e').
Proof.
  intros Hdf Hx.
  destruct (run_modelled L file x Hdf Hx)
    as (((F1 & F2 & _) & _ & (C1 & C2 & C3 & _) & _ & (M1 & M2 & _)) & _).
  simpl. by split_and!.
Qed.

(** X10. A MAPE is printed only as the score of a forecast that was really
    made: the run prints the value [v] exactly when it was not stopped and
    [ARIMA] on [x[:-4]], [fit], [get_forecast] over [len(x[-4:])] steps and
    the MAPE of [x[-4:]] against the predicted means all returned, the last
    one [v]; failed plots do not matter, and no run prints two values. *)
Theorem mape_is_printed_iff_the_forecast_was_scored v :
  (printed_mape (trace_of (run L file)) = [v] <->
   exists x m rs f,
     df (env_of (run L file)) <> None /\
     patronage_weekly (env_of (run L file)) = Some x /\
     ARIMA L (slice_to (-4) x) (1, 1, 1) = Ok m /\ fit L m = Ok rs /\
     get_forecast L rs (length (slice_from (-4) x)) = Ok f /\
     mean_absolute_percentage_error L (slice_from (-4) x) (predicted_mean L f) = Ok v) /\
  (v ∈ printed_mape (trace_of (run L file)) ->
   printed_mape (trace_of (run L file)) = [v]).
Proof.
  assert (forall w, w ∈ printed_mape (trace_of (run L file)) ->
            printed_mape (trace_of (run L file)) = [w] /\
            exists x m rs f,
              df (env_of (run L file)) <> None /\
              patronage_weekly (env_of (run L file)) = Some x /\
              ARIMA L (slice_to (-4) x) (1, 1, 1) = Ok m /\ fit L m = Ok rs /\
              get_forecast L rs (length (slice_from (-4) x)) = Ok f /\
              mean_absolute_percentage_error L (slice_from (-4) x)
                (predicted_mean L f) = Ok w) as Hto.
  { intros w Hin. pose proof (run_audited L file) as Ha. unfold audited in Ha.
    destruct (df (env_of (run L file))) as [fr|] eqn:Hdf.
    2:{ destruct Ha as (_ & _ & _ & Hp). rewrite Hp in Hin. by apply elem_of_nil in Hin. }
    destruct (patronage_weekly (env_of (run L file))) as [x|] eqn:Hx.
    2:{ destruct Ha as (_ & _ & _ & Hp). rewrite Hp in Hin. by apply elem_of_nil in Hin. }
    destruct Ha as (((F1 & F2 & _) & _ & (C1 & C2 & C3 & _) & _ & (M1 & M2 & _)) & _).
    rewrite M2 in Hin |- *.
    destruct (mape (env_of (run L file))) as [v'|]; [|by apply elem_of_nil in Hin].
    apply list_elem_of_singleton in Hin. subst v'. split; [done|].
    destruct (forecast_values (env_of (run L file))) as [fv|]; [|done].
    destruct (forecast (env_of (run L file))) as [f|]; [|done].
    destruct (results (env_of (run L file))) as [rs|]; [|done].
    destruct (model (env_of (run L file))) as [m|]; [|done].
    simpl in *. exists x, m, rs, f.
    destruct (ARIMA L (slice_to (-4) x) (1, 1, 1)); [|done].
    destruct (fit L m); [|done].
    destruct (get_forecast L rs (length (slice_from (-4) x))); [|done].
    simplify_eq.
    destruct (mean_absolute_percentage_error L (slice_from (-4) x) (predicted_mean L f));
      [|done].
    simpl in *. simplify_eq. by split_and!. }
  split; [split|].
  - intros Hp. destruct (Hto v) as [_ H]; [|done]. rewrite Hp. apply list_elem_of_here.
  - intros (x & m & rs & f & Hdf & Hx & H1 & H2 & H3 & H4).
    destruct (run_modelled L file x Hdf Hx)
      as (((F1 & F2 & _) & _ & (C1 & C2 & C3 & _) & _ & (M1 & M2 & _)) & _).
    rewrite M2, M1, C2, C1, F2, F1, H1. simpl. rewrite H2. simpl. rewrite H3. simpl.
    by rewrite H4.
  - intros Hin. by destruct (Hto v Hin).
Qed.

(** X11. When [ARIMA] or [fit] raises, the fit handler logs the exception
    and leaves [df] as it is, so the later stages still run: the diagnostics
    and the forecast stage each log that the name [results] is not defined,
    the MAPE stage that [forecast_values] is not, no MAPE is printed and
    neither the diagnostic nor the forecast figure is written. *)
Theorem failed_fit_cascades x exc :
  df (env_of (run L file)) <> None ->
  patronage_weekly (env_of (run L file)) = Some x ->
  ARIMA L (slice_to (-4) x) (1, 1, 1) = Raise exc \/
  (exists m, ARIMA L (slice_to (-4) x) (1, 1, 1) = Ok m /\ fit L m = Raise exc) ->
  let t := trace_of (run L file) in
  Print ("Error while fitting ARIMA model: " ++ exn_msg exc)%string ∈ t /\
  Print "Error while plotting diagnostics: name 'results' is not defined" ∈ t /\
  Print "Error while forecasting: name 'results' is not defined" ∈ t /\
  Print "Error while calculating MAPE: name 'forecast_values' is not defined" ∈ t /\
  results (env_of (run L file)) = None /\
  forecast_values (env_of (run L file)) = None /\
  printed_mape t = [] /\
  (diagnostic_path ∉ figures t) /\ (forecast_path ∉ figures t).
Proof.
  intros Hdf Hx Hfail.
  destruct (run_modelled L file x Hdf Hx)
    as (((F1 & F2 & F3 & F4) & (D1 & D2) & (C1 & C2 & C3 & C4 & C5) & P1 &
         (M1 & M2 & M3 & M4)) & _).
  assert (results (env_of (run L file)) = None) as Hrs.
  { rewrite F2, F1. destruct Hfail as [->|(m & -> & Hfit)]; [done|].
    simpl. by rewrite Hfit. }
  assert (forecast_values (env_of (run L file)) = None) as Hfv.
  { by rewrite C2, C1, Hrs. }
  simpl. split_and!; auto.
  - destruct Hfail as [Ha|(m & Ha & Hfit)]; [by apply F3|].
    apply (F4 m); [|done]. by rewrite F1, Ha.
  - by rewrite M2, M1, Hfv.
  - intros [? Hin]%D1. congruence.
  - intros [? Hin]%P1. congruence.
Qed.

(** X12. No exception of a numeric call goes unreported in a run that is not
    stopped: what [ARIMA], [fit], [get_forecast] or the MAPE raises is
    printed under the message of its stage; after a failed forecast the MAPE
    stage logs that [forecast_values] is not defined, and the forecast
    figure is not written. *)
Theorem numeric_failures_are_logged x :
  df (env_of (run L file)) <> None ->
  patronage_weekly (env_of (run L file)) = Some x ->
  let t := trace_of (run L file) in
  let held_out := slice_from (-4) x in
  (forall exc, ARIMA L (slice_to (-4) x) (1, 1, 1) = Raise exc ->
     Print (logged Fit exc) ∈ t) /\
  (forall m exc,
     ARIMA L (slice_to (-4) x) (1, 1, 1) = Ok m -> fit L m = Raise exc ->
     Print (logged Fit exc) ∈ t) /\
  (forall m rs exc,
     ARIMA L (slice_to (-4) x) (1, 1, 1) = Ok m -> fit L m = Ok rs ->
     get_forecast L rs (length held_out) = Raise exc ->
     Print (logged ForecastStage exc) ∈ t /\
     Print (logged Mape (unbound_name "forecast_values")) ∈ t /\
     printed_mape t = [] /\ (forecast_path ∉ figures t)) /\
  (forall m rs f exc,
     ARIMA L (slice_to (-4) x) (1, 1, 1) = Ok m -> fit L m = Ok rs ->
     get_forecast L rs (length held_out) = Ok f ->
     mean_absolute_percentage_error L held_out (predicted_mean L f) = Raise exc ->
     Print (logged Mape exc) ∈ t /\ printed_mape t = []).
Proof.
  intros Hdf Hx.
  destruct (run_modelled L file x Hdf Hx)
    as (((F1 & F2 & F3 & F4) & (D1 & D2) & (C1 & C2 & C3 & C4 & C5) & P1 &
         (M1 & M2 & M3 & M4)) & _).
  simpl. split_and!.
  - done.
  - intros m exc Ha Hfit. apply (F4 m); [|done]. by rewrite F1, Ha.
  - intros m rs exc Ha Hfit Hfc.
    assert (results (env_of (run L file)) = Some rs) as Hrs.
    { rewrite F2, F1, Ha. simpl. by rewrite Hfit. }
    assert (forecast_values (env_of (run L file)) = None) as Hfv.
    { rewrite C2, C1, Hrs. simpl. by rewrite Hfc. }
    split_and!; eauto.
    + by rewrite M2, M1, Hfv.
    + intros [? Hin]%P1. congruence.
  - intros m rs f exc Ha Hfit Hfc Hm.
    assert (forecast_values (env_of (run L file)) = Some (predicted_mean L f)) as Hfv.
    { rewrite C2, C1, F2, F1, Ha. simpl. rewrite Hfit. simpl. by rewrite Hfc. }
    split; [eauto|]. rewrite M2, M1, Hfv. simpl. by rewrite Hm.
Qed.

(** X13. Whatever the libraries do, a run writes its figures in the order of
    the script and none twice; the PACF figure is written only after the ACF
    figure, the diagnostic figure only when [results] is bound and the
    forecast figure only when [forecast_values] is; a run that ends with
    [df] reset or without a weekly series has written no figure and printed
    no MAPE. *)
Theorem figures_follow_the_script :
  let e' := env_of (run L file) in
  let t := trace_of (run L file) in
  sublist (figures t) four_figures /\
  (pacf_path ∈ figures t -> acf_path ∈ figures t) /\
  (diagnostic_path ∈ figures t -> is_Some (results e')) /\
  (forecast_path ∈ figures t -> is_Some (forecast_values e')) /\
  (df e' = None \/ patronage_weekly e' = None ->
   figures t = [] /\ printed_mape t = [] /\ not_yet_modelled e').
Proof.
  simpl. pose proof (run_audited L file) as Ha. unfold audited in Ha.
  destruct (df (env_of (run L file))) as [fr|] eqn:Hdf;
    [destruct (patronage_weekly (env_of (run L file))) as [x|] eqn:Hx|].
  - destruct Ha as ((_ & (D1 & _) & _ & P1 & _) & S1 & S2).
    split_and!; try done. by intros [|].
  - destruct Ha as (Hn & _ & Hf & Hp). rewrite Hf.
    split_and!; try done; try (by intros ?%elem_of_nil). apply sublist_nil_l.
  - destruct Ha as (Hn & _ & Hf & Hp). rewrite Hf.
    split_and!; try done; try (by intros ?%elem_of_nil). apply sublist_nil_l.
Qed.

End Modelling.

(** * Runs of the script in the small world *)

Example toy_run_trace :
  trace_of toy_run =
    [CallAdfuller [2; 1; 1; 3; 0; 3]; CallAdfuller [-1; 0; 2; -3; 3];
     CallPlotAcf [-1; 0; 2; -3; 3]; Savefig acf_path;
     CallPlotPacf [-1; 0; 2; -3; 3]; Savefig pacf_path;
     CallARIMA [2; 1] (1, 1, 1); CallFit ([2; 1], (1, 1, 1));
     CallPlotDiagnostics [2; 1]; Savefig diagnostic_path;
     CallGetForecast [2; 1] 4; Savefig forecast_path;
     CallMAPE [1; 3; 0; 3] (repeat 0x1.4p+1%float 4);
     PrintMAPE 0x1p-2%float].
Proof. vm_compute. reflexivity. Qed.

Lemma fit_on_all_but_last_four_witness :
  train_data (env_of toy_run) = Some [2; 1] /\
  slice_to (-4) [2; 1; 1; 3; 0; 3] = [2; 1] /\
  length [2; 1] = 2%nat /\
  [2; 1] ++ [1; 3; 0; 3] = [2; 1; 1; 3; 0; 3] /\
  CallARIMA [2; 1] (1, 1, 1) ∈ trace_of toy_run /\
  (forall endog order,
     CallARIMA endog order ∈ trace_of toy_run -> endog = [2; 1] /\ order = (1, 1, 1)) /\
  model (env_of toy_run) = Some ([2; 1], (1, 1, 1)) /\
  results (env_of toy_run) = Some [2; 1].
Proof.
  destruct (fit_on_all_but_last_four
              (toy_library (fun _ => Ok p_high) (fun _ => Ok tt)) (Ok toy_table)
              [2; 1; 1; 3; 0; 3])
    as (H1 & H2 & H3 & H4 & H5 & H6 & _ & _ & H9).
  - split; [vm_compute; reflexivity | holds_a_table].
  - vm_compute. reflexivity.
  - simpl. lia.
  - destruct (H9 ([2; 1], (1, 1, 1)) [2; 1] eq_refl eq_refl) as [Hm Hrs].
    split_and!; [exact H1 | exact H2 | exact H3 | exact H4 | exact H5 | exact H6
                | exact Hm | exact Hrs].
Defined.

Lemma forecast_covers_held_out_weeks_witness :
  test_data (env_of toy_run) = Some [1; 3; 0; 3] /\
  length [1; 3; 0; 3] = 4%nat /\
  CallGetForecast [2; 1] 4 ∈ trace_of toy_run /\
  (forall r' n, CallGetForecast r' n ∈ trace_of toy_run -> r' = [2; 1] /\ n = 4%nat) /\
  (forall f,
     get_forecast (toy_library (fun _ => Ok p_high) (fun _ => Ok tt)) [2; 1] 4 = Ok f ->
     forecast_values (env_of toy_run) = Some f /\
     forecast_ci (env_of toy_run) = Some (map (fun v => (v - 1, v + 1)%float) f)).
Proof.
  apply (forecast_covers_held_out_weeks
           (toy_library (fun _ => Ok p_high) (fun _ => Ok tt)) (Ok toy_table)
           [2; 1; 1; 3; 0; 3] [2; 1]).
  - vm_compute. reflexivity.
  - simpl. lia.
  - vm_compute. reflexivity.
Defined.

Lemma arima_order_is_fixed_witness :
  d (env_of (stationarity_body (toy_library (fun _ => Ok p_high) (fun _ => Ok tt))
               (set_patronage_weekly (Some [2; 1; 1; 3; 0; 3]) unbound))) = Some 2 /\
  d (env_of (stationarity_body (toy_library (fun _ => Ok p_low) (fun _ => Ok tt))
               (set_patronage_weekly (Some [2; 1; 1; 3; 0; 3]) unbound))) = Some 0 /\
  (1, 1, 1) = (1, 1, 1) /\ (1, 1, 1) = (1, 1, 1).
Proof.
  split; [vm_compute; reflexivity|]. split; [vm_compute; reflexivity|].
  apply (arima_order_is_fixed
           (toy_library (fun _ => Ok p_high) (fun _ => Ok tt)) (Ok toy_table)
           (toy_library (fun _ => Ok p_low) (fun _ => Ok tt)) (Ok toy_table)
           [2; 1] (1, 1, 1) [2; 1] (1, 1, 1)).
  - vm_compute. do 6 apply list_elem_of_further. apply list_elem_of_here.
  - vm_compute. do 5 apply list_elem_of_further. apply list_elem_of_here.
Defined.

Lemma plots_use_first_difference_witness :
  (forall e : env (series * (Z * Z * Z)) series (list float),
     patronage_weekly e = Some [2; 1; 1; 3; 0; 3] ->
     exists e1,
       stationarity_body (toy_library (fun _ => Ok p_high) (fun _ => Ok tt)) e =
         (Ok tt, e1, [CallAdfuller [2; 1; 1; 3; 0; 3]; CallAdfuller [-1; 0; 2; -3; 3]]) /\
       d e1 = Some 2 /\ data_diff e1 = Some [-1; 0; 2; -3; 3]) /\
  data_diff (env_of toy_run) = Some [-1; 0; 2; -3; 3] /\
  CallPlotAcf [-1; 0; 2; -3; 3] ∈ trace_of toy_run /\
  (forall dx,
     CallPlotAcf dx ∈ trace_of toy_run \/ CallPlotPacf dx ∈ trace_of toy_run ->
     dx = [-1; 0; 2; -3; 3]) /\
  (forall i a b, [2; 1; 1; 3; 0; 3] !! i = Some a -> [2; 1; 1; 3; 0; 3] !! S i = Some b ->
     [-1; 0; 2; -3; 3] !! i = Some (b - a)).
Proof.
  apply (plots_use_first_difference
           (toy_library (fun _ => Ok p_high) (fun _ => Ok tt)) (Ok toy_table)
           [2; 1; 1; 3; 0; 3] p_high p_high).
  - vm_compute. reflexivity.
  - reflexivity.
  - vm_compute. reflexivity.
  - reflexivity.
  - vm_compute. reflexivity.
Defined.

Lemma short_series_is_all_held_out_witness :
  (df (env_of toy_run_short_checked) = None /\
   train_data (env_of toy_run_short_checked) = None /\
   test_data (env_of toy_run_short_checked) = None /\
   model (env_of toy_run_short_checked) = None) /\
  (train_data (env_of toy_run_short) = Some [] /\
   test_data (env_of toy_run_short) = Some [2; 1; 1] /\
   CallARIMA [] (1, 1, 1) ∈ trace_of toy_run_short /\
   model (env_of toy_run_short) = Some ([], (1, 1, 1)) /\
   (forall r n, CallGetForecast r n ∈ trace_of toy_run_short -> n = 3%nat)).
Proof.
  split.
  - destruct (short_series_is_all_held_out
                (toy_library toy_adfuller (fun _ => Ok tt)) (Ok toy_short_table)
                [2; 1; 1]) as (H1 & _ & H3).
    + vm_compute. reflexivity.
    + simpl. lia.
    + assert (df (env_of toy_run_short_checked) = None) as Hdf.
      { apply H3. intros s Hs. simpl. unfold toy_adfuller.
        destruct (decide (length s < 4)%nat); [by eexists | lia]. }
      destruct (H1 Hdf) as (_ & _ & Htr & Hte & Hm & _).
      split_and!; [exact Hdf | exact Htr | exact Hte | exact Hm].
  - destruct (short_series_is_all_held_out
                (toy_library (fun _ => Ok p_high) (fun _ => Ok tt)) (Ok toy_short_table)
                [2; 1; 1]) as (_ & H2 & _).
    + vm_compute. reflexivity.
    + simpl. lia.
    + destruct H2 as (_ & _ & Htr & Hte & Hin & _ & Hm & _ & _ & Hsteps);
        [holds_a_table|].
      split_and!; [exact Htr | exact Hte | exact Hin | exact Hm | exact Hsteps].
Defined.

(** C10 as stated fails.  With a Dickey-Fuller test that raises on fewer
    than 4 observations, a table of three weeks stops at the stationarity
    stage: the handler logs the error and resets [df], no split is made and
    no model is fitted. *)
Lemma short_series_counterexample :
  ~ short_series_is_fitted toy_run_short_checked /\
  exit_of toy_run_short_checked = Ok tt /\
  patronage_weekly (env_of toy_run_short_checked) = Some [2; 1; 1] /\
  trace_of toy_run_short_checked =
    [CallAdfuller [2; 1; 1];
     Print "Error during stationarity check: sample size is too short to use selected regression component"] /\
  df (env_of toy_run_short_checked) = None /\
  train_data (env_of toy_run_short_checked) = None /\
  test_data (env_of toy_run_short_checked) = None.
Proof.
  split_and!; try (vm_compute; reflexivity).
  intros H. destruct (H [2; 1; 1]) as (Htr & _).
  - vm_compute. reflexivity.
  - simpl. lia.
  - vm_compute in Htr. discriminate.
Qed.

Lemma successful_run_outputs_witness :
  figures (trace_of toy_run_checked) =
    [acf_path; pacf_path; diagnostic_path; forecast_path] /\
  printed_mape (trace_of toy_run_checked) = [0x1p-2%float].
Proof.
  destruct (successful_run_outputs
              (toy_library toy_adfuller (fun _ => Ok tt)) (Ok toy_table))
    as (x & p1 & m & rs & f & v & H).
  - intros s Hs. simpl. unfold toy_adfuller.
    destruct (decide (length s < 4)%nat); [by eexists | lia].
  - intros rs n f [= <-]. simpl. apply repeat_length.
  - split; [vm_compute; reflexivity|].
    intros line Hin. vm_compute in Hin.
    repeat (apply elem_of_cons in Hin; destruct Hin as [Hin|Hin]; [discriminate|]).
    by apply elem_of_nil in Hin.
  - simpl in H.
    destruct H as (_ & _ & _ & _ & _ & _ & _ & _ & _ & _ & _ & _ & Hv & _ & Hfig & _ & Hpm).
    injection Hv as <-. split; [exact Hfig | exact Hpm].
Defined.

Lemma exception_policy_witness :
  from_stage (toy_library (fun _ => Raise (mk_exn OtherException "sample size is too short"))
                (fun _ => Ok tt))
    (Ok toy_table) Stationarity (set_patronage_weekly (Some [2; 1; 1]) unbound)
  = (Ok tt, set_df None (set_patronage_weekly (Some [2; 1; 1]) unbound),
     [CallAdfuller [2; 1; 1]] ++
     [Print "Error during stationarity check: sample size is too short"]).
Proof.
  apply (exception_policy
           (toy_library (fun _ => Raise (mk_exn OtherException "sample size is too short"))
              (fun _ => Ok tt))
           (Ok toy_table) Stationarity
           (set_patronage_weekly (Some [2; 1; 1]) unbound)
           (set_patronage_weekly (Some [2; 1; 1]) unbound)
           (mk_exn OtherException "sample size is too short")
           [CallAdfuller [2; 1; 1]]).
  vm_compute. reflexivity.
Defined.

(** C2 as stated fails.  A table without an [InvoiceDate] column makes the
    load stage raise [KeyError], which none of its three [except] clauses
    catches: the script ends by that exception and logs nothing.  And when
    [plot_acf] raises, the handler logs the message and the script goes on to
    split, fit, forecast and print the MAPE. *)
Lemma policy_counterexample :
  ~ caught_logged_skipped (toy_library (fun _ => Ok p_high) (fun _ => Ok tt))
      (Ok (delete "InvoiceDate" toy_table)) Load unbound /\
  run (toy_library (fun _ => Ok p_high) (fun _ => Ok tt))
      (Ok (delete "InvoiceDate" toy_table))
    = (Raise (mk_exn KeyError "'InvoiceDate'"),
       set_df (Some (delete "InvoiceDate" toy_table)) unbound, []) /\
  exit_of toy_run_acf_fails = Ok tt /\
  trace_of toy_run_acf_fails =
    [CallAdfuller [2; 1; 1; 3; 0; 3]; CallAdfuller [-1; 0; 2; -3; 3];
     CallPlotAcf [-1; 0; 2; -3; 3];
     Print "Error while plotting ACF and PACF: boom";
     CallARIMA [2; 1] (1, 1, 1); CallFit ([2; 1], (1, 1, 1));
     CallPlotDiagnostics [2; 1]; Savefig diagnostic_path;
     CallGetForecast [2; 1] 4; Savefig forecast_path;
     CallMAPE [1; 3; 0; 3] (repeat 0x1.4p+1%float 4);
     PrintMAPE 0x1p-2%float].
Proof.
  split_and!.
  - intros H.
    destruct (H (mk_exn KeyError "'InvoiceDate'")
                (set_df (Some (delete "InvoiceDate" toy_table)) unbound) [])
      as (line & e2 & Heq).
    + vm_compute. reflexivity.
    + vm_compute in Heq. discriminate.
  - vm_compute. reflexivity.
  - vm_compute. reflexivity.
  - vm_compute. reflexivity.
Qed.

(** C4, at an input on which both tests report 0.6: the stage records [d = 2],
    yet [data_diff], the series the parameter plots are drawn from, is the
    first difference [-1; 0; 2; -3; 3] and not the second difference
    [1; 2; -5; 6]. *)
Theorem second_difference_is_not_taken :
  patronage_weekly (env_of toy_run) = Some [2; 1; 1; 3; 0; 3] /\
  exceeds_alpha p_high = true /\
  d (env_of (stationarity_body (toy_library (fun _ => Ok p_high) (fun _ => Ok tt))
               (set_patronage_weekly (Some [2; 1; 1; 3; 0; 3]) unbound))) = Some 2 /\
  data_diff (env_of toy_run) = Some (dropna (diff [2; 1; 1; 3; 0; 3])) /\
  dropna (diff [2; 1; 1; 3; 0; 3]) = [-1; 0; 2; -3; 3] /\
  dropna (diff (dropna (diff [2; 1; 1; 3; 0; 3]))) = [1; 2; -5; 6] /\
  CallPlotAcf [-1; 0; 2; -3; 3] ∈ trace_of toy_run /\
  CallPlotPacf [-1; 0; 2; -3; 3] ∈ trace_of toy_run /\
  (CallPlotAcf [1; 2; -5; 6] ∉ trace_of toy_run) /\
  (CallPlotPacf [1; 2; -5; 6] ∉ trace_of toy_run).
Proof.
  rewrite toy_run_trace.
  split_and!; try (vm_compute; reflexivity).
  - do 2 apply list_elem_of_further. apply list_elem_of_here.
  - do 4 apply list_elem_of_further. apply list_elem_of_here.
  - intros Hin. repeat (apply elem_of_cons in Hin; destruct Hin as [Hin|Hin]; [discriminate|]).
    by apply elem_of_nil in Hin.
  - intros Hin. repeat (apply elem_of_cons in Hin; destruct Hin as [Hin|Hin]; [discriminate|]).
    by apply elem_of_nil in Hin.
Qed.

Lemma weekly_counts_per_week_witness :
  patronage_weekly (env_of toy_run) = Some [2; 1; 1; 3; 0; 3] /\
  weekly_distinct_counts toy_rows [2; 1; 1; 3; 0; 3].
Proof.
  destruct (weekly_counts_per_week
              (toy_library (fun _ => Ok p_high) (fun _ => Ok tt)) (Ok toy_table)
              toy_table
              [Int 0; Int 1; Int 8; Int 9; Int 15; Int 22; Int 23; Int 23; Int 29;
               Int 36; Int 36; Int 37]
              [Int 0; Int 1; Int 8; Int 9; Int 15; Int 22; Int 23; Int 23; Int 29;
               Int 36; Int 36; Int 37]
              [Int 1; Int 1; Int 2; Int 2; Int 3; Int 4; Int 4; Int 4; Int 5;
               Int 6; Int 6; Int 6]
              [Some 1; Some 1; Some 2; Some 2; Some 3; Some 4; Some 4; Some 4; Some 5;
               Some 6; Some 6; Some 6]
              [Int 1; Int 2; Int 1; Int 1; Int 3; Int 1; Int 2; Int 3; NA; Int 4;
               Int 5; Int 1])
    as (x & Hx & Hg & Hspec & _); try (vm_compute; reflexivity).
  vm_compute in Hg. injection Hg as <-. split; [exact Hx | exact Hspec].
Defined.

Lemma other_columns_are_ignored_witness :
  exit_of toy_run =
    exit_of (run (toy_library (fun _ => Ok p_high) (fun _ => Ok tt))
               (Ok toy_table_other_columns)) /\
  trace_of toy_run =
    trace_of (run (toy_library (fun _ => Ok p_high) (fun _ => Ok tt))
                (Ok toy_table_other_columns)) /\
  patronage_weekly (env_of toy_run) =
    patronage_weekly (env_of (run (toy_library (fun _ => Ok p_high) (fun _ => Ok tt))
                                (Ok toy_table_other_columns))) /\
  forecast_values (env_of toy_run) =
    forecast_values (env_of (run (toy_library (fun _ => Ok p_high) (fun _ => Ok tt))
                               (Ok toy_table_other_columns))) /\
  forecast_ci (env_of toy_run) =
    forecast_ci (env_of (run (toy_library (fun _ => Ok p_high) (fun _ => Ok tt))
                           (Ok toy_table_other_columns))) /\
  mape (env_of toy_run) =
    mape (env_of (run (toy_library (fun _ => Ok p_high) (fun _ => Ok tt))
                    (Ok toy_table_other_columns))) /\
  numeric_state (env_of toy_run) =
    numeric_state (env_of (run (toy_library (fun _ => Ok p_high) (fun _ => Ok tt))
                             (Ok toy_table_other_columns))).
Proof.
  apply (other_columns_are_ignored
           (toy_library (fun _ => Ok p_high) (fun _ => Ok tt))
           toy_table toy_table_other_columns).
  - vm_compute. reflexivity.
  - vm_compute. reflexivity.
Defined.

(** * The further properties in the small world *)

Lemma missing_invoice_date_is_uncaught_witness :
  run (toy_library (fun _ => Ok p_high) (fun _ => Ok tt)) (Ok toy_table_no_dates) =
    (Raise (mk_exn KeyError "'InvoiceDate'"),
     set_df (Some toy_table_no_dates) unbound, []).
Proof.
  apply (missing_invoice_date_is_uncaught
           (toy_library (fun _ => Ok p_high) (fun _ => Ok tt))
           (Ok toy_table_no_dates) toy_table_no_dates).
  - reflexivity.
  - vm_compute. reflexivity.
Defined.

Lemma missing_customer_id_stops_the_run_witness :
  exit_of (run (toy_library (fun _ => Ok p_high) (fun _ => Ok tt))
             (Ok toy_table_no_customers)) = Ok tt /\
  trace_of (run (toy_library (fun _ => Ok p_high) (fun _ => Ok tt))
              (Ok toy_table_no_customers)) =
    [Print "Error while grouping patronage by week: 'Column not found: CustomerID'"] /\
  df (env_of (run (toy_library (fun _ => Ok p_high) (fun _ => Ok tt))
                (Ok toy_table_no_customers))) = None /\
  patronage_weekly (env_of (run (toy_library (fun _ => Ok p_high) (fun _ => Ok tt))
                              (Ok toy_table_no_customers))) = None.
Proof.
  apply (missing_customer_id_stops_the_run
           (toy_library (fun _ => Ok p_high) (fun _ => Ok tt))
           (Ok toy_table_no_customers) toy_table_no_customers
           [Int 0; Int 1; Int 8; Int 9; Int 15; Int 22; Int 23; Int 23; Int 29;
            Int 36; Int 36; Int 37]
           [Int 0; Int 1; Int 8; Int 9; Int 15; Int 22; Int 23; Int 23; Int 29;
            Int 36; Int 36; Int 37]
           [Int 1; Int 1; Int 2; Int 2; Int 3; Int 4; Int 4; Int 4; Int 5;
            Int 6; Int 6; Int 6]).
  - reflexivity.
  - vm_compute. reflexivity.
  - vm_compute. reflexivity.
  - vm_compute. reflexivity.
  - vm_compute. reflexivity.
Defined.

Lemma weekly_counts_ignore_order_and_repeats_witness :
  groupby_nunique toy_invoices = groupby_nunique toy_invoices_shuffled /\
  groupby_nunique toy_invoices = Ok [2; 1].
Proof.
  split; [|vm_compute; reflexivity].
  apply (weekly_counts_ignore_order_and_repeats toy_invoices toy_invoices_shuffled
           [Int 1; Int 1; Int 2] [Int 2; Int 1; Int 1; Int 1]
           [Some 1; Some 1; Some 2] [Some 2; Some 1; Some 1; Some 1]
           [Int 1; Int 2; Int 1] [Int 1; Int 2; Int 1; Int 2]).
  - vm_compute. reflexivity.
  - vm_compute. reflexivity.
  - vm_compute. reflexivity.
  - vm_compute. reflexivity.
  - vm_compute. reflexivity.
  - vm_compute. reflexivity.
  - intros row. simpl. split; intros Hin; inv_elem Hin; subst row;
      repeat first [ apply list_elem_of_here | apply list_elem_of_further ].
Defined.

Lemma weekly_counts_bounded_by_rows_witness :
  exists customers,
    toy_invoices_shuffled !! "CustomerID" = Some customers /\
    foldr Z.add 0 [2; 1] <= Z.of_nat (length (filter (fun c => c <> NA) customers)) /\
    Forall (fun n => 0 <= n <= Z.of_nat (length (filter (fun c => c <> NA) customers)))
      [2; 1].
Proof.
  apply (weekly_counts_bounded_by_rows toy_invoices_shuffled [2; 1]).
  vm_compute. reflexivity.
Defined.

Lemma weekly_series_has_at_most_53_entries_witness : (length [2; 1] <= 53)%nat.
Proof.
  apply (weekly_series_has_at_most_53_entries toy_invoices_shuffled
           [Int 2; Int 1; Int 1; Int 1] [2; 1]).
  - vm_compute. reflexivity.
  - apply Forall_forall. intros c Hc. inv_elem Hc; subst c; simpl; lia.
  - vm_compute. reflexivity.
Defined.

Lemma split_is_a_partition_witness :
  exists train test,
    train_data (env_of toy_run_short) = Some train /\
    test_data (env_of toy_run_short) = Some test /\
    train ++ test = [2; 1; 1] /\
    length test = Nat.min 4 (length [2; 1; 1]) /\
    length train = (length [2; 1; 1] - 4)%nat.
Proof.
  apply (split_is_a_partition
           (toy_library (fun _ => Ok p_high) (fun _ => Ok tt)) (Ok toy_short_table)
           [2; 1; 1]).
  - split; [vm_compute; reflexivity | holds_a_table].
  - vm_compute. reflexivity.
Defined.

Lemma stationary_series_is_plotted_as_it_is_witness :
  data_diff (env_of toy_run_stationary) = Some [2; 1; 1; 3; 0; 3] /\
  CallPlotAcf [2; 1; 1; 3; 0; 3] ∈ trace_of toy_run_stationary /\
  d (env_of toy_run_stationary) = Some 1 /\
  CallARIMA [2; 1] (1, 1, 1) ∈ trace_of toy_run_stationary.
Proof.
  destruct (stationary_series_is_plotted_as_it_is
              (toy_library (fun _ => Ok p_low) (fun _ => Ok tt)) (Ok toy_table)
              [2; 1; 1; 3; 0; 3] p_low)
    as (_ & H1 & H2 & _ & H3 & H4).
  - vm_compute. reflexivity.
  - reflexivity.
  - vm_compute. reflexivity.
  - by split_and!.
Defined.

Lemma differenced_series_is_plotted_witness :
  df (env_of toy_run_differenced) <> None /\
  data_diff (env_of toy_run_differenced) = Some [-1; 0; 2; -3; 3] /\
  CallPlotAcf [-1; 0; 2; -3; 3] ∈ trace_of toy_run_differenced /\
  (forall dx,
     CallPlotAcf dx ∈ trace_of toy_run_differenced \/
     CallPlotPacf dx ∈ trace_of toy_run_differenced ->
     dx = [-1; 0; 2; -3; 3]).
Proof.
  apply (differenced_series_is_plotted
           (toy_library
              (fun s => if decide (length s = 6%nat) then Ok p_high else Ok p_low)
              (fun _ => Ok tt))
           (Ok toy_table) [2; 1; 1; 3; 0; 3] p_high p_low).
  - vm_compute. reflexivity.
  - reflexivity.
  - vm_compute. reflexivity.
  - reflexivity.
  - vm_compute. reflexivity.
Defined.

Lemma modelling_variables_are_determined_witness :
  model (env_of toy_run_acf_fails) = Some ([2; 1], (1, 1, 1)) /\
  results (env_of toy_run_acf_fails) = Some [2; 1] /\
  forecast_values (env_of toy_run_acf_fails) = Some (repeat 0x1.4p+1%float 4) /\
  mape (env_of toy_run_acf_fails) = Some 0x1p-2%float /\
  printed_mape (trace_of toy_run_acf_fails) = [0x1p-2%float] /\
  Print "Error while plotting ACF and PACF: boom" ∈ trace_of toy_run_acf_fails.
Proof.
  unfold toy_run_acf_fails.
  destruct (modelling_variables_are_determined
              (toy_library (fun _ => Ok p_high)
                 (fun _ => Raise (mk_exn OtherException "boom")))
              (Ok toy_table) [2; 1; 1; 3; 0; 3])
    as (H1 & H2 & H3 & H4 & H5 & H6 & H7).
  - holds_a_table.
  - vm_compute. reflexivity.
  - split_and!.
    + by rewrite H1.
    + by rewrite H2, H1.
    + by rewrite H4, H3, H2, H1.
    + by rewrite H6, H4, H3, H2, H1.
    + by rewrite H7, H6, H4, H3, H2, H1.
    + vm_compute. do 3 apply list_elem_of_further. apply list_elem_of_here.
Defined.

Lemma mape_is_printed_iff_the_forecast_was_scored_witness :
  printed_mape (trace_of toy_run_acf_fails) = [0x1p-2%float].
Proof.
  destruct (mape_is_printed_iff_the_forecast_was_scored
              (toy_library (fun _ => Ok p_high)
                 (fun _ => Raise (mk_exn OtherException "boom")))
              (Ok toy_table) 0x1p-2%float) as [[_ H] _].
  unfold toy_run_acf_fails. apply H.
  exists [2; 1; 1; 3; 0; 3], ([2; 1], (1, 1, 1)), [2; 1], (repeat 0x1.4p+1%float 4).
  split_and!; [holds_a_table | vm_compute; reflexivity | reflexivity ..].
Defined.

Lemma failed_fit_cascades_witness :
  Print "Error while fitting ARIMA model: LU decomposition error."
    ∈ trace_of toy_run_no_fit /\
  Print "Error while plotting diagnostics: name 'results' is not defined"
    ∈ trace_of toy_run_no_fit /\
  Print "Error while forecasting: name 'results' is not defined"
    ∈ trace_of toy_run_no_fit /\
  Print "Error while calculating MAPE: name 'forecast_values' is not defined"
    ∈ trace_of toy_run_no_fit /\
  results (env_of toy_run_no_fit) = None /\
  forecast_values (env_of toy_run_no_fit) = None /\
  printed_mape (trace_of toy_run_no_fit) = [] /\
  (diagnostic_path ∉ figures (trace_of toy_run_no_fit)) /\
  (forecast_path ∉ figures (trace_of toy_run_no_fit)).
Proof.
  apply (failed_fit_cascades toy_library_no_fit (Ok toy_table) [2; 1; 1; 3; 0; 3]
           (mk_exn OtherException "LU decomposition error.")).
  - holds_a_table.
  - vm_compute. reflexivity.
  - left. reflexivity.
Defined.

Lemma numeric_failures_are_logged_witness :
  Print "Error while forecasting: Prediction must have `end` after `start`."
    ∈ trace_of toy_run_no_forecast /\
  Print "Error while calculating MAPE: name 'forecast_values' is not defined"
    ∈ trace_of toy_run_no_forecast /\
  printed_mape (trace_of toy_run_no_forecast) = [] /\
  (forecast_path ∉ figures (trace_of toy_run_no_forecast)).
Proof.
  destruct (numeric_failures_are_logged toy_library_no_forecast (Ok toy_table)
              [2; 1; 1; 3; 0; 3]) as (_ & _ & H & _).
  - holds_a_table.
  - vm_compute. reflexivity.
  - apply (H ([2; 1], (1, 1, 1)) [2; 1]
             (mk_exn OtherException "Prediction must have `end` after `start`."));
      reflexivity.
Defined.
